(** * Trip budget ledger: the reconciliation engine of [server/server.js]

    A shallow embedding of [recalculateState] and of the request handlers
    that mutate a trip's ledger before calling it, together with the
    properties the trip specification states about them.

    Numbers.  The engine is embedded twice.  In the first embedding a
    JavaScript number is an exact rational or [NaN]: arithmetic is carried
    out without IEEE rounding, and the infinities and the sign of zero are
    not represented; both divisions of the engine are guarded by a positive
    length, so no quotient by zero is ever formed.  This embedding carries
    the properties that do not depend on rounding: each states a slot as the
    expression the code computes for it, or rests on order facts that
    binary64 arithmetic shares.  In module [Binary64], at the end of the
    definitions, a number is an IEEE 754 binary64 value, with rounding to
    nearest, infinities and signed zero, and [recalculateState] is embedded
    again over it; what depends on rounding is stated there.

    Values.  A slot that the Mongoose schema types as [Number] may hold, in a
    stored JSON document, a number, [null], a boolean, or be absent; text in
    such a slot is outside the model.

    Objects.  Members are objects held in the [members] array and mutated in
    place; every object occurs once in the array (the document comes from
    [JSON.parse]), so the array is a list of records and an in-place update
    of the object returned by [Array.prototype.find] is an update of the
    first list element that satisfies the predicate. *)

From Stdlib Require Import List Bool Arith ZArith QArith Qabs Qround Qreduction String Lia Lqa.
From Corelib Require SpecFloat.
Import ListNotations.
Local Open Scope string_scope.
Local Open Scope Q_scope.

Set Implicit Arguments.

(** ** JavaScript numbers *)

Module JS.

Inductive number : Type :=
| Num (q : Q)
| NaN.

Definition lift2 (f : Q -> Q -> Q) (x y : number) : number :=
  match x, y with
  | Num a, Num b => Num (Qred (f a b))
  | _, _ => NaN
  end.

Definition add : number -> number -> number := lift2 Qplus.
Definition sub : number -> number -> number := lift2 Qminus.
Definition mul : number -> number -> number := lift2 Qmult.

(** [x / y].  A zero divisor is answered with [NaN]; the modelled code only
    divides by the length of a non-empty array. *)
Definition div (x y : number) : number :=
  match x, y with
  | Num a, Num b => if Qeq_bool b 0 then NaN else Num (Qred (a / b))
  | _, _ => NaN
  end.

(** [array.length] as a number. *)
Definition of_nat (n : nat) : number := Num (inject_Z (Z.of_nat n)).

Definition isNaN (x : number) : bool :=
  match x with NaN => true | Num _ => false end.

(** A number is falsy when it is [0] or [NaN]. *)
Definition falsy (x : number) : bool :=
  match x with NaN => true | Num a => Qeq_bool a 0 end.

(** [x || 0] on a number. *)
Definition or_zero (x : number) : number :=
  if falsy x then Num 0 else x.

(** [x <= y] and [x > y]; every comparison with [NaN] is false. *)
Definition leb (x y : number) : bool :=
  match x, y with
  | Num a, Num b => Qle_bool a b
  | _, _ => false
  end.

Definition gtb (x y : number) : bool :=
  match x, y with
  | Num a, Num b => negb (Qle_bool a b)
  | _, _ => false
  end.

(** [Math.max(x, y)]: [NaN] if either argument is. *)
Definition max (x y : number) : number :=
  match x, y with
  | Num a, Num b => if Qle_bool a b then Num b else Num a
  | _, _ => NaN
  end.

(** [Math.round(x)]: the integer nearest to [x], the larger one on a tie,
    which is the floor of [x + 1/2]. *)
Definition round (x : number) : number :=
  match x with
  | Num a => Num (inject_Z (Qfloor (a + (1 # 2))))
  | NaN => NaN
  end.

(** Numeric equality, with [NaN] related to itself only (the same-value
    relation of the language, not its [===]). *)
Definition same (x y : number) : Prop :=
  match x, y with
  | Num a, Num b => a == b
  | NaN, NaN => True
  | _, _ => False
  end.

(** ** Values found in a numeric slot *)

Inductive value : Type :=
| VUndefined
| VNull
| VBool (b : bool)
| VNum (x : number).

(** [typeof v === 'number'] *)
Definition is_number (v : value) : bool :=
  match v with VNum _ => true | _ => false end.

(** The conversion applied by the arithmetic operators. *)
Definition ToNumber (v : value) : number :=
  match v with
  | VUndefined => NaN
  | VNull => Num 0
  | VBool true => Num 1
  | VBool false => Num 0
  | VNum x => x
  end.

(** [parseFloat(v)]: the argument is first turned into text; the text of a
    number reads back as that number, the texts [undefined], [null], [true]
    and [false] do not start with a numeral. *)
Definition parseFloat (v : value) : number :=
  match v with
  | VNum x => x
  | _ => NaN
  end.

Definition truthy (v : value) : bool :=
  match v with
  | VUndefined | VNull => false
  | VBool b => b
  | VNum x => negb (falsy x)
  end.

(** [v || 0] on a slot. *)
Definition or_zero_value (v : value) : value :=
  if truthy v then v else VNum (Num 0).

(** [v + x], [v += x] with a number on the right: no operand is text, so the
    operator is numeric addition. *)
Definition plus (v : value) (x : number) : value :=
  VNum (add (ToNumber v) x).

(** A string is truthy when it is not empty. *)
Definition truthy_string (s : string) : bool :=
  negb (String.eqb s "").

(** An identifier slot: a string, or absent. *)
Definition truthy_id (i : option string) : bool :=
  match i with
  | Some s => truthy_string s
  | None => false
  end.

(** [a === b] on identifier slots; two absent slots are equal. *)
Definition id_eqb (a b : option string) : bool :=
  match a, b with
  | Some s, Some t => String.eqb s t
  | None, None => true
  | _, _ => false
  end.

End JS.

Import JS.

(** ** The ledger *)

(** A member object.  The three [custom*] flags are booleans, an absent flag
    being [false]. *)
Record member : Type := Member {
  member_id : option string;
  name : string;
  expectedContribution : value;
  actualContribution : value;
  personal : value;
  reimbursed : value;
  remainingContribution : value;
  balance : value;
  expenseShare : value;
  customExpected : bool;
  customPersonal : bool;
  customBalance : bool
}.

(** An expense object; [splitBetween] is [None] when the slot is absent or is
    not an array. *)
Record expense : Type := Expense {
  amount : value;
  paidBy : option string;
  splitBetween : option (list string)
}.

(** Pending requests waiting for the administrator. *)
Record contribution_request : Type := ContributionRequest {
  cr_id : string;
  cr_memberId : option string;
  cr_amount : value
}.

Record deletion_request : Type := DeletionRequest {
  dr_id : string;
  dr_memberId : option string
}.

(** The trip document.  [members] and [expenses] may be absent from a stored
    document. *)
Record data : Type := Data {
  budget : value;
  members : option (list member);
  expenses : option (list expense);
  pendingContributions : list contribution_request;
  pendingDeletions : list deletion_request
}.

(** Assignments to one slot of an object. *)
Definition set_id (i : option string) (m : member) : member :=
  Member i (name m) (expectedContribution m) (actualContribution m) (personal m)
    (reimbursed m) (remainingContribution m) (balance m) (expenseShare m)
    (customExpected m) (customPersonal m) (customBalance m).

Definition set_expectedContribution (v : value) (m : member) : member :=
  Member (member_id m) (name m) v (actualContribution m) (personal m)
    (reimbursed m) (remainingContribution m) (balance m) (expenseShare m)
    (customExpected m) (customPersonal m) (customBalance m).

Definition set_actualContribution (v : value) (m : member) : member :=
  Member (member_id m) (name m) (expectedContribution m) v (personal m)
    (reimbursed m) (remainingContribution m) (balance m) (expenseShare m)
    (customExpected m) (customPersonal m) (customBalance m).

Definition set_personal (v : value) (m : member) : member :=
  Member (member_id m) (name m) (expectedContribution m) (actualContribution m) v
    (reimbursed m) (remainingContribution m) (balance m) (expenseShare m)
    (customExpected m) (customPersonal m) (customBalance m).

Definition set_reimbursed (v : value) (m : member) : member :=
  Member (member_id m) (name m) (expectedContribution m) (actualContribution m)
    (personal m) v (remainingContribution m) (balance m) (expenseShare m)
    (customExpected m) (customPersonal m) (customBalance m).

Definition set_remainingContribution (v : value) (m : member) : member :=
  Member (member_id m) (name m) (expectedContribution m) (actualContribution m)
    (personal m) (reimbursed m) v (balance m) (expenseShare m)
    (customExpected m) (customPersonal m) (customBalance m).

Definition set_balance (v : value) (m : member) : member :=
  Member (member_id m) (name m) (expectedContribution m) (actualContribution m)
    (personal m) (reimbursed m) (remainingContribution m) v (expenseShare m)
    (customExpected m) (customPersonal m) (customBalance m).

Definition set_expenseShare (v : value) (m : member) : member :=
  Member (member_id m) (name m) (expectedContribution m) (actualContribution m)
    (personal m) (reimbursed m) (remainingContribution m) (balance m) v
    (customExpected m) (customPersonal m) (customBalance m).

Definition set_members (ms : option (list member)) (d : data) : data :=
  Data (budget d) ms (expenses d) (pendingContributions d) (pendingDeletions d).

Definition set_pendingContributions (l : list contribution_request) (d : data) : data :=
  Data (budget d) (members d) (expenses d) l (pendingDeletions d).

Definition set_pendingDeletions (l : list deletion_request) (d : data) : data :=
  Data (budget d) (members d) (expenses d) (pendingContributions d) l.

(** ** Arrays *)

(** [members.find(m => m.id === k)] *)
Definition has_id (k : option string) (m : member) : bool :=
  id_eqb (member_id m) k.

(** The object returned by [find] is mutated in place: the first element
    that satisfies [p] is replaced by its image, nothing happens when there
    is none. *)
Fixpoint update_first {A : Type} (p : A -> bool) (f : A -> A) (l : list A) : list A :=
  match l with
  | [] => []
  | x :: r => if p x then f x :: r else x :: update_first p f r
  end.

(** [array.findIndex(p)], [None] standing for [-1]. *)
Fixpoint findIndex {A : Type} (p : A -> bool) (l : list A) : option nat :=
  match l with
  | [] => None
  | x :: r => if p x then Some O else option_map S (findIndex p r)
  end.

(** [array.splice(i, 1)] *)
Fixpoint splice1 {A : Type} (i : nat) (l : list A) : list A :=
  match l, i with
  | [], _ => []
  | _ :: r, O => r
  | x :: r, S j => x :: splice1 j r
  end.

(** ** recalculateState *)

(** A call either returns or throws a [TypeError]. *)
Inductive result (A : Type) : Type :=
| Ok (a : A)
| TypeError.
Arguments TypeError {A}.

(** [actualMemberCount > 0 ? data.budget / actualMemberCount : 0] *)
Definition expected_share (b : value) (actualMemberCount : nat) : number :=
  if (0 <? actualMemberCount)%nat
  then div (ToNumber b) (of_nat actualMemberCount)
  else Num 0.

(** First loop over the members.  [fresh] is the identifier that
    [Date.now().toString() + Math.random().toString(36).substr(2, 5)]
    produces for this member, should it need one. *)
Definition init_member (expected : number) (fresh : string) (m : member) : member :=
  let m := if truthy_id (member_id m) then m else set_id (Some fresh) m in
  let m := if customExpected m then m else set_expectedContribution (VNum expected) m in
  let m := if customPersonal m then m else set_personal (VNum (Num 0)) m in
  let m := if is_number (reimbursed m) then m else set_reimbursed (VNum (Num 0)) m in
  if is_number (actualContribution m) then m else set_actualContribution (VNum (Num 0)) m.

Fixpoint init_members (expected : number) (fresh : nat -> string) (i : nat)
    (ms : list member) : list member :=
  match ms with
  | [] => []
  | m :: r => init_member expected (fresh i) m :: init_members expected fresh (S i) r
  end.

(** Second loop: the share owed starts at zero, and so does the out-of-pocket
    total unless it is overridden. *)
Definition reset_member (m : member) : member :=
  let m := set_expenseShare (VNum (Num 0)) m in
  if customPersonal m then m else set_personal (VNum (Num 0)) m.

(** [payer.personal += amount], skipped for an overridden payer. *)
Definition add_personal (a : number) (m : member) : member :=
  if customPersonal m then m else set_personal (plus (personal m) a) m.

(** [member.expenseShare += sharePerMember] *)
Definition add_share (share : number) (m : member) : member :=
  set_expenseShare (plus (expenseShare m) share) m.

(** [parseFloat(e.amount) || 0] *)
Definition expense_amount (e : expense) : number :=
  or_zero (parseFloat (amount e)).

(** Who paid: the payer's out-of-pocket total grows by the amount. *)
Definition track_payer (e : expense) (ms : list member) : list member :=
  match paidBy e with
  | Some p =>
      if truthy_string p && negb (String.eqb p "pool")
      then update_first (has_id (Some p)) (add_personal (expense_amount e)) ms
      else ms
  | None => ms
  end.

(** Who owes: the identifiers the expense is split between. *)
Definition splitMembers (e : expense) (ms : list member) : list (option string) :=
  match splitBetween e with
  | Some (s :: r) => map Some (s :: r)
  | _ =>
      match paidBy e with
      | Some p =>
          if truthy_string p
          then if String.eqb p "all_members" || String.eqb p "pool"
               then map member_id ms
               else [Some p]
          else []
      | None => []
      end
  end.

(** [amount / splitMembers.length] *)
Definition sharePerMember (e : expense) (ms : list member) : number :=
  div (expense_amount e) (of_nat (List.length (splitMembers e ms))).

Definition split_expense (e : expense) (ms : list member) : list member :=
  let split := splitMembers e ms in
  if (0 <? List.length split)%nat
  then fold_left
         (fun acc memberId => update_first (has_id memberId) (add_share (sharePerMember e ms)) acc)
         split ms
  else ms.

(** The body of [data.expenses.forEach]. *)
Definition allocate_expense (ms : list member) (e : expense) : list member :=
  let ms := track_payer e ms in
  split_expense e ms.

(** [Math.max(m.personal - (m.reimbursed || 0), 0)] *)
Definition netPersonal (m : member) : number :=
  max (sub (ToNumber (personal m)) (ToNumber (or_zero_value (reimbursed m)))) (Num 0).

(** [Math.round(balance * 100) / 100] *)
Definition round2 (x : number) : number :=
  div (round (mul x (Num 100))) (Num 100).

(** Third loop. *)
Definition finalize_member (m : member) : member :=
  let actual := or_zero_value (actualContribution m) in
  let m := set_remainingContribution
             (VNum (max (sub (ToNumber (expectedContribution m)) (ToNumber actual)) (Num 0))) m in
  if customBalance m then m
  else
    let bal := sub (add (ToNumber actual) (netPersonal m)) (ToNumber (expenseShare m)) in
    set_balance (VNum (round2 bal)) m.

Definition recalculateState (fresh : nat -> string) (d : data) : result data :=
  let ms := match members d with Some ms => ms | None => [] end in
  let actualMemberCount := List.length ms in
  let expected := expected_share (budget d) actualMemberCount in
  let ms := init_members expected fresh 0 ms in
  let ms := map reset_member ms in
  match expenses d with
  | None => TypeError
  | Some es =>
      let ms := fold_left allocate_expense es ms in
      let ms := map finalize_member ms in
      Ok (set_members (Some ms) d)
  end.

(** ** Request handlers *)

(** A handler reads the stored document, answers with a status code and
    possibly hands a new document to [writeData].  An exception that escapes
    the handler is answered by the framework with status 500. *)
Inductive status : Type :=
| OK_200
| BadRequest_400
| Forbidden_403
| NotFound_404
| ServerError_500.

Record outcome : Type := Outcome {
  code : status;
  written : option data
}.

(** [v + w] on two slots, neither holding text. *)
Definition plus_value (v w : value) : value :=
  VNum (add (ToNumber v) (ToNumber w)).

(** [member.actualContribution = (member.actualContribution || 0) + x] *)
Definition credit (x : number) (m : member) : member :=
  set_actualContribution (plus (or_zero_value (actualContribution m)) x) m.

(** [member.actualContribution = (member.actualContribution || 0) - x] *)
Definition debit (x : number) (m : member) : member :=
  set_actualContribution
    (VNum (sub (ToNumber (or_zero_value (actualContribution m))) x)) m.

(** [recalculateState(data); writeData(data); res.json(...)] *)
Definition recalculate_and_write (fresh : nat -> string) (d : data) : outcome :=
  match recalculateState fresh d with
  | Ok d' => Outcome OK_200 (Some d')
  | TypeError => Outcome ServerError_500 None
  end.

(** [POST /api/members/contribute] *)
Definition contribute (fresh : nat -> string) (id : option string) (amt : value)
    (isAdmin : bool) (d : data) : outcome :=
  match members d with
  | None => Outcome ServerError_500 None
  | Some ms =>
      match find (has_id id) ms with
      | None => Outcome NotFound_404 None
      | Some _ =>
          let contrib := parseFloat amt in
          if isNaN contrib then Outcome BadRequest_400 None
          else if negb isAdmin then Outcome Forbidden_403 None
          else
            recalculate_and_write fresh
              (set_members (Some (update_first (has_id id) (credit contrib) ms)) d)
      end
  end.

(** [POST /api/contributions/approve] *)
Definition approve_contribution (fresh : nat -> string) (id : string) (action : string)
    (d : data) : outcome :=
  match findIndex (fun r => String.eqb (cr_id r) id) (pendingContributions d) with
  | None => Outcome NotFound_404 None
  | Some requestIndex =>
      match nth_error (pendingContributions d) requestIndex with
      | None => Outcome NotFound_404 None
      | Some request =>
          let consume d' :=
            Outcome OK_200
              (Some (set_pendingContributions
                       (splice1 requestIndex (pendingContributions d')) d')) in
          if String.eqb action "approve" then
            match members d with
            | None => Outcome ServerError_500 None
            | Some ms =>
                match find (has_id (cr_memberId request)) ms with
                | None => consume d
                | Some _ =>
                    let ms' := update_first (has_id (cr_memberId request))
                                 (fun m => set_actualContribution
                                    (plus_value (or_zero_value (actualContribution m))
                                       (cr_amount request)) m) ms in
                    match recalculateState fresh (set_members (Some ms') d) with
                    | Ok d' => consume d'
                    | TypeError => Outcome ServerError_500 None
                    end
                end
            end
          else consume d
      end
  end.

(** [POST /api/members/refund] *)
Definition refund (fresh : nat -> string) (id : option string) (amt : value)
    (d : data) : outcome :=
  match members d with
  | None => Outcome ServerError_500 None
  | Some ms =>
      match find (has_id id) ms with
      | None => Outcome NotFound_404 None
      | Some _ =>
          let refundAmount := parseFloat amt in
          if isNaN refundAmount || leb refundAmount (Num 0)
          then Outcome BadRequest_400 None
          else
            recalculate_and_write fresh
              (set_members (Some (update_first (has_id id) (debit refundAmount) ms)) d)
      end
  end.

(** [DELETE /api/members/:id] *)
Definition delete_member (fresh : nat -> string) (id : string) (d : data) : outcome :=
  match members d with
  | None => Outcome ServerError_500 None
  | Some ms =>
      match findIndex (has_id (Some id)) ms with
      | None => Outcome NotFound_404 None
      | Some O => Outcome Forbidden_403 None
      | Some memberIdx =>
          recalculate_and_write fresh (set_members (Some (splice1 memberIdx ms)) d)
      end
  end.

(** [POST /api/members/delete-approve] *)
Definition approve_deletion (fresh : nat -> string) (id : string) (action : string)
    (d : data) : outcome :=
  match findIndex (fun r => String.eqb (dr_id r) id) (pendingDeletions d) with
  | None => Outcome NotFound_404 None
  | Some requestIndex =>
      match nth_error (pendingDeletions d) requestIndex with
      | None => Outcome NotFound_404 None
      | Some request =>
          let consume d' :=
            Outcome OK_200
              (Some (set_pendingDeletions
                       (splice1 requestIndex (pendingDeletions d')) d')) in
          if String.eqb action "approve" then
            match members d with
            | None => Outcome ServerError_500 None
            | Some ms =>
                match findIndex (has_id (dr_memberId request)) ms with
                | None => consume d
                | Some O => consume d
                | Some memberIndex =>
                    match recalculateState fresh
                            (set_members (Some (splice1 memberIndex ms)) d) with
                    | Ok d' => consume d'
                    | TypeError => Outcome ServerError_500 None
                    end
                end
            end
          else consume d
      end
  end.


(** ** Notions used in the statements *)

(** The members that [recalculateState] leaves in the document. *)
Definition recalculated (fresh : nat -> string) (b : value) (ms : list member)
    (es : list expense) : list member :=
  map finalize_member
    (fold_left allocate_expense es
       (map reset_member
          (init_members (expected_share b (List.length ms)) fresh 0 ms))).

Definition members_of (d : data) : list member :=
  match members d with Some ms => ms | None => [] end.

(** After the first loop [reimbursed] and [actualContribution] hold numbers,
    and no later assignment touches them. *)
Definition normalised (m : member) : Prop :=
  is_number (actualContribution m) = true /\ is_number (reimbursed m) = true.

Definition same_payments (m m' : member) : Prop :=
  actualContribution m' = actualContribution m /\ reimbursed m' = reimbursed m.

(** What the three override flags promise about a member [m] and its state
    [m'] after recalculation. *)
Definition frozen (m m' : member) : Prop :=
  customExpected m' = customExpected m /\
  customPersonal m' = customPersonal m /\
  customBalance m' = customBalance m /\
  (customBalance m = true -> balance m' = balance m) /\
  (customExpected m = true -> expectedContribution m' = expectedContribution m) /\
  (customPersonal m = true -> personal m' = personal m).


(** Rounding to cents with a given rounding to the nearest integer. *)
Definition to_cents (rnd : number -> number) (x : number) : number :=
  div (rnd (mul x (Num 100))) (Num 100).

(** The rounding that the trip specification names: to the nearest integer,
    a tie going away from zero. *)
Definition round_half_away_from_zero (x : number) : number :=
  match x with
  | Num a =>
      if Qle_bool 0 a
      then Num (inject_Z (Qfloor (a + (1 # 2))))
      else Num (inject_Z (- Qfloor (- a + (1 # 2))))
  | NaN => NaN
  end.

(** The derived-field rule of the specification, read on one member:
    [max(expectedContribution - actualContribution, 0)] and
    [actualContribution + max(personal - reimbursed, 0) - expenseShare]
    rounded to cents. *)
Definition net_personal_rule (m : member) : number :=
  max (sub (ToNumber (personal m)) (ToNumber (reimbursed m))) (Num 0).

Definition remaining_rule (m : member) : value :=
  VNum (max (sub (ToNumber (expectedContribution m)) (ToNumber (actualContribution m)))
          (Num 0)).

Definition balance_rule (rnd : number -> number) (m : member) : value :=
  VNum (to_cents rnd
          (sub (add (ToNumber (actualContribution m)) (net_personal_rule m))
               (ToNumber (expenseShare m)))).

(** The rule with ties away from zero, for every member of the result that
    has no balance override. *)
Definition derived_fields_half_away (fresh : nat -> string) (d : data) : Prop :=
  forall out m,
    recalculateState fresh d = Ok out ->
    In m (members_of out) ->
    customBalance m = false ->
    remainingContribution m = remaining_rule m /\
    balance m = balance_rule round_half_away_from_zero m.

(** A structurally valid snapshot: both arrays are present and every member
    carries an identifier. *)
Definition structurally_valid (d : data) : Prop :=
  members d <> None /\ expenses d <> None /\
  Forall (fun m => truthy_id (member_id m) = true) (members_of d).

(** A member without the slots that the third loop assigns. *)
Definition core (m : member) : member :=
  set_remainingContribution VUndefined
    (if customBalance m then m else set_balance VUndefined m).

(** The first two loops on one member. *)
Definition prepare (expected : number) (fresh : string) (m : member) : member :=
  reset_member (init_member expected fresh m).

(** An identifier, once present, stays. *)
Definition same_id (m m' : member) : Prop :=
  truthy_id (member_id m) = true -> member_id m' = member_id m.

Definition same_expected (m m' : member) : Prop :=
  expectedContribution m' = expectedContribution m.

(** The member is one of those an expense is split between. *)
Definition owes (keys : list (option string)) (m : member) : bool :=
  existsb (id_eqb (member_id m)) keys.

(** A payment slot that holds a number is not reassigned by the function. *)
Definition keeps_paid (m m' : member) : Prop :=
  is_number (actualContribution m) = true ->
  actualContribution m' = actualContribution m.

(** The same person: the name, and the identifier if there is one. *)
Definition same_person (m m' : member) : Prop :=
  name m' = name m /\ same_id m m'.

(** Replacing the malformed numeric slots of a snapshot by zero: a payment
    slot that holds no number, an expense amount that does not read as a
    number and, when [with_budget] is set, a budget that does not. *)
Definition coerce_payments (m : member) : member :=
  let m := if is_number (reimbursed m) then m else set_reimbursed (VNum (Num 0)) m in
  if is_number (actualContribution m) then m
  else set_actualContribution (VNum (Num 0)) m.

Definition coerce_amount (e : expense) : expense :=
  if isNaN (parseFloat (amount e))
  then Expense (VNum (Num 0)) (paidBy e) (splitBetween e)
  else e.

Definition coerce_budget (b : value) : value :=
  if isNaN (ToNumber b) then VNum (Num 0) else b.

Definition coerced (with_budget : bool) (d : data) : data :=
  Data (if with_budget then coerce_budget (budget d) else budget d)
    (option_map (map coerce_payments) (members d))
    (option_map (map coerce_amount) (expenses d))
    (pendingContributions d) (pendingDeletions d).

(** The function returns on the snapshot, and returns the members it would
    return had the malformed slots held zero. *)
Definition degrades_to_zero (with_budget : bool) (fresh : nat -> string) (d : data) : Prop :=
  exists out out',
    recalculateState fresh d = Ok out /\
    recalculateState fresh (coerced with_budget d) = Ok out' /\
    members out = members out'.

(** What the first loop does to the two payment slots. *)
Definition payments_coerced (m m' : member) : Prop :=
  reimbursed m' = reimbursed (coerce_payments m) /\
  actualContribution m' = actualContribution (coerce_payments m).

(** The document as a call leaves it: the returned document or, when the
    call throws at [data.expenses.forEach], the argument with the first two
    loops done on its members. *)
Definition returned (fresh : nat -> string) (d : data) : data :=
  match recalculateState fresh d with
  | Ok out => out
  | TypeError =>
      set_members
        (Some (map reset_member
                 (init_members (expected_share (budget d) (List.length (members_of d)))
                    fresh 0 (members_of d))))
        d
  end.

(** ** Sample documents *)

Definition no_fresh : nat -> string := fun _ => "generated".

(** A member as the approval handler creates it. *)
Definition new_member (i : string) (paid : Q) : member :=
  Member (Some i) i (VNum (Num 0)) (VNum (Num paid)) (VNum (Num 0)) VUndefined
    (VNum (Num 0)) (VNum (Num 0)) VUndefined false false false.

(** A member whose three derived slots are overridden by the administrator. *)
Definition pinned_member : member :=
  Member (Some "p") "p" (VNum (Num 10)) (VNum (Num 4)) (VNum (Num 7)) VUndefined
    VUndefined (VNum (Num (-3))) VUndefined true true true.

Definition pinned_trip : data :=
  Data (VNum (Num 300))
    (Some [new_member "a" 100; pinned_member])
    (Some [Expense (VNum (Num 50)) (Some "p") (Some ["a"; "p"])])
    [] [].

(** One member who paid nothing and owes an eighth of a currency unit. *)
Definition owing_trip : data :=
  Data (VNum (Num 0))
    (Some [new_member "a" 0])
    (Some [Expense (VNum (Num (1 # 8))) (Some "pool") None])
    [] [].

Definition members_of_result (r : result data) : option (list member) :=
  match r with
  | Ok d => members d
  | TypeError => None
  end.

(** One member who has paid the whole budget; no expense yet. *)
Definition settled_trip : data :=
  Data (VNum (Num 100)) (Some [new_member "a" 100]) (Some []) [] [].

(** Three members after the first two loops, and two expenses: one split
    between two of them, one paid from the pool. *)
Definition three_members : list member :=
  map (prepare (Num 0) "") [new_member "a" 0; new_member "b" 0; new_member "c" 0].

Definition dinner : expense :=
  Expense (VNum (Num 90)) (Some "a") (Some ["a"; "b"]).

Definition pool_taxi : expense :=
  Expense (VNum (Num 90)) (Some "pool") None.

(** A trip of one member who still has 100 to contribute and who has asked
    to record a contribution of 150. *)
Definition one_member_trip : data :=
  Data (VNum (Num 100))
    (Some [Member (Some "a") "a" (VNum (Num 100)) (VNum (Num 0)) (VNum (Num 0))
             (VNum (Num 0)) (VNum (Num 100)) (VNum (Num 0)) (VNum (Num 0))
             false false false])
    (Some [])
    [ContributionRequest "r1" (Some "a") (VNum (Num 150))]
    [].

(** A trip of two members, the first being the administrator, with a pending
    request to delete each of them. *)
Definition two_member_trip : data :=
  Data (VNum (Num 100))
    (Some [new_member "admin" 100; new_member "b" 0])
    (Some [])
    []
    [DeletionRequest "d0" (Some "admin"); DeletionRequest "d1" (Some "b")].

Definition paid_of (o : outcome) : option (list (value * value)) :=
  match written o with
  | Some d => Some (map (fun m => (actualContribution m, personal m)) (members_of d))
  | None => None
  end.

(** A stored document without a budget. *)
Definition no_budget_trip : data :=
  Data VUndefined (Some [new_member "a" 0]) (Some []) [] [].

(** A stored document whose numeric slots are malformed: payments that are
    absent or [null], an expense without an amount. *)
Definition malformed_trip : data :=
  Data (VNum (Num 100))
    (Some [Member (Some "a") "a" VUndefined VNull VUndefined VUndefined
             VUndefined VUndefined VUndefined false false false])
    (Some [Expense VUndefined (Some "pool") None])
    [] [].

(** ** One expense, one member *)

(** The member is the payer that the expense loop credits: [paidBy] is set,
    is not [pool], and is the member's identifier. *)
Definition pays (e : expense) (m : member) : bool :=
  match paidBy e with
  | Some p => truthy_string p && negb (String.eqb p "pool") && has_id (Some p) m
  | None => false
  end.

(** How many entries of the split list name the member. *)
Definition times_owed (e : expense) (ms : list member) (m : member) : nat :=
  List.length (filter (id_eqb (member_id m)) (splitMembers e ms)).

(** What the expense does to the member: the payer is credited the amount,
    and the share is charged once for each entry of the split list that names
    the member. *)
Definition charge (e : expense) (ms : list member) (m : member) : member :=
  Nat.iter (times_owed e ms m) (add_share (sharePerMember e ms))
    (if pays e m then add_personal (expense_amount e) m else m).

(** The whole function on one member of a list [ms]: the first two loops,
    every expense in turn, the third loop. *)
Definition recalculate_member (b : value) (ms : list member) (es : list expense)
    (m : member) : member :=
  finalize_member
    (fold_left (fun acc e => charge e ms acc) es
       (prepare (expected_share b (List.length ms)) "" m)).

(** The running total of what a member paid out of pocket, and of what a
    member owes, over the expenses in their order. *)
Definition personal_ledger (es : list expense) (m : member) : value :=
  fold_left (fun v e => if pays e m then plus v (expense_amount e) else v)
    es (VNum (Num 0)).

Definition share_ledger (ms : list member) (es : list expense) (m : member) : value :=
  fold_left
    (fun v e => Nat.iter (times_owed e ms m) (fun w => plus w (sharePerMember e ms)) v)
    es (VNum (Num 0)).

(** Every member carries an identifier, and no two carry the same. *)
Definition distinct_ids (ms : list member) : Prop :=
  Forall (fun m => truthy_id (member_id m) = true) ms /\ NoDup (map member_id ms).

(** Three members and three expenses, one of them with a negative amount. *)
Definition ledger_trip : data :=
  Data (VNum (Num 300))
    (Some [new_member "a" 0; new_member "b" 0; new_member "c" 0])
    (Some [dinner; pool_taxi; Expense (VNum (Num (-15))) (Some "a") None])
    [] [].

(** Two members who carry the same identifier, and an expense split between
    that identifier. *)
Definition twin_trip : data :=
  Data (VNum (Num 100))
    (Some [new_member "a" 0; new_member "a" 10])
    (Some [Expense (VNum (Num 40)) (Some "a") (Some ["a"])])
    [] [].

(** ** Adding an expense *)

(** [data.expenses.push(e)], as [POST /api/expenses] does before it calls
    [recalculateState]. *)
Definition push_expense (e : expense) (d : data) : data :=
  Data (budget d) (members d)
    (option_map (fun es => (es ++ [e])%list) (expenses d))
    (pendingContributions d) (pendingDeletions d).

(** The member is named in a split list. *)
Definition named (S : list string) (m : member) : Prop :=
  exists s, member_id m = Some s /\ In s S.

(** The split rule of the specification, read on a document [d] and an
    expense [e] pushed on it: when [e] has a non-empty [splitBetween] list
    [S], recalculating with [e] adds [amount / |S|] to the share owed by
    each member named in [S], and nothing to the share of the others. *)
Definition split_between_rule (fresh : nat -> string) (d : data) (e : expense) : Prop :=
  forall S out0 out1 i m0 m1,
    splitBetween e = Some S -> S <> [] ->
    recalculateState fresh d = Ok out0 ->
    recalculateState fresh (push_expense e d) = Ok out1 ->
    nth_error (members_of out0) i = Some m0 ->
    nth_error (members_of out1) i = Some m1 ->
    (named S m0 ->
     expenseShare m1 =
     plus (expenseShare m0)
       (div (or_zero (parseFloat (amount e))) (of_nat (List.length S)))) /\
    (~ named S m0 -> expenseShare m1 = expenseShare m0).

(** The fallback rule of the specification, for an expense [e] without a
    non-empty [splitBetween] list: paid from the pool, every member is
    charged [amount / number of members]; paid by a member, that member is
    charged the whole amount and nobody else is charged; without a payer
    nobody is charged. *)
Definition legacy_split_rule (fresh : nat -> string) (d : data) (e : expense) : Prop :=
  forall out0 out1 i m0 m1,
    splitBetween e = None \/ splitBetween e = Some [] ->
    recalculateState fresh d = Ok out0 ->
    recalculateState fresh (push_expense e d) = Ok out1 ->
    nth_error (members_of out0) i = Some m0 ->
    nth_error (members_of out1) i = Some m1 ->
    (paidBy e = Some "pool" \/ paidBy e = Some "all_members" ->
     expenseShare m1 =
     plus (expenseShare m0)
       (div (or_zero (parseFloat (amount e))) (of_nat (List.length (members_of d))))) /\
    (forall p, paidBy e = Some p -> p <> "" -> p <> "pool" -> p <> "all_members" ->
       (member_id m0 = Some p ->
        expenseShare m1 = plus (expenseShare m0) (or_zero (parseFloat (amount e)))) /\
       (member_id m0 <> Some p -> expenseShare m1 = expenseShare m0)) /\
    (paidBy e = None \/ paidBy e = Some "" -> expenseShare m1 = expenseShare m0).

(** Three members, one expense so far. *)
Definition dinner_trip : data :=
  Data (VNum (Num 300))
    (Some [new_member "a" 0; new_member "b" 0; new_member "c" 0])
    (Some [dinner])
    [] [].

(** An expense whose split list names one member twice. *)
Definition shared_room : expense :=
  Expense (VNum (Num 90)) (Some "a") (Some ["b"; "b"; "c"]).

(** Two members who carry the same identifier, no expense yet. *)
Definition twins : data :=
  Data (VNum (Num 100)) (Some [new_member "a" 0; new_member "a" 10]) (Some []) [] [].

(** ** The shape of the result *)

(** What [recalculateState] never changes in a member: name and flags, and
    the identifier unless it is missing, in which case the member at index
    [i] receives [fresh i]. *)
Definition same_member_at (fresh : nat -> string) (i : nat) (m m' : member) : Prop :=
  name m' = name m /\
  customExpected m' = customExpected m /\
  customPersonal m' = customPersonal m /\
  customBalance m' = customBalance m /\
  member_id m' = if truthy_id (member_id m) then member_id m else Some (fresh i).

Definition keeps_identity (m m' : member) : Prop :=
  name m' = name m /\
  customExpected m' = customExpected m /\
  customPersonal m' = customPersonal m /\
  customBalance m' = customBalance m /\
  member_id m' = member_id m.

(** The slots that hold a number in every member of a result. *)
Definition numeric_slots (m : member) : Prop :=
  is_number (expenseShare m) = true /\
  (customPersonal m = false -> is_number (personal m) = true) /\
  (customExpected m = false -> is_number (expectedContribution m) = true).

Definition keeps_numeric_slots (m m' : member) : Prop :=
  numeric_slots m -> numeric_slots m'.

Definition not_negative (v : value) : Prop :=
  match v with
  | VNum (Num x) => 0 <= x
  | VNum NaN => True
  | _ => False
  end.

(** ** More request handlers *)

(** [member.reimbursed = (member.reimbursed || 0) + x] *)
Definition repay (x : number) (m : member) : member :=
  set_reimbursed (plus (or_zero_value (reimbursed m)) x) m.

(** [POST /api/members/reimburse] *)
Definition reimburse (fresh : nat -> string) (id : option string) (amt : value)
    (d : data) : outcome :=
  match members d with
  | None => Outcome ServerError_500 None
  | Some ms =>
      match find (has_id id) ms with
      | None => Outcome NotFound_404 None
      | Some _ =>
          let reimburseAmount := parseFloat amt in
          if isNaN reimburseAmount || leb reimburseAmount (Num 0)
          then Outcome BadRequest_400 None
          else
            recalculate_and_write fresh
              (set_members (Some (update_first (has_id id) (repay reimburseAmount) ms)) d)
      end
  end.

(** [POST /api/members]: the body of the request is the new member; [now]
    is [Date.now().toString()]. *)
Definition add_member (fresh : nat -> string) (now : string) (newMember : member)
    (d : data) : outcome :=
  let newMember :=
    if truthy_id (member_id newMember) then newMember
    else set_id (Some now) newMember in
  match members d with
  | None => Outcome ServerError_500 None
  | Some ms => recalculate_and_write fresh (set_members (Some (ms ++ [newMember])%list) d)
  end.

(** [POST /api/members/delete-request] *)
Definition request_deletion (now : string) (memberId : option string) (d : data) : outcome :=
  match find (fun r => id_eqb (dr_memberId r) memberId) (pendingDeletions d) with
  | Some _ => Outcome BadRequest_400 None
  | None =>
      Outcome OK_200
        (Some (set_pendingDeletions
                 (pendingDeletions d ++ [DeletionRequest now memberId])%list d))
  end.

(** The six assignments of [POST /api/reset-data] to the first member. *)
Definition reset_admin (admin : member) : member :=
  set_reimbursed (VNum (Num 0))
    (set_personal (VNum (Num 0))
       (set_balance (VNum (Num 0))
          (set_remainingContribution (VNum (Num 0))
             (set_expectedContribution (VNum (Num 0))
                (set_actualContribution (VNum (Num 0)) admin))))).

(** [POST /api/reset-data] *)
Definition reset_data (fresh : nat -> string) (d : data) : outcome :=
  match members d with
  | None => Outcome ServerError_500 None
  | Some ms =>
      let ms' :=
        match ms with
        | admin :: _ => [reset_admin admin]
        | [] => []
        end in
      recalculate_and_write fresh (Data (budget d) (Some ms') (Some []) [] [])
  end.

(** A trip whose first member has all three overrides set. *)
Definition pinned_second_trip : data :=
  Data (VNum (Num 300))
    (Some [pinned_member; new_member "a" 100])
    (Some [Expense (VNum (Num 50)) (Some "p") (Some ["a"; "p"])])
    [] [].

(** [x] is a number no greater than the number [y], or both are [NaN]. *)
Definition no_greater (x y : number) : Prop :=
  match x, y with
  | Num a, Num b => a <= b
  | NaN, NaN => True
  | _, _ => False
  end.

(** The same comparison on two slots that hold numbers. *)
Definition slot_no_greater (v w : value) : Prop :=
  match v, w with
  | VNum x, VNum y => no_greater x y
  | _, _ => False
  end.

(** Every member carries an identifier. *)
Definition all_identified (ms : list member) : Prop :=
  Forall (fun m => truthy_id (member_id m) = true) ms.

(** The document is what [recalculateState] makes of it. *)
Definition settled (d : data) : Prop :=
  forall fresh, recalculateState fresh d = Ok d.

(** * The engine over binary64 numbers

    [recalculateState] once more, with the numbers of the language: every
    addition, subtraction, product and quotient is rounded to the nearest
    binary64 value, and zero is signed.  The claims that depend on this
    rounding are stated here. *)

Module Binary64.

Import SpecFloat.

(** ** JavaScript numbers *)

(** An IEEE 754 binary64 value: precision 53, largest exponent 1024.  The
    type also holds mantissas that are not normalised; the operations below
    return normalised ones, and so do [of_Z] and the sample documents. *)
Definition number : Type := spec_float.

Definition NaN : number := S754_nan.
Definition zero : number := S754_zero false.

Definition add : number -> number -> number := SFadd 53 1024.
Definition sub : number -> number -> number := SFsub 53 1024.
Definition mul : number -> number -> number := SFmul 53 1024.
Definition div : number -> number -> number := SFdiv 53 1024.

(** The number nearest to an integer; [array.length] as a number. *)
Definition of_Z (z : Z) : number := binary_normalize 53 1024 z 0 false.
Definition of_nat (n : nat) : number := of_Z (Z.of_nat n).

(** A number is falsy when it is [0], [-0] or [NaN]. *)
Definition falsy (x : number) : bool :=
  match x with S754_nan | S754_zero _ => true | _ => false end.

(** [x || 0] on a number. *)
Definition or_zero (x : number) : number :=
  if falsy x then zero else x.

(** [Math.max(x, y)]: [NaN] if either argument is, and [0] rather than [-0]
    when the two are the two zeros. *)
Definition max (x y : number) : number :=
  match SFcompare x y with
  | None => NaN
  | Some Gt => x
  | Some Lt => y
  | Some Eq => match x with S754_zero true => y | _ => x end
  end.

(** [Math.round(x)]: the integer nearest to [x], the larger one on a tie,
    that is the floor of [x + 1/2] taken on the exact value of [x]; a result
    of zero keeps the sign of [x].  A number whose exponent is not negative
    is an integer already. *)
Definition round (x : number) : number :=
  match x with
  | S754_finite s m e =>
      if (0 <=? e)%Z then x
      else
        let n := Z.shiftr (2 * cond_Zopp s (Zpos m) + 2 ^ (- e)) (1 - e) in
        if (n =? 0)%Z then S754_zero s else of_Z n
  | _ => x
  end.

(** The exact value of a finite number. *)
Definition exact (x : number) : option Q :=
  match x with
  | S754_zero _ => Some 0
  | S754_finite s m e =>
      Some (match e with
            | Z0 => inject_Z (cond_Zopp s (Zpos m))
            | Zpos p => inject_Z (cond_Zopp s (Zpos m) * 2 ^ Zpos p)
            | Zneg p => Qmake (cond_Zopp s (Zpos m)) (2 ^ p)
            end)
  | _ => None
  end.

(** ** Values found in a numeric slot *)

Inductive value : Type :=
| VUndefined
| VNull
| VBool (b : bool)
| VNum (x : number).

(** [typeof v === 'number'] *)
Definition is_number (v : value) : bool :=
  match v with VNum _ => true | _ => false end.

(** The conversion applied by the arithmetic operators. *)
Definition ToNumber (v : value) : number :=
  match v with
  | VUndefined => NaN
  | VNull => zero
  | VBool true => of_Z 1
  | VBool false => zero
  | VNum x => x
  end.

(** [parseFloat(v)]: the argument is first turned into text; the text of a
    number reads back as that number, [-0] as [0] since its text is [0]; the
    texts [undefined], [null], [true] and [false] do not start with a
    numeral. *)
Definition parseFloat (v : value) : number :=
  match v with
  | VNum (S754_zero _) => zero
  | VNum x => x
  | _ => NaN
  end.

Definition truthy (v : value) : bool :=
  match v with
  | VUndefined | VNull => false
  | VBool b => b
  | VNum x => negb (falsy x)
  end.

(** [v || 0] on a slot. *)
Definition or_zero_value (v : value) : value :=
  if truthy v then v else VNum zero.

(** [v + x], [v += x] with a number on the right. *)
Definition plus (v : value) (x : number) : value :=
  VNum (add (ToNumber v) x).

(** ** The ledger *)

Record member : Type := Member {
  member_id : option string;
  name : string;
  expectedContribution : value;
  actualContribution : value;
  personal : value;
  reimbursed : value;
  remainingContribution : value;
  balance : value;
  expenseShare : value;
  customExpected : bool;
  customPersonal : bool;
  customBalance : bool
}.

Record expense : Type := Expense {
  amount : value;
  paidBy : option string;
  splitBetween : option (list string)
}.

(** The slots of the trip document that [recalculateState] reads. *)
Record data : Type := Data {
  budget : value;
  members : option (list member);
  expenses : option (list expense)
}.

Definition set_id (i : option string) (m : member) : member :=
  Member i (name m) (expectedContribution m) (actualContribution m) (personal m)
    (reimbursed m) (remainingContribution m) (balance m) (expenseShare m)
    (customExpected m) (customPersonal m) (customBalance m).

Definition set_expectedContribution (v : value) (m : member) : member :=
  Member (member_id m) (name m) v (actualContribution m) (personal m)
    (reimbursed m) (remainingContribution m) (balance m) (expenseShare m)
    (customExpected m) (customPersonal m) (customBalance m).

Definition set_actualContribution (v : value) (m : member) : member :=
  Member (member_id m) (name m) (expectedContribution m) v (personal m)
    (reimbursed m) (remainingContribution m) (balance m) (expenseShare m)
    (customExpected m) (customPersonal m) (customBalance m).

Definition set_personal (v : value) (m : member) : member :=
  Member (member_id m) (name m) (expectedContribution m) (actualContribution m) v
    (reimbursed m) (remainingContribution m) (balance m) (expenseShare m)
    (customExpected m) (customPersonal m) (customBalance m).

Definition set_reimbursed (v : value) (m : member) : member :=
  Member (member_id m) (name m) (expectedContribution m) (actualContribution m)
    (personal m) v (remainingContribution m) (balance m) (expenseShare m)
    (customExpected m) (customPersonal m) (customBalance m).

Definition set_remainingContribution (v : value) (m : member) : member :=
  Member (member_id m) (name m) (expectedContribution m) (actualContribution m)
    (personal m) (reimbursed m) v (balance m) (expenseShare m)
    (customExpected m) (customPersonal m) (customBalance m).

Definition set_balance (v : value) (m : member) : member :=
  Member (member_id m) (name m) (expectedContribution m) (actualContribution m)
    (personal m) (reimbursed m) (remainingContribution m) v (expenseShare m)
    (customExpected m) (customPersonal m) (customBalance m).

Definition set_expenseShare (v : value) (m : member) : member :=
  Member (member_id m) (name m) (expectedContribution m) (actualContribution m)
    (personal m) (reimbursed m) (remainingContribution m) (balance m) v
    (customExpected m) (customPersonal m) (customBalance m).

Definition set_members (ms : option (list member)) (d : data) : data :=
  Data (budget d) ms (expenses d).

(** [members.find(m => m.id === k)] *)
Definition has_id (k : option string) (m : member) : bool :=
  id_eqb (member_id m) k.

(** ** recalculateState *)

(** [actualMemberCount > 0 ? data.budget / actualMemberCount : 0] *)
Definition expected_share (b : value) (actualMemberCount : nat) : number :=
  if (0 <? actualMemberCount)%nat
  then div (ToNumber b) (of_nat actualMemberCount)
  else zero.

(** First loop over the members. *)
Definition init_member (expected : number) (fresh : string) (m : member) : member :=
  let m := if truthy_id (member_id m) then m else set_id (Some fresh) m in
  let m := if customExpected m then m else set_expectedContribution (VNum expected) m in
  let m := if customPersonal m then m else set_personal (VNum zero) m in
  let m := if is_number (reimbursed m) then m else set_reimbursed (VNum zero) m in
  if is_number (actualContribution m) then m else set_actualContribution (VNum zero) m.

Fixpoint init_members (expected : number) (fresh : nat -> string) (i : nat)
    (ms : list member) : list member :=
  match ms with
  | [] => []
  | m :: r => init_member expected (fresh i) m :: init_members expected fresh (S i) r
  end.

(** Second loop. *)
Definition reset_member (m : member) : member :=
  let m := set_expenseShare (VNum zero) m in
  if customPersonal m then m else set_personal (VNum zero) m.

(** [payer.personal += amount], skipped for an overridden payer. *)
Definition add_personal (a : number) (m : member) : member :=
  if customPersonal m then m else set_personal (plus (personal m) a) m.

(** [member.expenseShare += sharePerMember] *)
Definition add_share (share : number) (m : member) : member :=
  set_expenseShare (plus (expenseShare m) share) m.

(** [parseFloat(e.amount) || 0] *)
Definition expense_amount (e : expense) : number :=
  or_zero (parseFloat (amount e)).

Definition track_payer (e : expense) (ms : list member) : list member :=
  match paidBy e with
  | Some p =>
      if truthy_string p && negb (String.eqb p "pool")
      then update_first (has_id (Some p)) (add_personal (expense_amount e)) ms
      else ms
  | None => ms
  end.

Definition splitMembers (e : expense) (ms : list member) : list (option string) :=
  match splitBetween e with
  | Some (s :: r) => map Some (s :: r)
  | _ =>
      match paidBy e with
      | Some p =>
          if truthy_string p
          then if String.eqb p "all_members" || String.eqb p "pool"
               then map member_id ms
               else [Some p]
          else []
      | None => []
      end
  end.

(** [amount / splitMembers.length] *)
Definition sharePerMember (e : expense) (ms : list member) : number :=
  div (expense_amount e) (of_nat (List.length (splitMembers e ms))).

Definition split_expense (e : expense) (ms : list member) : list member :=
  let split := splitMembers e ms in
  if (0 <? List.length split)%nat
  then fold_left
         (fun acc memberId => update_first (has_id memberId) (add_share (sharePerMember e ms)) acc)
         split ms
  else ms.

(** The body of [data.expenses.forEach]. *)
Definition allocate_expense (ms : list member) (e : expense) : list member :=
  let ms := track_payer e ms in
  split_expense e ms.

(** [Math.max(m.personal - (m.reimbursed || 0), 0)] *)
Definition netPersonal (m : member) : number :=
  max (sub (ToNumber (personal m)) (ToNumber (or_zero_value (reimbursed m)))) zero.

(** [Math.round(balance * 100) / 100] *)
Definition round2 (x : number) : number :=
  div (round (mul x (of_Z 100))) (of_Z 100).

(** Third loop. *)
Definition finalize_member (m : member) : member :=
  let actual := or_zero_value (actualContribution m) in
  let m := set_remainingContribution
             (VNum (max (sub (ToNumber (expectedContribution m)) (ToNumber actual)) zero)) m in
  if customBalance m then m
  else
    let bal := sub (add (ToNumber actual) (netPersonal m)) (ToNumber (expenseShare m)) in
    set_balance (VNum (round2 bal)) m.

Definition recalculateState (fresh : nat -> string) (d : data) : result data :=
  let ms := match members d with Some ms => ms | None => [] end in
  let actualMemberCount := List.length ms in
  let expected := expected_share (budget d) actualMemberCount in
  let ms := init_members expected fresh 0 ms in
  let ms := map reset_member ms in
  match expenses d with
  | None => TypeError
  | Some es =>
      let ms := fold_left allocate_expense es ms in
      let ms := map finalize_member ms in
      Ok (set_members (Some ms) d)
  end.


(** ** Notions used in the statements *)

Definition members_of (d : data) : list member :=
  match members d with Some ms => ms | None => [] end.




(** ** Sample documents *)

Definition new_member (i : string) (paid : Z) : member :=
  Member (Some i) i (VNum zero) (VNum (of_Z paid)) (VNum zero) VUndefined
    (VNum zero) (VNum zero) VUndefined false false false.




(** Eight members; 3 from the pool split between five of them, 5 from the
    pool split between all eight. *)
Definition two_splits_trip : data :=
  Data (VNum zero)
    (Some [new_member "a" 0; new_member "b" 0; new_member "c" 0; new_member "d" 0;
           new_member "e" 0; new_member "f" 0; new_member "g" 0; new_member "h" 0])
    (Some [Expense (VNum (of_Z 3)) (Some "pool") (Some ["a"; "b"; "c"; "d"; "e"]);
           Expense (VNum (of_Z 5)) (Some "pool") None]).

End Binary64.
(** * Properties *)

(** ** Arrays updated in place *)

Section UpdateFirst.
Context {A : Type}.
Variables (p : A -> bool) (f : A -> A).

Lemma update_first_length (l : list A) :
  List.length (update_first p f l) = List.length l.
Proof.
  induction l as [|x r IH]; simpl; [reflexivity|].
  destruct (p x); simpl; congruence.
Qed.

(** What the update does not observe is not changed by it. *)
Lemma update_first_map {B : Type} (g : A -> B) (l : list A) :
  (forall x, g (f x) = g x) ->
  map g (update_first p f l) = map g l.
Proof.
  intros Hg. induction l as [|x r IH]; simpl; [reflexivity|].
  destruct (p x); simpl; congruence.
Qed.

(** A relation that holds between an element and its image holds between
    the array before and after. *)
Lemma update_first_Forall2 (R : A -> A -> Prop) (l : list A) :
  (forall x, R x x) -> (forall x, R x (f x)) ->
  Forall2 R l (update_first p f l).
Proof.
  intros Hrefl Hf. induction l as [|x r IH]; simpl; [constructor|].
  destruct (p x); constructor; auto.
  clear IH. induction r; constructor; auto.
Qed.

(** When at most one element can satisfy the test, updating the first
    match is updating every match. *)
Lemma update_first_unique (l : list A) :
  (forall i j x y, nth_error l i = Some x -> nth_error l j = Some y ->
                   p x = true -> p y = true -> i = j) ->
  update_first p f l = map (fun x => if p x then f x else x) l.
Proof.
  intros Huniq. induction l as [|x r IH]; simpl; [reflexivity|].
  destruct (p x) eqn:Hx.
  - f_equal. transitivity (map (fun y => y) r); [symmetry; apply map_id|].
    apply map_ext_in.
    intros y Hy. destruct (p y) eqn:Hpy; [|reflexivity].
    apply In_nth_error in Hy. destruct Hy as [j Hj].
    specialize (Huniq O (S j) x y eq_refl Hj Hx Hpy). discriminate.
  - f_equal. apply IH. intros i j a b Hi Hj Ha Hb.
    specialize (Huniq (S i) (S j) a b Hi Hj Ha Hb). congruence.
Qed.
End UpdateFirst.

Lemma update_first_commute {A B : Type} (g : A -> B) (p : A -> bool) (f : A -> A)
    (q : B -> bool) (h : B -> B) (l : list A) :
  (forall x, q (g x) = p x) -> (forall x, g (f x) = h (g x)) ->
  map g (update_first p f l) = update_first q h (map g l).
Proof.
  intros Hq Hh. induction l as [|x r IH]; simpl; [reflexivity|].
  rewrite Hq. destruct (p x); simpl; congruence.
Qed.

Lemma findIndex_find {A : Type} (p : A -> bool) (l : list A) (i : nat) :
  findIndex p l = Some i ->
  exists x, nth_error l i = Some x /\ find p l = Some x /\ p x = true.
Proof.
  revert i. induction l as [|x r IH]; simpl; intros i H; [discriminate|].
  destruct (p x) eqn:Hx.
  - inversion H; subst. exists x. simpl. auto.
  - destruct (findIndex p r) as [j|]; [|discriminate].
    inversion H; subst. destruct (IH j eq_refl) as [y [H1 [H2 H3]]].
    exists y. simpl. auto.
Qed.

Lemma findIndex_None {A : Type} (p : A -> bool) (l : list A) :
  findIndex p l = None <-> find p l = None.
Proof.
  induction l as [|x r IH]; simpl; [tauto|].
  destruct (p x); [split; discriminate|].
  destruct (findIndex p r); simpl.
  - split; [discriminate|]. intros H. apply IH in H. discriminate.
  - split; intros _; [apply IH|]; reflexivity.
Qed.

(** ** The three loops, member by member *)

Ltac member_cases m :=
  destruct m as [? ? ? ? ? ? ? ? ? [|] [|] [|]]; simpl in *.

Lemma Forall2_refl {A : Type} (R : A -> A -> Prop) (l : list A) :
  (forall x, R x x) -> Forall2 R l l.
Proof. intros H. induction l; constructor; auto. Qed.

Lemma Forall2_trans {A : Type} (R : A -> A -> Prop) (l1 l2 l3 : list A) :
  (forall x y z, R x y -> R y z -> R x z) ->
  Forall2 R l1 l2 -> Forall2 R l2 l3 -> Forall2 R l1 l3.
Proof.
  intros Ht H12. revert l3.
  induction H12; intros l3 H23; inversion H23; subst; constructor; eauto.
Qed.

Lemma Forall2_map_r {A : Type} (R : A -> A -> Prop) (g : A -> A) (l : list A) :
  (forall x, R x (g x)) -> Forall2 R l (map g l).
Proof. intros H. induction l; simpl; constructor; auto. Qed.

Lemma Forall2_nth_error {A : Type} (R : A -> A -> Prop) (l l' : list A) (i : nat) (x : A) :
  Forall2 R l l' -> nth_error l i = Some x ->
  exists y, nth_error l' i = Some y /\ R x y.
Proof.
  intros H. revert i. induction H; intros [|i] Hi; simpl in *; try discriminate.
  - inversion Hi; subst. eauto.
  - eauto.
Qed.

Lemma init_members_Forall2 (R : member -> member -> Prop) E fresh i ms :
  (forall s m, R m (init_member E s m)) ->
  Forall2 R ms (init_members E fresh i ms).
Proof.
  intros H. revert i. induction ms; intros i; simpl; constructor; auto.
Qed.

Lemma init_members_length E fresh i ms :
  List.length (init_members E fresh i ms) = List.length ms.
Proof. revert i. induction ms; intros i; simpl; auto. Qed.

Lemma recalculateState_Ok fresh d out :
  recalculateState fresh d = Ok out <->
  exists es, expenses d = Some es /\
             out = set_members (Some (recalculated fresh (budget d) (members_of d) es)) d.
Proof.
  unfold recalculateState, recalculated, members_of.
  destruct (expenses d) as [es|].
  - split.
    + intros H. inversion H. exists es. auto.
    + intros [es' [H1 H2]]. inversion H1; subst. reflexivity.
  - split; [discriminate|]. intros [es' [H1 _]]. discriminate.
Qed.

(** A snapshot without its [expenses] array makes [data.expenses.forEach]
    throw. *)
Lemma recalculateState_TypeError fresh d :
  recalculateState fresh d = TypeError <-> expenses d = None.
Proof.
  unfold recalculateState. destruct (expenses d); split; congruence.
Qed.

(** The first two loops, slot by slot. *)
Lemma init_member_eq E s m :
  init_member E s m =
  Member (if truthy_id (member_id m) then member_id m else Some s)
    (name m)
    (if customExpected m then expectedContribution m else VNum E)
    (if is_number (actualContribution m) then actualContribution m else VNum (Num 0))
    (if customPersonal m then personal m else VNum (Num 0))
    (if is_number (reimbursed m) then reimbursed m else VNum (Num 0))
    (remainingContribution m) (balance m) (expenseShare m)
    (customExpected m) (customPersonal m) (customBalance m).
Proof.
  unfold init_member. destruct m as [i nm ec ac pe re rc ba sh ce cp cb].
  cbn [member_id]. destruct (truthy_id i); cbn.
  all: destruct ce; cbn.
  all: destruct cp; cbn.
  all: destruct (is_number re); cbn.
  all: destruct (is_number ac); reflexivity.
Qed.

Lemma reset_member_eq m :
  reset_member m =
  Member (member_id m) (name m) (expectedContribution m) (actualContribution m)
    (if customPersonal m then personal m else VNum (Num 0))
    (reimbursed m) (remainingContribution m) (balance m) (VNum (Num 0))
    (customExpected m) (customPersonal m) (customBalance m).
Proof.
  unfold reset_member. destruct m as [i nm ec ac pe re rc ba sh ce cp cb].
  cbn. destruct cp; reflexivity.
Qed.

Lemma prepare_eq E s m :
  prepare E s m =
  Member (if truthy_id (member_id m) then member_id m else Some s)
    (name m)
    (if customExpected m then expectedContribution m else VNum E)
    (if is_number (actualContribution m) then actualContribution m else VNum (Num 0))
    (if customPersonal m then personal m else VNum (Num 0))
    (if is_number (reimbursed m) then reimbursed m else VNum (Num 0))
    (remainingContribution m) (balance m) (VNum (Num 0))
    (customExpected m) (customPersonal m) (customBalance m).
Proof.
  unfold prepare. rewrite reset_member_eq, init_member_eq. cbn.
  destruct (customPersonal m); reflexivity.
Qed.

(** A relation between a member before and after each assignment of the
    function relates the member lists before and after the call. *)
Section Stepwise.
Variable R : member -> member -> Prop.
Hypothesis R_refl : forall m, R m m.
Hypothesis R_trans : forall x y z, R x y -> R y z -> R x z.
Hypothesis R_reset : forall m, R m (reset_member m).
Hypothesis R_personal : forall a m, R m (add_personal a m).
Hypothesis R_share : forall s m, R m (add_share s m).
Hypothesis R_finalize : forall m, R m (finalize_member m).

Lemma allocate_expense_Forall2 ms e : Forall2 R ms (allocate_expense ms e).
Proof.
  unfold allocate_expense.
  apply Forall2_trans with (l2 := track_payer e ms); auto.
  - unfold track_payer. destruct (paidBy e) as [p|]; [|apply Forall2_refl; auto].
    destruct (_ && _); [|apply Forall2_refl; auto].
    apply update_first_Forall2; auto.
  - unfold split_expense. generalize (track_payer e ms) as l. intros l.
    destruct (0 <? _)%nat; [|apply Forall2_refl; auto].
    generalize (sharePerMember e l) as s. intros s.
    generalize (splitMembers e l) as ks. intros ks.
    assert (G : forall l0, Forall2 R l l0 ->
              Forall2 R l (fold_left
                (fun acc k => update_first (has_id k) (add_share s) acc) ks l0)).
    { induction ks as [|k ks IH]; simpl; intros l0 H0; [exact H0|].
      apply IH. apply Forall2_trans with (l2 := l0); auto.
      apply update_first_Forall2; auto. }
    apply G. apply Forall2_refl; auto.
Qed.

Lemma allocate_all_Forall2 es ms : Forall2 R ms (fold_left allocate_expense es ms).
Proof.
  revert ms. induction es as [|e es IH]; simpl; intros ms.
  - apply Forall2_refl; auto.
  - apply Forall2_trans with (l2 := allocate_expense ms e); auto.
    apply allocate_expense_Forall2.
Qed.

Lemma after_init_Forall2 ms es :
  Forall2 R ms
    (map finalize_member (fold_left allocate_expense es (map reset_member ms))).
Proof.
  eapply Forall2_trans; [exact R_trans | apply Forall2_map_r; exact R_reset |].
  eapply Forall2_trans; [exact R_trans | apply allocate_all_Forall2 |].
  apply Forall2_map_r; exact R_finalize.
Qed.

Lemma recalculated_Forall2 fresh b ms es :
  (forall E s m, R m (init_member E s m)) ->
  Forall2 R ms (recalculated fresh b ms es).
Proof.
  intros R_init. unfold recalculated.
  eapply Forall2_trans; [exact R_trans | apply init_members_Forall2; apply R_init |].
  apply after_init_Forall2.
Qed.
End Stepwise.

Lemma Forall2_Forall_r {A : Type} (R : A -> A -> Prop) (P Q : A -> Prop) (l l' : list A) :
  (forall x y, R x y -> P x -> Q y) ->
  Forall2 R l l' -> Forall P l -> Forall Q l'.
Proof.
  intros H HR. induction HR; intros HP; constructor; inversion HP; subst; eauto.
Qed.

Lemma init_members_Forall (P : member -> Prop) E fresh i ms :
  (forall s m, P (init_member E s m)) ->
  Forall P (init_members E fresh i ms).
Proof. intros H. revert i. induction ms; intros i; simpl; constructor; auto. Qed.

(** ** Slots that the function normalises or leaves alone *)

Lemma init_member_normalised E s m : normalised (init_member E s m).
Proof.
  unfold normalised. rewrite init_member_eq. cbn.
  destruct (actualContribution m), (reimbursed m); cbn; auto.
Qed.

Lemma same_payments_allocated es ms :
  Forall2 same_payments ms (fold_left allocate_expense es (map reset_member ms)).
Proof.
  apply Forall2_trans with (l2 := map reset_member ms).
  - unfold same_payments. intuition congruence.
  - apply Forall2_map_r. intros m. member_cases m; split; reflexivity.
  - apply allocate_all_Forall2; unfold same_payments.
    + auto.
    + intuition congruence.
    + intros a m. member_cases m; split; reflexivity.
    + intros s m. member_cases m; split; reflexivity.
Qed.

Lemma same_payments_finalized es ms :
  Forall2 same_payments ms
    (map finalize_member (fold_left allocate_expense es (map reset_member ms))).
Proof.
  apply Forall2_trans with (l2 := fold_left allocate_expense es (map reset_member ms)).
  - unfold same_payments. intuition congruence.
  - apply same_payments_allocated.
  - apply Forall2_map_r. intros m. unfold same_payments. member_cases m; split; reflexivity.
Qed.

(** Every member of the result is the image, by the third loop, of a member
    whose payments are numbers. *)
Lemma recalculated_In fresh b ms es m :
  In m (recalculated fresh b ms es) ->
  exists m0, m = finalize_member m0 /\ normalised m0.
Proof.
  unfold recalculated. intros H. apply in_map_iff in H.
  destruct H as [m0 [H1 H2]]. exists m0. split; [auto|].
  match type of H2 with In _ (fold_left _ _ (map _ ?l)) =>
    assert (HF : Forall normalised l) by (apply init_members_Forall; apply init_member_normalised);
    pose proof (same_payments_allocated es l) as H12
  end.
  eapply Forall2_Forall_r in H12; [| |exact HF].
  - rewrite Forall_forall in H12. apply H12. exact H2.
  - unfold same_payments, normalised. intros x y [Ha Hr] [Hx Hy]. rewrite Ha, Hr. auto.
Qed.

Lemma members_of_set_members ms d : members_of (set_members (Some ms) d) = ms.
Proof. reflexivity. Qed.

(** ** Override flags *)

Lemma frozen_refl m : frozen m m.
Proof. unfold frozen. auto 10. Qed.

Lemma frozen_trans x y z : frozen x y -> frozen y z -> frozen x z.
Proof.
  unfold frozen. intros [E1 [P1 [B1 [b1 [e1 p1]]]]] [E2 [P2 [B2 [b2 [e2 p2]]]]].
  repeat split; try congruence.
  - intros H. rewrite b2 by congruence. auto.
  - intros H. rewrite e2 by congruence. auto.
  - intros H. rewrite p2 by congruence. auto.
Qed.

Lemma frozen_init E s m : frozen m (init_member E s m).
Proof.
  unfold frozen. rewrite init_member_eq. cbn.
  destruct (customExpected m), (customPersonal m); repeat split; auto; discriminate.
Qed.

Lemma frozen_reset m : frozen m (reset_member m).
Proof. unfold frozen. member_cases m; repeat split; auto; discriminate. Qed.

Lemma frozen_personal a m : frozen m (add_personal a m).
Proof. unfold frozen. member_cases m; repeat split; auto; discriminate. Qed.

Lemma frozen_share s m : frozen m (add_share s m).
Proof. unfold frozen. member_cases m; repeat split; auto. Qed.

Lemma frozen_finalize m : frozen m (finalize_member m).
Proof. unfold frozen. member_cases m; repeat split; auto; discriminate. Qed.

(** C6.  A member whose [customBalance] flag is set has, after
    [recalculateState], exactly the [balance] it had before, whatever the
    rest of the document holds; in the same way [customExpected] keeps
    [expectedContribution] and [customPersonal] keeps [personal]. *)
Theorem override_freeze fresh d out i m :
  recalculateState fresh d = Ok out ->
  nth_error (members_of d) i = Some m ->
  exists m', nth_error (members_of out) i = Some m' /\
    (customBalance m = true -> balance m' = balance m) /\
    (customExpected m = true -> expectedContribution m' = expectedContribution m) /\
    (customPersonal m = true -> personal m' = personal m).
Proof.
  intros Hrun Hm. apply recalculateState_Ok in Hrun.
  destruct Hrun as [es [Hes Hout]]. subst out. rewrite members_of_set_members.
  pose proof (@recalculated_Forall2 frozen frozen_refl frozen_trans frozen_reset
                frozen_personal frozen_share frozen_finalize
                fresh (budget d) (members_of d) es frozen_init) as HF.
  destruct (Forall2_nth_error i HF Hm) as [m' [Hm' Hfr]].
  exists m'. unfold frozen in Hfr. tauto.
Qed.

Lemma override_freeze_witness :
  exists m',
    nth_error (members_of (returned no_fresh pinned_trip)) 1 = Some m' /\
    (customBalance pinned_member = true -> balance m' = balance pinned_member) /\
    (customExpected pinned_member = true ->
     expectedContribution m' = expectedContribution pinned_member) /\
    (customPersonal pinned_member = true -> personal m' = personal pinned_member).
Proof.
  apply (@override_freeze no_fresh pinned_trip (returned no_fresh pinned_trip)
           1%nat pinned_member).
  - vm_compute. reflexivity.
  - vm_compute. reflexivity.
Defined.

(** ** Arithmetic of the number model *)

Arguments add : simpl never.
Arguments sub : simpl never.
Arguments mul : simpl never.
Arguments div : simpl never.
Arguments max : simpl never.
Arguments round : simpl never.

Lemma same_refl x : same x x.
Proof. destruct x; simpl; [reflexivity|exact I]. Qed.

Lemma lift2_same (f : Q -> Q -> Q) x x' y y' :
  (forall a a' b b', a == a' -> b == b' -> f a b == f a' b') ->
  same x x' -> same y y' -> lift2 f x y = lift2 f x' y'.
Proof.
  intros Hf Hx Hy. destruct x, x', y, y'; simpl in *; try tauto.
  f_equal. apply Qred_complete. auto.
Qed.

Lemma add_same x x' y y' : same x x' -> same y y' -> add x y = add x' y'.
Proof. apply lift2_same. intros a a' b b' H1 H2. rewrite H1, H2. reflexivity. Qed.

Lemma sub_same x x' y y' : same x x' -> same y y' -> sub x y = sub x' y'.
Proof. apply lift2_same. intros a a' b b' H1 H2. rewrite H1, H2. reflexivity. Qed.

(** [v || 0] does not change the numeric reading of a number other than
    [NaN]. *)
Lemma or_zero_value_same a :
  same (ToNumber (or_zero_value (VNum (Num a)))) (Num a).
Proof.
  unfold or_zero_value. simpl. destruct (Qeq_bool a 0) eqn:E; simpl.
  - apply Qeq_bool_iff in E. symmetry. exact E.
  - reflexivity.
Qed.

Lemma Qeq_bool_100 : Qeq_bool 100 0 = false.
Proof. reflexivity. Qed.

(** [Math.round] returns the integer nearest to its argument, and the larger
    of the two when the argument lies half-way between them: the result [n]
    is the one integer with [n - 1/2 <= y < n + 1/2]. *)
Lemma round_nearest (y : Q) :
  exists n : Z, round (Num y) = Num (inject_Z n) /\
    inject_Z n - (1 # 2) <= y /\ y < inject_Z n + (1 # 2).
Proof.
  exists (Qfloor (y + (1 # 2))). split; [reflexivity|].
  pose proof (Qfloor_le (y + (1 # 2))) as Hle.
  pose proof (Qlt_floor (y + (1 # 2))) as Hlt.
  rewrite inject_Z_plus in Hlt. change (inject_Z 1) with 1 in Hlt.
  split; lra.
Qed.

(** ** The third loop *)

Lemma netPersonal_rule m :
  is_number (reimbursed m) = true ->
  isNaN (ToNumber (reimbursed m)) = false ->
  netPersonal m = net_personal_rule m.
Proof.
  unfold netPersonal, net_personal_rule.
  destruct (reimbursed m) as [| | |[b|]]; try discriminate. intros _ _.
  f_equal. apply sub_same; [apply same_refl | apply or_zero_value_same].
Qed.

Lemma finalize_member_keeps m :
  expectedContribution (finalize_member m) = expectedContribution m /\
  actualContribution (finalize_member m) = actualContribution m /\
  personal (finalize_member m) = personal m /\
  reimbursed (finalize_member m) = reimbursed m /\
  expenseShare (finalize_member m) = expenseShare m /\
  customBalance (finalize_member m) = customBalance m.
Proof. unfold finalize_member. member_cases m; auto 10. Qed.

Lemma finalize_member_remaining m :
  remainingContribution (finalize_member m) =
  VNum (max (sub (ToNumber (expectedContribution m))
                 (ToNumber (or_zero_value (actualContribution m)))) (Num 0)).
Proof. unfold finalize_member. member_cases m; reflexivity. Qed.

Lemma finalize_member_balance m :
  customBalance m = false ->
  balance (finalize_member m) =
  VNum (round2 (sub (add (ToNumber (or_zero_value (actualContribution m))) (netPersonal m))
                    (ToNumber (expenseShare m)))).
Proof.
  unfold finalize_member, netPersonal. intros H.
  destruct m as [? ? ? ? ? ? ? ? ? ? ? cb]; simpl in *. subst cb. reflexivity.
Qed.

Lemma finalize_member_rules m0 :
  normalised m0 ->
  let m := finalize_member m0 in
  isNaN (ToNumber (actualContribution m)) = false ->
  isNaN (ToNumber (reimbursed m)) = false ->
  remainingContribution m = remaining_rule m /\
  (customBalance m = false -> balance m = balance_rule round m).
Proof.
  intros [Hac Hre] m. subst m.
  unfold remaining_rule, balance_rule, net_personal_rule.
  destruct (finalize_member_keeps m0) as [-> [-> [-> [-> [-> ->]]]]].
  rewrite finalize_member_remaining.
  destruct (actualContribution m0) as [| | |[a|]] eqn:Ea; try discriminate.
  intros _ Hr. split.
  - f_equal. f_equal. apply sub_same; [apply same_refl | apply or_zero_value_same].
  - intros Hcb. rewrite (finalize_member_balance _ Hcb), Ea.
    rewrite (netPersonal_rule _ Hre Hr).
    unfold round2, to_cents, net_personal_rule. do 5 f_equal.
    apply add_same; [apply or_zero_value_same | apply same_refl].
Qed.

(** A reimbursement larger than the out-of-pocket total leaves no credit. *)
Lemma net_personal_rule_clamped m :
  gtb (ToNumber (reimbursed m)) (ToNumber (personal m)) = true ->
  net_personal_rule m = Num 0.
Proof.
  unfold net_personal_rule, gtb, sub, lift2, max.
  destruct (ToNumber (reimbursed m)) as [r|], (ToNumber (personal m)) as [p|];
    try discriminate.
  intros H. apply negb_true_iff in H.
  destruct (Qle_bool (Qred (p - r)) 0) eqn:E; [reflexivity|].
  exfalso. apply not_true_iff_false in E. apply E. apply Qle_bool_iff.
  rewrite Qred_correct.
  destruct (Qlt_le_dec p r) as [Hlt|Hle].
  - apply Qlt_le_weak in Hlt. lra.
  - apply Qle_bool_iff in Hle. congruence.
Qed.

(** C1 (amended).  After [recalculateState], for a member whose payments are
    not [NaN]: [remainingContribution] is
    [max(expectedContribution - actualContribution, 0)]; without a balance
    override, [balance] is [Math.round(b * 100) / 100] for
    [b = actualContribution + max(personal - reimbursed, 0) - expenseShare];
    a reimbursement above [personal] clamps the net personal credit to zero;
    and [Math.round] takes the product [b * 100] to the nearest integer, to
    the larger one when the product lies half-way between two integers,
    below zero as well. *)
Theorem derived_fields_half_up fresh d out m :
  recalculateState fresh d = Ok out ->
  In m (members_of out) ->
  isNaN (ToNumber (actualContribution m)) = false ->
  isNaN (ToNumber (reimbursed m)) = false ->
  remainingContribution m = remaining_rule m /\
  (customBalance m = false -> balance m = balance_rule round m) /\
  (gtb (ToNumber (reimbursed m)) (ToNumber (personal m)) = true ->
   net_personal_rule m = Num 0) /\
  (forall y : Q, exists n : Z,
     round (Num y) = Num (inject_Z n) /\
     inject_Z n - (1 # 2) <= y /\ y < inject_Z n + (1 # 2)).
Proof.
  intros Hrun Hin Ha Hr. apply recalculateState_Ok in Hrun.
  destruct Hrun as [es [_ Hout]]. subst out. rewrite members_of_set_members in Hin.
  apply recalculated_In in Hin. destruct Hin as [m0 [Hm Hnorm]]. subst m.
  destruct (finalize_member_rules Hnorm Ha Hr) as [H1 H2].
  repeat split; auto using net_personal_rule_clamped.
  apply round_nearest.
Qed.

Lemma derived_fields_half_up_witness :
  remainingContribution (nth 0 (members_of (returned no_fresh settled_trip)) pinned_member) =
  remaining_rule (nth 0 (members_of (returned no_fresh settled_trip)) pinned_member) /\
  (customBalance (nth 0 (members_of (returned no_fresh settled_trip)) pinned_member) = false ->
   balance (nth 0 (members_of (returned no_fresh settled_trip)) pinned_member) =
   balance_rule round (nth 0 (members_of (returned no_fresh settled_trip)) pinned_member)).
Proof.
  destruct (@derived_fields_half_up no_fresh settled_trip
              (returned no_fresh settled_trip)
              (nth 0 (members_of (returned no_fresh settled_trip)) pinned_member))
    as [H1 [H2 _]].
  - vm_compute. reflexivity.
  - vm_compute. left. reflexivity.
  - vm_compute. reflexivity.
  - vm_compute. reflexivity.
  - split; assumption.
Defined.

(** The balance of a member who owes 0.125 is stored as -0.12; with ties
    away from zero it would be -0.13. *)
Lemma owing_trip_balance :
  option_map (map balance) (members_of_result (recalculateState no_fresh owing_trip))
  = Some [VNum (Num (-3 # 25))].
Proof. vm_compute. reflexivity. Qed.

Lemma derived_fields_not_half_away :
  ~ derived_fields_half_away no_fresh owing_trip.
Proof.
  intros H.
  specialize (H (returned no_fresh owing_trip)
                (nth 0 (members_of (returned no_fresh owing_trip)) pinned_member)).
  destruct H as [_ H].
  - vm_compute. reflexivity.
  - vm_compute. left. reflexivity.
  - vm_compute. reflexivity.
  - vm_compute in H. discriminate H.
Qed.

(** ** Idempotence *)

(** The third loop assigns [remainingContribution] and, without an
    override, [balance]; nothing else. *)
Lemma finalize_member_shape m :
  exists r b,
    finalize_member m =
    set_remainingContribution r (if customBalance m then m else set_balance b m).
Proof.
  exists (remainingContribution (finalize_member m)), (balance (finalize_member m)).
  unfold finalize_member.
  destruct m as [? ? ? ? ? ? ? ? ? ? ? [|]]; reflexivity.
Qed.

Lemma core_finalize m : core (finalize_member m) = core m.
Proof.
  destruct (finalize_member_shape m) as [r [b ->]].
  unfold core. member_cases m; reflexivity.
Qed.

Lemma finalize_core x y : core x = core y -> finalize_member x = finalize_member y.
Proof.
  unfold core, finalize_member.
  destruct x as [? ? ? ? ? ? ? ? ? ? ? [|]], y as [? ? ? ? ? ? ? ? ? ? ? [|]];
    simpl; intros H; inversion H; subst; reflexivity.
Qed.

Lemma core_add_share s m : core (add_share s m) = add_share s (core m).
Proof. unfold core, add_share. member_cases m; reflexivity. Qed.

Lemma core_add_personal a m : core (add_personal a m) = add_personal a (core m).
Proof. unfold core, add_personal. member_cases m; reflexivity. Qed.

Lemma member_id_core m : member_id (core m) = member_id m.
Proof. unfold core. member_cases m; reflexivity. Qed.

Lemma has_id_core k m : has_id k (core m) = has_id k m.
Proof. unfold has_id. rewrite member_id_core. reflexivity. Qed.

Lemma map_member_id_core ms : map member_id (map core ms) = map member_id ms.
Proof. rewrite map_map. apply map_ext. apply member_id_core. Qed.

Lemma splitMembers_ids e ms ms' :
  map member_id ms' = map member_id ms -> splitMembers e ms' = splitMembers e ms.
Proof. intros H. unfold splitMembers. rewrite H. reflexivity. Qed.

Lemma core_allocate_expense ms e :
  map core (allocate_expense ms e) = allocate_expense (map core ms) e.
Proof.
  unfold allocate_expense.
  assert (T : map core (track_payer e ms) = track_payer e (map core ms)).
  { unfold track_payer. destruct (paidBy e) as [p|]; [|reflexivity].
    destruct (_ && _); [|reflexivity].
    apply update_first_commute; [apply has_id_core | apply core_add_personal]. }
  rewrite <- T. generalize (track_payer e ms) as l. intros l.
  unfold split_expense, sharePerMember.
  erewrite (@splitMembers_ids e l (map core l)) by apply map_member_id_core.
  destruct (0 <? _)%nat; [|reflexivity].
  generalize (div (expense_amount e) (of_nat (List.length (splitMembers e l)))) as s.
  intros s. generalize (splitMembers e l) as ks. intros ks. revert l.
  induction ks as [|k ks IH]; simpl; intros l; [reflexivity|].
  rewrite IH. f_equal.
  apply update_first_commute; [apply has_id_core | apply core_add_share].
Qed.

Lemma core_allocate_all es ms :
  map core (fold_left allocate_expense es ms) = fold_left allocate_expense es (map core ms).
Proof.
  revert ms. induction es as [|e es IH]; simpl; intros ms; [reflexivity|].
  rewrite IH, core_allocate_expense. reflexivity.
Qed.

Lemma map_factor {A B C : Type} (g : A -> B) (h : A -> C) (l l' : list A) :
  (forall x y, g x = g y -> h x = h y) ->
  map g l = map g l' -> map h l = map h l'.
Proof.
  intros Hgh. revert l'. induction l as [|x l IH]; intros [|y l']; simpl; intros H;
    try discriminate; [reflexivity|].
  inversion H as [[Hx Hl]]. f_equal; [apply Hgh; exact Hx | apply IH; exact Hl].
Qed.

Lemma map_finalize_core l l' :
  map core l = map core l' -> map finalize_member l = map finalize_member l'.
Proof. apply map_factor. apply finalize_core. Qed.

(** The first two loops forget what the allocation and the third loop
    wrote, and repeating them changes nothing. *)
Lemma prepare_add_share E s sh m : prepare E s (add_share sh m) = prepare E s m.
Proof.
  rewrite !prepare_eq. unfold add_share. destruct m; reflexivity.
Qed.

Lemma prepare_add_personal E s a m : prepare E s (add_personal a m) = prepare E s m.
Proof.
  rewrite !prepare_eq. unfold add_personal.
  destruct m as [? ? ? ? ? ? ? ? ? ? [|] ?]; reflexivity.
Qed.

Lemma core_prepare_finalize E s m :
  core (prepare E s (finalize_member m)) = core (prepare E s m).
Proof.
  destruct (finalize_member_shape m) as [r [b ->]].
  rewrite !prepare_eq. unfold core.
  destruct m as [? ? ? ? ? ? ? ? ? ? ? [|]]; reflexivity.
Qed.

Lemma prepare_prepare E s s' m :
  truthy_id (member_id m) = true -> prepare E s' (prepare E s m) = prepare E s m.
Proof.
  intros H. rewrite (prepare_eq E s' (prepare E s m)), !prepare_eq. cbn.
  rewrite H, H.
  destruct (customExpected m), (customPersonal m),
    (actualContribution m), (reimbursed m); reflexivity.
Qed.

Lemma prepare_fresh E s s' m :
  truthy_id (member_id m) = true -> prepare E s m = prepare E s' m.
Proof.
  intros H. rewrite !prepare_eq, H. reflexivity.
Qed.

Lemma prepare_members E fresh i ms :
  Forall (fun m => truthy_id (member_id m) = true) ms ->
  map reset_member (init_members E fresh i ms) = map (prepare E "") ms.
Proof.
  intros H. revert i. induction H as [|m ms Hm _ IH]; intros i; simpl; [reflexivity|].
  rewrite IH. f_equal. apply (prepare_fresh E (fresh i) "" _ Hm).
Qed.

Lemma prepare_allocate_expense E s ms e :
  map (prepare E s) (allocate_expense ms e) = map (prepare E s) ms.
Proof.
  unfold allocate_expense.
  assert (T : map (prepare E s) (track_payer e ms) = map (prepare E s) ms).
  { unfold track_payer. destruct (paidBy e) as [p|]; [|reflexivity].
    destruct (_ && _); [|reflexivity].
    apply update_first_map. intros x. apply prepare_add_personal. }
  rewrite <- T. generalize (track_payer e ms) as l. intros l.
  unfold split_expense. destruct (0 <? _)%nat; [|reflexivity].
  generalize (sharePerMember e l) as sh. intros sh.
  generalize (splitMembers e l) as ks. intros ks. revert l.
  induction ks as [|k ks IH]; simpl; intros l; [reflexivity|].
  rewrite IH. apply update_first_map. intros x. apply prepare_add_share.
Qed.

Lemma prepare_allocate_all E s es ms :
  map (prepare E s) (fold_left allocate_expense es ms) = map (prepare E s) ms.
Proof.
  revert ms. induction es as [|e es IH]; simpl; intros ms; [reflexivity|].
  rewrite IH. apply prepare_allocate_expense.
Qed.

Lemma same_id_refl m : same_id m m.
Proof. unfold same_id. auto. Qed.

Lemma same_id_trans x y z : same_id x y -> same_id y z -> same_id x z.
Proof.
  unfold same_id. intros H1 H2 H. rewrite H2; rewrite H1; auto.
Qed.

Lemma same_id_init E s m : same_id m (init_member E s m).
Proof.
  unfold same_id. rewrite init_member_eq. cbn. intros H. rewrite H. reflexivity.
Qed.

Lemma same_id_recalculated fresh b ms es :
  Forall2 same_id ms (recalculated fresh b ms es).
Proof.
  apply recalculated_Forall2;
    auto using same_id_refl, same_id_trans, same_id_init;
    unfold same_id; intros; try (member_cases m; reflexivity).
  - eapply same_id_trans; eauto.
  - apply same_id_init; assumption.
Qed.

Lemma recalculated_length fresh b ms es :
  List.length (recalculated fresh b ms es) = List.length ms.
Proof.
  symmetry. eapply Forall2_length. apply same_id_recalculated.
Qed.

Lemma recalculated_truthy fresh b ms es :
  Forall (fun m => truthy_id (member_id m) = true) ms ->
  Forall (fun m => truthy_id (member_id m) = true) (recalculated fresh b ms es).
Proof.
  apply (Forall2_Forall_r (R := same_id)); [|apply same_id_recalculated].
  unfold same_id. intros x y H Hx. rewrite H; assumption.
Qed.

(** Recalculating a recalculated member list gives it back. *)
Lemma recalculated_idempotent fresh fresh' b ms es :
  Forall (fun m => truthy_id (member_id m) = true) ms ->
  recalculated fresh' b (recalculated fresh b ms es) es = recalculated fresh b ms es.
Proof.
  intros Hid.
  pose proof (recalculated_truthy fresh b es Hid) as Hid'.
  unfold recalculated at 1. rewrite recalculated_length.
  rewrite (prepare_members _ fresh' 0 Hid').
  unfold recalculated. rewrite (prepare_members _ fresh 0 Hid).
  set (E := expected_share b (List.length ms)).
  apply map_finalize_core. rewrite !core_allocate_all. f_equal.
  set (a := fold_left allocate_expense es (map (prepare E "") ms)).
  transitivity (map core (map (prepare E "") a)).
  - rewrite !map_map. apply map_ext. intros m. apply core_prepare_finalize.
  - f_equal. unfold a. rewrite prepare_allocate_all, map_map.
    apply map_ext_in. intros m Hm. apply prepare_prepare.
    rewrite Forall_forall in Hid. auto.
Qed.

(** C2.  On a structurally valid snapshot [recalculateState] returns, and
    applied to its own result it returns that result again: no slot of any
    member changes. *)
Theorem recalculateState_idempotent fresh fresh' d :
  structurally_valid d ->
  exists out, recalculateState fresh d = Ok out /\
              recalculateState fresh' out = Ok out.
Proof.
  intros [_ [He Hid]]. destruct (expenses d) as [es|] eqn:Hes; [|congruence].
  exists (set_members (Some (recalculated fresh (budget d) (members_of d) es)) d).
  split.
  - apply recalculateState_Ok. exists es. auto.
  - apply recalculateState_Ok. exists es. split.
    + exact Hes.
    + rewrite members_of_set_members. cbn [set_members budget].
      rewrite recalculated_idempotent by assumption.
      reflexivity.
Qed.

Lemma recalculateState_idempotent_witness :
  exists out, recalculateState no_fresh pinned_trip = Ok out /\
              recalculateState no_fresh out = Ok out.
Proof.
  apply (@recalculateState_idempotent no_fresh no_fresh pinned_trip).
  unfold structurally_valid.
  split; [discriminate|]. split; [discriminate|].
  repeat constructor.
Defined.

(** ** The expected share *)

Lemma same_expected_after_init ms es :
  Forall2 same_expected ms
    (map finalize_member (fold_left allocate_expense es (map reset_member ms))).
Proof.
  apply after_init_Forall2; unfold same_expected.
  - reflexivity.
  - congruence.
  - intros m. member_cases m; reflexivity.
  - intros a m. member_cases m; reflexivity.
  - intros s m. member_cases m; reflexivity.
  - intros m. member_cases m; reflexivity.
Qed.

Lemma init_member_expected E s m :
  customExpected m = false ->
  expectedContribution (init_member E s m) = VNum E.
Proof.
  rewrite init_member_eq. cbn. intros ->. reflexivity.
Qed.

(** ** Identifiers and amounts *)

Lemma id_eqb_eq a b : id_eqb a b = true <-> a = b.
Proof.
  destruct a as [s|], b as [t|]; simpl; split; intros H;
    try discriminate; try reflexivity.
  - apply String.eqb_eq in H. congruence.
  - inversion H. apply String.eqb_refl.
Qed.

Lemma has_id_unique k ms i j x y :
  NoDup (map member_id ms) ->
  nth_error ms i = Some x -> nth_error ms j = Some y ->
  has_id k x = true -> has_id k y = true -> i = j.
Proof.
  intros Hnd Hi Hj Hx Hy. unfold has_id in *.
  apply id_eqb_eq in Hx. apply id_eqb_eq in Hy.
  assert (Hi' : nth_error (map member_id ms) i = Some k)
    by (rewrite nth_error_map, Hi; simpl; congruence).
  assert (Hj' : nth_error (map member_id ms) j = Some k)
    by (rewrite nth_error_map, Hj; simpl; congruence).
  eapply NoDup_nth_error; eauto.
  - apply nth_error_Some. congruence.
  - congruence.
Qed.

Lemma expense_amount_Num e : exists a, expense_amount e = Num a.
Proof.
  unfold expense_amount, or_zero, falsy.
  destruct (parseFloat (amount e)) as [a|]; [|eauto].
  destruct (Qeq_bool a 0); eauto.
Qed.

Lemma owes_named S m :
  owes (map Some S) m = true <-> exists s, member_id m = Some s /\ In s S.
Proof.
  unfold owes. rewrite existsb_exists. split.
  - intros [k [Hin Heq]]. apply in_map_iff in Hin. destruct Hin as [s [<- Hs]].
    apply id_eqb_eq in Heq. eauto.
  - intros [s [Hid Hs]]. exists (Some s). split; [apply in_map; exact Hs|].
    apply id_eqb_eq. exact Hid.
Qed.

Lemma NoDup_map_Some {A : Type} (l : list A) : NoDup l -> NoDup (map Some l).
Proof.
  intros H. induction H as [|x l Hx _ IH]; simpl; constructor; [|exact IH].
  intros Hin. apply in_map_iff in Hin. destruct Hin as [y [Hy Hin]].
  inversion Hy; subst. contradiction.
Qed.

Lemma div_one a : same (div (Num a) (of_nat 1)) (Num a).
Proof.
  unfold div, of_nat. change (Qeq_bool (inject_Z (Z.of_nat 1)) 0) with false.
  cbn [same]. rewrite Qred_correct. change (inject_Z (Z.of_nat 1)) with 1. field.
Qed.

(** ** Request handlers *)

Lemma findIndex_update_first {A : Type} (p : A -> bool) (f : A -> A) (l : list A) i x :
  findIndex p l = Some i -> nth_error l i = Some x ->
  nth_error (update_first p f l) i = Some (f x).
Proof.
  revert i. induction l as [|y r IH]; simpl; intros i Hi Hx; [discriminate|].
  destruct (p y).
  - inversion Hi; subst. simpl in *. congruence.
  - destruct (findIndex p r) as [j|]; [|discriminate]. inversion Hi; subst.
    simpl in *. apply IH; auto.
Qed.

Lemma keeps_paid_recalculated fresh b ms es :
  Forall2 keeps_paid ms (recalculated fresh b ms es).
Proof.
  apply recalculated_Forall2; unfold keeps_paid.
  - auto.
  - intros x y z H1 H2 H. rewrite H2; rewrite H1; auto.
  - intros m _. member_cases m; reflexivity.
  - intros a m _. member_cases m; reflexivity.
  - intros s m _. member_cases m; reflexivity.
  - intros m _. member_cases m; reflexivity.
  - intros E s m. rewrite init_member_eq. cbn. intros H. rewrite H. reflexivity.
Qed.

(** C10.  On a snapshot with both arrays present, a refund request is
    rejected, with an error status and nothing written, exactly when no
    member has the given identifier or the amount is not a number or is not
    strictly positive; an accepted refund subtracts the whole amount from the
    member's [actualContribution], whatever that was, and one accepted refund
    writes a negative [actualContribution]. *)
Theorem refund_unbounded fresh id amt d ms es :
  members d = Some ms -> expenses d = Some es ->
  (written (refund fresh id amt d) = None <->
   find (has_id id) ms = None \/
   isNaN (parseFloat amt) = true \/ leb (parseFloat amt) (Num 0) = true) /\
  (written (refund fresh id amt d) = None ->
   code (refund fresh id amt d) = NotFound_404 \/
   code (refund fresh id amt d) = BadRequest_400) /\
  (forall i m,
     findIndex (has_id id) ms = Some i -> nth_error ms i = Some m ->
     isNaN (parseFloat amt) = false -> leb (parseFloat amt) (Num 0) = false ->
     exists out m',
       refund fresh id amt d = Outcome OK_200 (Some out) /\
       nth_error (members_of out) i = Some m' /\
       actualContribution m' =
       VNum (sub (ToNumber (or_zero_value (actualContribution m))) (parseFloat amt))) /\
  (exists out m',
     refund no_fresh (Some "a") (VNum (Num 150)) settled_trip
       = Outcome OK_200 (Some out) /\
     nth_error (members_of out) 0 = Some m' /\
     actualContribution m' = VNum (Num (-50))).
Proof.
  intros Hms Hes.
  assert (Hrun : forall ms',
            recalculate_and_write fresh (set_members (Some ms') d) =
            Outcome OK_200
              (Some (set_members (Some (recalculated fresh (budget d) ms' es)) d))).
  { intros ms'. unfold recalculate_and_write, recalculateState.
    destruct d; simpl in *. rewrite Hes. reflexivity. }
  unfold refund. rewrite Hms.
  repeat split.
  - destruct (find (has_id id) ms); [|auto].
    destruct (isNaN (parseFloat amt)); [auto|].
    destruct (leb (parseFloat amt) (Num 0)); [auto|].
    simpl. rewrite Hrun. discriminate.
  - intros [H | [H | H]].
    + rewrite H. reflexivity.
    + rewrite H. destruct (find (has_id id) ms); reflexivity.
    + rewrite H, orb_true_r. destruct (find (has_id id) ms); reflexivity.
  - destruct (find (has_id id) ms); [|auto].
    destruct (isNaN (parseFloat amt) || leb (parseFloat amt) (Num 0)); [auto|].
    rewrite Hrun. discriminate.
  - intros i m Hi Hm Hnan Hpos.
    destruct (findIndex_find _ _ Hi) as [x [Hx [Hfind _]]].
    rewrite Hfind, Hnan, Hpos. simpl. rewrite Hrun.
    pose proof (findIndex_update_first _ (debit (parseFloat amt)) _ Hi Hm) as Hupd.
    destruct (Forall2_nth_error i
                (keeps_paid_recalculated fresh (budget d)
                   (update_first (has_id id) (debit (parseFloat amt)) ms) es) Hupd)
      as [m' [Hm' Hkeep]].
    exists (set_members
              (Some (recalculated fresh (budget d)
                       (update_first (has_id id) (debit (parseFloat amt)) ms) es)) d), m'.
    split; [reflexivity|]. split; [exact Hm'|].
    rewrite Hkeep by (unfold debit; member_cases m; reflexivity).
    unfold debit. member_cases m; reflexivity.
  - eexists. eexists. split; [vm_compute; reflexivity|].
    split; [reflexivity|]. reflexivity.
Qed.

Lemma refund_unbounded_witness :
  written (refund no_fresh (Some "a") (VNum (Num (-5))) settled_trip) = None <->
  find (has_id (Some "a")) [new_member "a" 100] = None \/
  isNaN (parseFloat (VNum (Num (-5)))) = true \/
  leb (parseFloat (VNum (Num (-5)))) (Num 0) = true.
Proof.
  destruct (@refund_unbounded no_fresh (Some "a") (VNum (Num (-5))) settled_trip
              [new_member "a" 100] []) as [H _].
  - reflexivity.
  - reflexivity.
  - exact H.
Defined.

(** C7.  A contribution of 150 recorded for a member who has 100 left to
    contribute: both the direct handler and the approval handler add the
    whole payment to [actualContribution] and put nothing in [personal]. *)
Theorem contribution_overpayment_not_routed :
  remainingContribution (nth 0 (members_of one_member_trip) pinned_member)
    = VNum (Num 100) /\
  paid_of (contribute no_fresh (Some "a") (VNum (Num 150)) true one_member_trip)
    = Some [(VNum (Num 150), VNum (Num 0))] /\
  paid_of (approve_contribution no_fresh "r1" "approve" one_member_trip)
    = Some [(VNum (Num 150), VNum (Num 0))].
Proof. repeat split; vm_compute; reflexivity. Qed.

(** ** The administrator *)

Lemma same_person_recalculated fresh b ms es :
  Forall2 same_person ms (recalculated fresh b ms es).
Proof.
  apply recalculated_Forall2; unfold same_person, same_id.
  - auto.
  - intros x y z [N1 I1] [N2 I2]. split; [congruence|].
    intros H. rewrite I2; rewrite I1; auto.
  - intros m. member_cases m; auto.
  - intros a m. member_cases m; auto.
  - intros s m. member_cases m; auto.
  - intros m. member_cases m; auto.
  - intros E s m. split; [|apply same_id_init].
    rewrite init_member_eq. reflexivity.
Qed.

(** Removing a member other than the first and recalculating keeps the
    first member in place. *)
Lemma admin_kept fresh b admin rest k es :
  exists admin' rest',
    recalculated fresh b (splice1 (S k) (admin :: rest)) es = admin' :: rest' /\
    same_person admin admin'.
Proof.
  simpl.
  pose proof (same_person_recalculated fresh b (admin :: splice1 k rest) es) as H.
  inversion H; subst. eauto.
Qed.

(** C8.  The first member of the list is the administrator.  A direct
    deletion that finds its target at index 0 is answered with 403 and
    writes nothing; approving a deletion request whose target is found at
    index 0 writes the document with its member list untouched and the
    request removed; and whatever a deletion handler writes, the member list
    still starts with the same person. *)
Theorem admin_never_deleted fresh d admin rest :
  members d = Some (admin :: rest) ->
  (forall id,
     findIndex (has_id (Some id)) (admin :: rest) = Some 0%nat ->
     delete_member fresh id d = Outcome Forbidden_403 None) /\
  (forall id i request,
     findIndex (fun r => String.eqb (dr_id r) id) (pendingDeletions d) = Some i ->
     nth_error (pendingDeletions d) i = Some request ->
     findIndex (has_id (dr_memberId request)) (admin :: rest) = Some 0%nat ->
     approve_deletion fresh id "approve" d =
     Outcome OK_200
       (Some (set_pendingDeletions (splice1 i (pendingDeletions d)) d))) /\
  (forall id out,
     written (delete_member fresh id d) = Some out ->
     exists admin' rest',
       members out = Some (admin' :: rest') /\ same_person admin admin') /\
  (forall id action out,
     written (approve_deletion fresh id action d) = Some out ->
     exists admin' rest',
       members out = Some (admin' :: rest') /\ same_person admin admin').
Proof.
  intros Hms.
  assert (Hself : same_person admin admin) by (split; [reflexivity | apply same_id_refl]).
  repeat split.
  - intros id H0. unfold delete_member. rewrite Hms, H0. reflexivity.
  - intros id i request Hi Hr H0. unfold approve_deletion.
    rewrite Hi, Hr, Hms, H0. reflexivity.
  - intros id out. unfold delete_member. rewrite Hms.
    destruct (findIndex (has_id (Some id)) (admin :: rest)) as [[|k]|];
      try discriminate.
    unfold recalculate_and_write.
    destruct (recalculateState fresh _) as [d'|] eqn:E; [|discriminate].
    simpl. intros H. inversion H; subst.
    apply recalculateState_Ok in E. destruct E as [es [_ ->]].
    destruct (admin_kept fresh (budget d) admin rest k es) as [a' [r' [E S]]].
    exists a', r'. split; [|exact S].
    simpl. f_equal. exact E.
  - intros id action out. unfold approve_deletion.
    destruct (findIndex _ (pendingDeletions d)) as [i|]; [|discriminate].
    destruct (nth_error (pendingDeletions d) i) as [request|]; [|discriminate].
    destruct (String.eqb action "approve").
    + rewrite Hms.
      destruct (findIndex (has_id (dr_memberId request)) (admin :: rest)) as [[|k]|].
      * simpl. intros H. inversion H; subst. simpl. eauto.
      * destruct (recalculateState fresh _) as [d'|] eqn:E; [|discriminate].
        simpl. intros H. inversion H; subst.
        apply recalculateState_Ok in E. destruct E as [es [_ ->]].
        destruct (admin_kept fresh (budget d) admin rest k es) as [a' [r' [E S]]].
        exists a', r'. split; [|exact S].
        simpl. f_equal. exact E.
      * simpl. intros H. inversion H; subst. simpl. eauto.
    + simpl. intros H. inversion H; subst. simpl. eauto.
Qed.

Lemma admin_never_deleted_witness :
  delete_member no_fresh "admin" two_member_trip = Outcome Forbidden_403 None /\
  approve_deletion no_fresh "d0" "approve" two_member_trip =
  Outcome OK_200
    (Some (set_pendingDeletions [DeletionRequest "d1" (Some "b")] two_member_trip)).
Proof.
  destruct (@admin_never_deleted no_fresh two_member_trip
              (new_member "admin" 100) [new_member "b" 0]) as [H1 [H2 _]].
  - reflexivity.
  - split.
    + apply H1. reflexivity.
    + apply (H2 "d0" 0%nat (DeletionRequest "d0" (Some "admin"))); reflexivity.
Defined.

(** ** Malformed numeric slots *)

Lemma init_member_coerce E s m :
  init_member E s (coerce_payments m) = init_member E s m.
Proof.
  rewrite !init_member_eq. unfold coerce_payments.
  destruct m as [? ? ? ac ? re ? ? ? ? ? ?]; cbn. destruct re, ac; reflexivity.
Qed.

Lemma init_members_coerce E fresh i ms :
  init_members E fresh i (map coerce_payments ms) = init_members E fresh i ms.
Proof.
  revert i. induction ms as [|m ms IH]; intros i; simpl; [reflexivity|].
  rewrite IH, init_member_coerce. reflexivity.
Qed.

Lemma expense_amount_coerce e : expense_amount (coerce_amount e) = expense_amount e.
Proof.
  unfold coerce_amount, expense_amount.
  destruct (parseFloat (amount e)) as [a|] eqn:E; simpl; [rewrite E|]; reflexivity.
Qed.

(** An expense whose amount does not read as a number is allocated as an
    expense of amount zero. *)
Lemma allocate_expense_coerce ms e :
  allocate_expense ms (coerce_amount e) = allocate_expense ms e.
Proof.
  assert (Hp : paidBy (coerce_amount e) = paidBy e)
    by (unfold coerce_amount; destruct (isNaN _); reflexivity).
  assert (Hs : splitBetween (coerce_amount e) = splitBetween e)
    by (unfold coerce_amount; destruct (isNaN _); reflexivity).
  unfold allocate_expense, track_payer, split_expense, sharePerMember, splitMembers.
  rewrite Hp, Hs, expense_amount_coerce. reflexivity.
Qed.

Lemma allocate_all_coerce es ms :
  fold_left allocate_expense (map coerce_amount es) ms = fold_left allocate_expense es ms.
Proof.
  revert ms. induction es as [|e es IH]; intros ms; simpl; [reflexivity|].
  rewrite allocate_expense_coerce. apply IH.
Qed.

Lemma recalculated_coerce fresh b ms es :
  recalculated fresh b (map coerce_payments ms) (map coerce_amount es) =
  recalculated fresh b ms es.
Proof.
  unfold recalculated.
  rewrite length_map, init_members_coerce, allocate_all_coerce. reflexivity.
Qed.

Lemma payments_coerced_init E s m : payments_coerced m (init_member E s m).
Proof.
  unfold payments_coerced. rewrite init_member_eq. unfold coerce_payments.
  destruct m as [? ? ? ac ? re ? ? ? ? ? ?]; cbn. destruct re, ac; split; reflexivity.
Qed.

Lemma Forall2_compose {A : Type} (R S T : A -> A -> Prop) (l1 l2 l3 : list A) :
  (forall x y z, R x y -> S y z -> T x z) ->
  Forall2 R l1 l2 -> Forall2 S l2 l3 -> Forall2 T l1 l3.
Proof.
  intros H H12. revert l3.
  induction H12; intros l3 H23; inversion H23; subst; constructor; eauto.
Qed.

Lemma recalculated_payments fresh b ms es :
  Forall2 payments_coerced ms (recalculated fresh b ms es).
Proof.
  unfold recalculated.
  eapply Forall2_compose;
    [| apply init_members_Forall2; apply payments_coerced_init
     | apply same_payments_finalized ].
  unfold payments_coerced, same_payments. intros x y z [H1 H2] [H3 H4].
  split; congruence.
Qed.

Lemma members_of_coerced w d :
  members_of (coerced w d) = map coerce_payments (members_of d).
Proof. unfold members_of, coerced. simpl. destruct (members d); reflexivity. Qed.

(** C9 (amended).  On every snapshot whose [expenses] array is present
    [recalculateState] returns, and the members it returns are those it
    would return had every payment slot that holds no number, and every
    expense amount that does not read as a number, held zero; in the result
    [reimbursed] and [actualContribution] are the input's when that is a
    number and zero otherwise. *)
Theorem recalculateState_degrades fresh d :
  expenses d <> None ->
  degrades_to_zero false fresh d /\
  exists out,
    recalculateState fresh d = Ok out /\
    forall i m, nth_error (members_of d) i = Some m ->
      exists m', nth_error (members_of out) i = Some m' /\
        reimbursed m' =
          (if is_number (reimbursed m) then reimbursed m else VNum (Num 0)) /\
        actualContribution m' =
          (if is_number (actualContribution m) then actualContribution m
           else VNum (Num 0)).
Proof.
  intros He. destruct (expenses d) as [es|] eqn:Hes; [|congruence].
  assert (Hrun : recalculateState fresh d =
                 Ok (set_members (Some (recalculated fresh (budget d) (members_of d) es)) d))
    by (apply recalculateState_Ok; eauto).
  split.
  - unfold degrades_to_zero.
    eexists. eexists. split; [exact Hrun|]. split.
    + apply recalculateState_Ok. exists (map coerce_amount es).
      split; [unfold coerced; simpl; rewrite Hes|]; reflexivity.
    + rewrite members_of_coerced. cbn [coerced budget set_members members].
      rewrite recalculated_coerce. reflexivity.
  - eexists. split; [exact Hrun|]. rewrite members_of_set_members.
    intros i m Hm.
    destruct (Forall2_nth_error i
                (recalculated_payments fresh (budget d) (members_of d) es) Hm)
      as [m' [Hm' [Hr Ha]]].
    exists m'. split; [exact Hm'|]. rewrite Hr, Ha.
    unfold coerce_payments.
    destruct m as [? ? ? ac ? re ? ? ? ? ? ?]; simpl; destruct re, ac; split; reflexivity.
Qed.

Lemma recalculateState_degrades_witness :
  degrades_to_zero false no_fresh malformed_trip.
Proof.
  destruct (@recalculateState_degrades no_fresh malformed_trip) as [H _].
  - discriminate.
  - exact H.
Defined.

(** Without a budget the share expected of a member is [NaN], not zero. *)
Lemma no_budget_trip_expected :
  option_map (map expectedContribution)
    (members_of_result (recalculateState no_fresh no_budget_trip))
  = Some [VNum NaN].
Proof. vm_compute. reflexivity. Qed.

Lemma missing_budget_not_coerced :
  ~ degrades_to_zero true no_fresh no_budget_trip.
Proof.
  intros [out [out' [H1 [H2 H3]]]].
  vm_compute in H1, H2. inversion H1; subst. inversion H2; subst.
  simpl in H3. discriminate H3.
Qed.

(** * Further properties of the engine *)

Unset Implicit Arguments.

(** ** One expense, member by member *)

Lemma has_id_add_share k s m : has_id k (add_share s m) = has_id k m.
Proof. unfold has_id, add_share. destruct m; reflexivity. Qed.

Lemma member_id_add_share s m : member_id (add_share s m) = member_id m.
Proof. destruct m; reflexivity. Qed.

Lemma member_id_add_personal a m : member_id (add_personal a m) = member_id m.
Proof. unfold add_personal. destruct m as [? ? ? ? ? ? ? ? ? ? [|] ?]; reflexivity. Qed.

Lemma member_id_iter_add_share n s m :
  member_id (Nat.iter n (add_share s) m) = member_id m.
Proof.
  induction n as [|n IH]; [reflexivity|].
  rewrite Nat.iter_succ, member_id_add_share. exact IH.
Qed.

(** One member under the loop over the split list. *)
Lemma split_loop_member s keys m :
  fold_left (fun acc k => if has_id k acc then add_share s acc else acc) keys m =
  Nat.iter (List.length (filter (id_eqb (member_id m)) keys)) (add_share s) m.
Proof.
  revert m. induction keys as [|k keys IH]; intros m; [reflexivity|].
  cbn [fold_left filter]. rewrite IH. unfold has_id.
  destruct (id_eqb (member_id m) k) eqn:E.
  - rewrite member_id_add_share. cbn [List.length].
    rewrite Nat.iter_succ_r. reflexivity.
  - reflexivity.
Qed.

(** With distinct member identifiers the loop over the split list acts on
    each member separately, repetitions in the list included. *)
Lemma split_loop_map s keys ms :
  NoDup (map member_id ms) ->
  fold_left (fun acc k => update_first (has_id k) (add_share s) acc) keys ms =
  map (fun m => fold_left (fun acc k => if has_id k acc then add_share s acc else acc)
                  keys m) ms.
Proof.
  revert ms. induction keys as [|k keys IH]; intros ms Hms; cbn [fold_left].
  - symmetry. apply map_id.
  - rewrite update_first_unique
      by (intros i j x y; apply has_id_unique; assumption).
    rewrite IH.
    + rewrite map_map. reflexivity.
    + rewrite map_map.
      replace (map (fun x => member_id (if has_id k x then add_share s x else x)) ms)
        with (map member_id ms); [assumption|].
      apply map_ext. intros m. destruct (has_id k m); [|reflexivity].
      symmetry. apply member_id_add_share.
Qed.

Lemma track_payer_map e ms :
  NoDup (map member_id ms) ->
  track_payer e ms =
  map (fun m => if pays e m then add_personal (expense_amount e) m else m) ms.
Proof.
  intros Hms. unfold track_payer, pays. destruct (paidBy e) as [p|].
  - destruct (truthy_string p && negb (String.eqb p "pool")); cbn [andb].
    + apply update_first_unique. intros i j x y. apply has_id_unique. assumption.
    + symmetry. apply map_id.
  - symmetry. apply map_id.
Qed.

Lemma times_owed_ids e ms ms' m m' :
  map member_id ms' = map member_id ms -> member_id m' = member_id m ->
  times_owed e ms' m' = times_owed e ms m.
Proof.
  intros H Hm. unfold times_owed. rewrite (@splitMembers_ids e ms ms' H), Hm.
  reflexivity.
Qed.

Lemma sharePerMember_ids e ms ms' :
  map member_id ms' = map member_id ms -> sharePerMember e ms' = sharePerMember e ms.
Proof.
  intros H. unfold sharePerMember. rewrite (@splitMembers_ids e ms ms' H). reflexivity.
Qed.

(** The body of the expense loop as a map over the members. *)
Lemma allocate_expense_map ms e :
  NoDup (map member_id ms) ->
  allocate_expense ms e = map (charge e ms) ms.
Proof.
  intros Hms. unfold allocate_expense. rewrite track_payer_map by exact Hms.
  set (credit1 := fun m => if pays e m then add_personal (expense_amount e) m else m).
  assert (Hids : map member_id (map credit1 ms) = map member_id ms).
  { rewrite map_map. apply map_ext. intros m. unfold credit1.
    destruct (pays e m); [apply member_id_add_personal | reflexivity]. }
  unfold split_expense.
  rewrite (@sharePerMember_ids e ms (map credit1 ms) Hids),
    (@splitMembers_ids e ms (map credit1 ms) Hids).
  destruct (0 <? List.length (splitMembers e ms))%nat eqn:Hlen.
  - rewrite split_loop_map by (rewrite Hids; exact Hms).
    rewrite map_map. apply map_ext. intros m.
    rewrite split_loop_member. unfold charge, times_owed. fold (credit1 m).
    replace (member_id (credit1 m)) with (member_id m); [reflexivity|].
    unfold credit1. destruct (pays e m); [|reflexivity].
    symmetry. apply member_id_add_personal.
  - apply Nat.ltb_ge in Hlen.
    apply map_ext. intros m. unfold charge, times_owed. fold (credit1 m).
    destruct (splitMembers e ms); [reflexivity | simpl in Hlen; lia].
Qed.

(** X1.  Over members with distinct identifiers, the body of the expense
    loop acts on every member separately: the payer is credited the amount,
    and a member is charged the share once for each entry of the split list
    that names them, so a member listed twice is charged twice. *)
Theorem allocate_expense_charge ms e i m :
  NoDup (map member_id ms) ->
  nth_error ms i = Some m ->
  nth_error (allocate_expense ms e) i = Some (charge e ms m) /\
  List.length (allocate_expense ms e) = List.length ms.
Proof.
  intros Hms Hm. rewrite allocate_expense_map by exact Hms.
  rewrite nth_error_map, Hm, length_map. split; reflexivity.
Qed.

Lemma allocate_expense_charge_witness :
  nth_error (allocate_expense three_members
               (Expense (VNum (Num 90)) (Some "a") (Some ["b"; "b"; "c"]))) 1 =
  Some (charge (Expense (VNum (Num 90)) (Some "a") (Some ["b"; "b"; "c"]))
          three_members (prepare (Num 0) "" (new_member "b" 0))) /\
  expenseShare (charge (Expense (VNum (Num 90)) (Some "a") (Some ["b"; "b"; "c"]))
                  three_members (prepare (Num 0) "" (new_member "b" 0)))
  = VNum (Num 60).
Proof.
  destruct (allocate_expense_charge three_members
              (Expense (VNum (Num 90)) (Some "a") (Some ["b"; "b"; "c"]))
              1%nat (prepare (Num 0) "" (new_member "b" 0))) as [H _].
  - repeat constructor; simpl; intuition discriminate.
  - reflexivity.
  - split; [exact H | vm_compute; reflexivity].
Defined.

(** ** The whole function, member by member *)

Lemma member_id_charge e ms m : member_id (charge e ms m) = member_id m.
Proof.
  unfold charge. rewrite member_id_iter_add_share.
  destruct (pays e m); [apply member_id_add_personal | reflexivity].
Qed.

Lemma charge_ids e ms ms' m :
  map member_id ms' = map member_id ms -> charge e ms' m = charge e ms m.
Proof.
  intros H. unfold charge.
  rewrite (@times_owed_ids e ms ms' m m H eq_refl), (@sharePerMember_ids e ms ms' H).
  reflexivity.
Qed.

Lemma allocate_all_charge ms es l :
  NoDup (map member_id l) -> map member_id l = map member_id ms ->
  fold_left allocate_expense es l =
  map (fun m => fold_left (fun acc e => charge e ms acc) es m) l.
Proof.
  revert l. induction es as [|e es IH]; intros l Hnd Hids; cbn [fold_left].
  - symmetry. apply map_id.
  - rewrite allocate_expense_map by exact Hnd.
    assert (Hids' : map member_id (map (charge e l) l) = map member_id l).
    { rewrite map_map. apply map_ext. intros m. apply member_id_charge. }
    rewrite IH.
    + rewrite map_map. apply map_ext. intros m.
      rewrite (charge_ids e ms l m Hids). reflexivity.
    + rewrite Hids'. exact Hnd.
    + rewrite Hids'. exact Hids.
Qed.

Lemma member_id_prepare E s m :
  truthy_id (member_id m) = true -> member_id (prepare E s m) = member_id m.
Proof. intros H. rewrite prepare_eq. cbn. rewrite H. reflexivity. Qed.

Lemma map_member_id_prepare E s ms :
  Forall (fun m => truthy_id (member_id m) = true) ms ->
  map member_id (map (prepare E s) ms) = map member_id ms.
Proof.
  intros H. rewrite map_map. apply map_ext_in. intros m Hm.
  apply member_id_prepare. rewrite Forall_forall in H. auto.
Qed.

Lemma recalculated_memberwise fresh b ms es :
  distinct_ids ms ->
  recalculated fresh b ms es = map (recalculate_member b ms es) ms.
Proof.
  intros [Hid Hnd]. unfold recalculated.
  rewrite (prepare_members _ fresh 0 Hid).
  pose proof (map_member_id_prepare (expected_share b (List.length ms)) "" ms Hid) as Hids.
  rewrite (allocate_all_charge ms es) by (try rewrite Hids; auto).
  rewrite !map_map. reflexivity.
Qed.

(** The call as a map over the members. *)
Lemma recalculateState_by_member fresh d es :
  expenses d = Some es ->
  distinct_ids (members_of d) ->
  recalculateState fresh d =
  Ok (set_members
        (Some (map (recalculate_member (budget d) (members_of d) es) (members_of d))) d).
Proof.
  intros Hes Hd. apply recalculateState_Ok. exists es. split; [exact Hes|].
  rewrite recalculated_memberwise by exact Hd. reflexivity.
Qed.

(** X2.  On a snapshot whose members carry distinct identifiers, the result
    of [recalculateState] for a member depends on the other members only
    through their identifiers: it is the first two loops, the expenses in
    turn and the third loop applied to that member alone. *)
Theorem recalculateState_memberwise fresh d out es i m :
  recalculateState fresh d = Ok out ->
  expenses d = Some es ->
  distinct_ids (members_of d) ->
  nth_error (members_of d) i = Some m ->
  nth_error (members_of out) i =
  Some (recalculate_member (budget d) (members_of d) es m).
Proof.
  intros Hrun Hes Hd Hm.
  rewrite (recalculateState_by_member fresh d es Hes Hd) in Hrun.
  inversion Hrun; subst out.
  rewrite members_of_set_members, nth_error_map, Hm. reflexivity.
Qed.

Lemma recalculateState_memberwise_witness :
  nth_error (members_of (returned no_fresh pinned_trip)) 0 =
  Some (recalculate_member (budget pinned_trip) (members_of pinned_trip)
          [Expense (VNum (Num 50)) (Some "p") (Some ["a"; "p"])] (new_member "a" 100)).
Proof.
  apply (recalculateState_memberwise no_fresh pinned_trip (returned no_fresh pinned_trip)).
  - vm_compute. reflexivity.
  - reflexivity.
  - split; repeat constructor; simpl; intuition discriminate.
  - reflexivity.
Defined.

(** ** Ledgers *)

Lemma iter_keeps {A B : Type} (g : A -> B) (f : A -> A) (n : nat) (x : A) :
  (forall y, g (f y) = g y) -> g (Nat.iter n f x) = g x.
Proof.
  intros H. induction n as [|n IH]; [reflexivity|].
  rewrite Nat.iter_succ, H. exact IH.
Qed.

Lemma personal_iter_add_share n s m :
  personal (Nat.iter n (add_share s) m) = personal m.
Proof. apply iter_keeps. intros y. destruct y; reflexivity. Qed.

Lemma customPersonal_charge e ms m : customPersonal (charge e ms m) = customPersonal m.
Proof.
  unfold charge. rewrite iter_keeps by (intros y; destruct y; reflexivity).
  destruct (pays e m); [|reflexivity].
  unfold add_personal. destruct m as [? ? ? ? ? ? ? ? ? ? [|] ?]; reflexivity.
Qed.

Lemma pays_id e m m' : member_id m' = member_id m -> pays e m' = pays e m.
Proof. intros H. unfold pays, has_id. rewrite H. reflexivity. Qed.

Lemma personal_charge e ms m :
  personal (charge e ms m) =
  if customPersonal m then personal m
  else if pays e m then plus (personal m) (expense_amount e) else personal m.
Proof.
  unfold charge. rewrite personal_iter_add_share.
  destruct (pays e m).
  - unfold add_personal. destruct m as [? ? ? ? ? ? ? ? ? ? [|] ?]; reflexivity.
  - destruct (customPersonal m); reflexivity.
Qed.

Lemma personal_charges es ms m acc :
  member_id acc = member_id m ->
  personal (fold_left (fun a e => charge e ms a) es acc) =
  if customPersonal acc then personal acc
  else fold_left (fun v e => if pays e m then plus v (expense_amount e) else v)
         es (personal acc).
Proof.
  revert acc. induction es as [|e es IH]; intros acc Hid; cbn [fold_left].
  - destruct (customPersonal acc); reflexivity.
  - rewrite IH by (rewrite member_id_charge; exact Hid).
    rewrite customPersonal_charge, personal_charge, (pays_id e m acc Hid).
    destruct (customPersonal acc); reflexivity.
Qed.

(** X3.  On a snapshot whose members carry distinct identifiers, a member
    without the [customPersonal] flag leaves [recalculateState] with
    [personal] equal to the amounts, added in the order of the expense list
    starting from zero, of the expenses whose [paidBy] is the member's
    identifier and is not [pool]; whatever [personal] held before is
    discarded. *)
Theorem personal_is_ledger fresh d out es i m :
  recalculateState fresh d = Ok out ->
  expenses d = Some es ->
  distinct_ids (members_of d) ->
  nth_error (members_of d) i = Some m ->
  customPersonal m = false ->
  exists m', nth_error (members_of out) i = Some m' /\
             personal m' = personal_ledger es m.
Proof.
  intros Hrun Hes Hd Hm Hcp.
  rewrite (recalculateState_by_member fresh d es Hes Hd) in Hrun.
  inversion Hrun; subst out. rewrite members_of_set_members.
  exists (recalculate_member (budget d) (members_of d) es m).
  split; [rewrite nth_error_map, Hm; reflexivity|].
  unfold recalculate_member, personal_ledger.
  destruct (finalize_member_keeps
              (fold_left (fun acc e => charge e (members_of d) acc) es
                 (prepare (expected_share (budget d) (List.length (members_of d))) "" m)))
    as [_ [_ [-> _]]].
  destruct Hd as [Hid _]. rewrite Forall_forall in Hid.
  rewrite (personal_charges es (members_of d) m)
    by (apply member_id_prepare; apply Hid; eapply nth_error_In; exact Hm).
  rewrite prepare_eq. cbn. rewrite Hcp. reflexivity.
Qed.

Lemma personal_is_ledger_witness :
  exists m', nth_error (members_of (returned no_fresh ledger_trip)) 0 = Some m' /\
             personal m' = VNum (Num 75).
Proof.
  destruct (@personal_is_ledger no_fresh ledger_trip (returned no_fresh ledger_trip)
              [dinner; pool_taxi; Expense (VNum (Num (-15))) (Some "a") None]
              0%nat (new_member "a" 0)) as [m' [H1 H2]].
  - vm_compute. reflexivity.
  - reflexivity.
  - split; repeat constructor; simpl; intuition discriminate.
  - reflexivity.
  - reflexivity.
  - exists m'. split; [exact H1|]. rewrite H2. vm_compute. reflexivity.
Defined.

Lemma expenseShare_iter_add_share n s m :
  expenseShare (Nat.iter n (add_share s) m) =
  Nat.iter n (fun w => plus w s) (expenseShare m).
Proof.
  induction n as [|n IH]; [reflexivity|].
  rewrite !Nat.iter_succ, <- IH.
  destruct (Nat.iter n (add_share s) m); reflexivity.
Qed.

Lemma expenseShare_charge e ms m :
  expenseShare (charge e ms m) =
  Nat.iter (times_owed e ms m) (fun w => plus w (sharePerMember e ms)) (expenseShare m).
Proof.
  unfold charge. rewrite expenseShare_iter_add_share. f_equal.
  destruct (pays e m); [|reflexivity].
  unfold add_personal. destruct m as [? ? ? ? ? ? ? ? ? ? [|] ?]; reflexivity.
Qed.

Lemma expenseShare_charges es ms m acc :
  member_id acc = member_id m ->
  expenseShare (fold_left (fun a e => charge e ms a) es acc) =
  fold_left
    (fun v e => Nat.iter (times_owed e ms m) (fun w => plus w (sharePerMember e ms)) v)
    es (expenseShare acc).
Proof.
  revert acc. induction es as [|e es IH]; intros acc Hid; cbn [fold_left]; [reflexivity|].
  rewrite IH by (rewrite member_id_charge; exact Hid).
  rewrite expenseShare_charge.
  rewrite (times_owed_ids e ms ms m acc eq_refl Hid). reflexivity.
Qed.

(** X4.  On a snapshot whose members carry distinct identifiers, every
    member leaves [recalculateState] with [expenseShare] equal to the shares
    of the expenses, added in the order of the expense list starting from
    zero: for each expense, [amount / length of the split list], once for
    every entry of the split list that is the member's identifier. *)
Theorem expenseShare_is_ledger fresh d out es i m :
  recalculateState fresh d = Ok out ->
  expenses d = Some es ->
  distinct_ids (members_of d) ->
  nth_error (members_of d) i = Some m ->
  exists m', nth_error (members_of out) i = Some m' /\
             expenseShare m' = share_ledger (members_of d) es m.
Proof.
  intros Hrun Hes Hd Hm.
  rewrite (recalculateState_by_member fresh d es Hes Hd) in Hrun.
  inversion Hrun; subst out. rewrite members_of_set_members.
  exists (recalculate_member (budget d) (members_of d) es m).
  split; [rewrite nth_error_map, Hm; reflexivity|].
  unfold recalculate_member, share_ledger.
  destruct (finalize_member_keeps
              (fold_left (fun acc e => charge e (members_of d) acc) es
                 (prepare (expected_share (budget d) (List.length (members_of d))) "" m)))
    as [_ [_ [_ [_ [-> _]]]]].
  destruct Hd as [Hid _]. rewrite Forall_forall in Hid.
  rewrite (expenseShare_charges es (members_of d) m)
    by (apply member_id_prepare; apply Hid; eapply nth_error_In; exact Hm).
  rewrite prepare_eq. reflexivity.
Qed.

Lemma expenseShare_is_ledger_witness :
  exists m', nth_error (members_of (returned no_fresh ledger_trip)) 1 = Some m' /\
             expenseShare m' = VNum (Num 75).
Proof.
  destruct (expenseShare_is_ledger no_fresh ledger_trip (returned no_fresh ledger_trip)
              [dinner; pool_taxi; Expense (VNum (Num (-15))) (Some "a") None]
              1%nat (new_member "b" 0)) as [m' [H1 H2]].
  - vm_compute. reflexivity.
  - reflexivity.
  - split; repeat constructor; simpl; intuition discriminate.
  - reflexivity.
  - exists m'. split; [exact H1|]. rewrite H2. vm_compute. reflexivity.
Defined.

(** ** A repeated identifier *)

(** [find] returns the first match: an element behind another that passes
    the same test is never the one updated. *)
Lemma update_first_shadowed {A : Type} (p : A -> bool) (f : A -> A) (l : list A)
    (i j : nat) (a x : A) :
  nth_error l i = Some a -> nth_error l j = Some x -> (i < j)%nat ->
  (p x = true -> p a = true) ->
  nth_error (update_first p f l) j = Some x.
Proof.
  revert i j. induction l as [|y r IH]; intros i j Hi Hj Hlt Hp.
  - destruct i; discriminate.
  - destruct j as [|j]; [lia|]. cbn [update_first].
    destruct (p y) eqn:Hy; [exact Hj|].
    cbn [nth_error] in *. destruct i as [|i].
    + cbn [nth_error] in Hi. inversion Hi; subst y.
      destruct (p x) eqn:Hx; [rewrite Hp in Hy by reflexivity; discriminate|].
      clear IH Hi Hlt Hp Hy. revert j Hj.
      induction r as [|z r IHr]; intros j Hj; [destruct j; discriminate|].
      cbn [update_first]. destruct (p z) eqn:Hz.
      * destruct j as [|j]; cbn [nth_error] in *; [|exact Hj].
        inversion Hj; subst z. congruence.
      * destruct j as [|j]; cbn [nth_error] in *; [exact Hj|]. apply IHr. exact Hj.
    + cbn [nth_error] in Hi. apply (IH i j Hi Hj); [lia | exact Hp].
Qed.

Lemma update_first_nth_id (p : member -> bool) (f : member -> member) (l : list member)
    (i : nat) (a : member) :
  (forall x, member_id (f x) = member_id x) ->
  nth_error l i = Some a ->
  exists a', nth_error (update_first p f l) i = Some a' /\ member_id a' = member_id a.
Proof.
  intros Hf Hi.
  assert (HF : Forall2 (fun x y => member_id y = member_id x) l (update_first p f l))
    by (apply update_first_Forall2; auto).
  destruct (Forall2_nth_error i HF Hi) as [a' [H1 H2]]. eauto.
Qed.

Lemma allocate_expense_shadowed ms e i j a m :
  nth_error ms i = Some a -> nth_error ms j = Some m -> (i < j)%nat ->
  member_id a = member_id m ->
  nth_error (allocate_expense ms e) j = Some m /\
  exists a', nth_error (allocate_expense ms e) i = Some a' /\ member_id a' = member_id m.
Proof.
  intros Hi Hj Hlt Hid.
  assert (Hp : forall k, has_id k m = true -> has_id k a = true)
    by (intros k; unfold has_id; rewrite Hid; auto).
  unfold allocate_expense.
  assert (T : nth_error (track_payer e ms) j = Some m /\
              exists a', nth_error (track_payer e ms) i = Some a' /\
                         member_id a' = member_id m).
  { unfold track_payer. destruct (paidBy e) as [p|]; [|eauto].
    destruct (_ && _); [|eauto]. split.
    - apply (update_first_shadowed _ _ ms i j a m Hi Hj Hlt (Hp _)).
    - rewrite <- Hid. apply update_first_nth_id; [apply member_id_add_personal | exact Hi]. }
  revert T. generalize (track_payer e ms) as l. intros l [Tj [a1 [Ti Tid]]].
  unfold split_expense. destruct (0 <? _)%nat; [|eauto].
  generalize (sharePerMember e ms) as s0. intros _.
  generalize (sharePerMember e l) as s. intros s.
  generalize (splitMembers e l) as keys. intros keys.
  revert l a1 Tj Ti Tid. induction keys as [|k keys IH]; intros l a1 Tj Ti Tid;
    cbn [fold_left]; [eauto|].
  destruct (update_first_nth_id (has_id k) (add_share s) l i a1
              (member_id_add_share s) Ti) as [a2 [Ti2 Tid2]].
  apply (IH _ a2).
  - apply (update_first_shadowed _ _ l i j a1 m Ti Tj Hlt).
    unfold has_id. rewrite Tid. auto.
  - exact Ti2.
  - congruence.
Qed.

Lemma allocate_all_shadowed es ms i j a m :
  nth_error ms i = Some a -> nth_error ms j = Some m -> (i < j)%nat ->
  member_id a = member_id m ->
  nth_error (fold_left allocate_expense es ms) j = Some m.
Proof.
  revert ms a. induction es as [|e es IH]; intros ms a Hi Hj Hlt Hid;
    cbn [fold_left]; [exact Hj|].
  destruct (allocate_expense_shadowed ms e i j a m Hi Hj Hlt Hid)
    as [Hj' [a' [Hi' Hid']]].
  apply (IH _ a'); auto.
Qed.

Lemma nth_error_init_members E fresh k ms i m :
  nth_error ms i = Some m ->
  nth_error (init_members E fresh k ms) i = Some (init_member E (fresh (k + i)%nat) m).
Proof.
  revert k i. induction ms as [|x r IH]; intros k i Hi; [destruct i; discriminate|].
  destruct i as [|i]; cbn [init_members nth_error] in *.
  - inversion Hi; subst. rewrite Nat.add_0_r. reflexivity.
  - rewrite (IH (S k) i Hi). replace (k + S i)%nat with (S k + i)%nat by lia.
    reflexivity.
Qed.

(** X5.  A member whose identifier is also the identifier of an earlier
    member is never found by the expense loop: after [recalculateState] they
    owe nothing, and are owed nothing unless [customPersonal] is set,
    whatever the expenses are. *)
Theorem repeated_id_never_charged fresh d out i j a m :
  recalculateState fresh d = Ok out ->
  nth_error (members_of d) i = Some a ->
  nth_error (members_of d) j = Some m ->
  (i < j)%nat ->
  member_id a = member_id m ->
  truthy_id (member_id m) = true ->
  exists m', nth_error (members_of out) j = Some m' /\
    expenseShare m' = VNum (Num 0) /\
    (customPersonal m = false -> personal m' = VNum (Num 0)).
Proof.
  intros Hrun Hi Hj Hlt Hid Hm.
  apply recalculateState_Ok in Hrun. destruct Hrun as [es [_ ->]].
  rewrite members_of_set_members. unfold recalculated.
  set (E := expected_share (budget d) (List.length (members_of d))).
  pose proof (nth_error_init_members E fresh 0 _ i a Hi) as Hi1.
  pose proof (nth_error_init_members E fresh 0 _ j m Hj) as Hj1.
  cbn [Nat.add] in Hi1, Hj1.
  assert (Hi2 : nth_error (map reset_member (init_members E fresh 0 (members_of d))) i
                = Some (prepare E (fresh i) a))
    by (rewrite nth_error_map, Hi1; reflexivity).
  assert (Hj2 : nth_error (map reset_member (init_members E fresh 0 (members_of d))) j
                = Some (prepare E (fresh j) m))
    by (rewrite nth_error_map, Hj1; reflexivity).
  assert (Hids : member_id (prepare E (fresh i) a) = member_id (prepare E (fresh j) m)).
  { rewrite !member_id_prepare; [exact Hid | exact Hm | rewrite Hid; exact Hm]. }
  pose proof (allocate_all_shadowed es _ i j _ _ Hi2 Hj2 Hlt Hids) as Hfin.
  exists (finalize_member (prepare E (fresh j) m)).
  split; [rewrite nth_error_map, Hfin; reflexivity|].
  destruct (finalize_member_keeps (prepare E (fresh j) m)) as [_ [_ [-> [_ [-> _]]]]].
  rewrite prepare_eq. cbn. split; [reflexivity|]. intros ->. reflexivity.
Qed.

Lemma repeated_id_never_charged_witness :
  exists m', nth_error (members_of (returned no_fresh twin_trip)) 1 = Some m' /\
    expenseShare m' = VNum (Num 0) /\
    (customPersonal (new_member "a" 10) = false -> personal m' = VNum (Num 0)).
Proof.
  apply (repeated_id_never_charged no_fresh twin_trip (returned no_fresh twin_trip)
           0%nat 1%nat (new_member "a" 0) (new_member "a" 10)).
  - vm_compute. reflexivity.
  - reflexivity.
  - reflexivity.
  - lia.
  - reflexivity.
  - reflexivity.
Defined.

(** ** The shape of the result *)

Lemma same_expected_nth E fresh ms es i m :
  nth_error ms i = Some m ->
  exists m', nth_error
               (map finalize_member
                  (fold_left allocate_expense es
                     (map reset_member (init_members E fresh 0 ms)))) i = Some m' /\
             expectedContribution m' = expectedContribution (init_member E (fresh i) m).
Proof.
  intros Hm.
  pose proof (nth_error_init_members E fresh 0 ms i m Hm) as H1. cbn [Nat.add] in H1.
  destruct (Forall2_nth_error i (same_expected_after_init _ es) H1) as [m' [Hm' He]].
  exists m'. split; [exact Hm' | exact He].
Qed.

(** The share expected of the member at a given position. *)
Lemma expected_share_nth fresh b ms es i m :
  nth_error ms i = Some m ->
  customExpected m = false ->
  exists m', nth_error (recalculated fresh b ms es) i = Some m' /\
    expectedContribution m' = VNum (div (ToNumber b) (of_nat (List.length ms))).
Proof.
  intros Hm Hce. unfold recalculated.
  destruct (same_expected_nth (expected_share b (List.length ms)) fresh ms es i m Hm)
    as [m' [Hm' He]].
  exists m'. split; [exact Hm'|]. rewrite He, init_member_expected by exact Hce.
  unfold expected_share.
  destruct (0 <? List.length ms)%nat eqn:E; [reflexivity|].
  apply Nat.ltb_ge in E. destruct ms; [destruct i; discriminate|].
  simpl in E. lia.
Qed.

(** X6.  After [recalculateState] every member without the [customExpected]
    flag is expected to contribute the budget divided by the number of all
    members: members with an override still count in the divisor. *)
Theorem expected_share_counts_everyone fresh d out i m :
  recalculateState fresh d = Ok out ->
  nth_error (members_of d) i = Some m ->
  customExpected m = false ->
  exists m', nth_error (members_of out) i = Some m' /\
    expectedContribution m' =
    VNum (div (ToNumber (budget d)) (of_nat (List.length (members_of d)))).
Proof.
  intros Hrun Hm Hce.
  apply recalculateState_Ok in Hrun. destruct Hrun as [es [_ ->]].
  rewrite members_of_set_members.
  exact (expected_share_nth fresh (budget d) (members_of d) es i m Hm Hce).
Qed.

Lemma expected_share_counts_everyone_witness :
  exists m', nth_error (members_of (returned no_fresh pinned_trip)) 0 = Some m' /\
    expectedContribution m' = VNum (Num 150).
Proof.
  destruct (expected_share_counts_everyone no_fresh pinned_trip
              (returned no_fresh pinned_trip) 0%nat (new_member "a" 100))
    as [m' [H1 H2]].
  - vm_compute. reflexivity.
  - reflexivity.
  - reflexivity.
  - exists m'. split; [exact H1|]. rewrite H2. vm_compute. reflexivity.
Defined.

Lemma keeps_identity_after_init ms es :
  Forall2 keeps_identity ms
    (map finalize_member (fold_left allocate_expense es (map reset_member ms))).
Proof.
  apply after_init_Forall2; unfold keeps_identity.
  - auto 10.
  - intros x y z [N1 [E1 [P1 [B1 I1]]]] [N2 [E2 [P2 [B2 I2]]]].
    repeat split; congruence.
  - intros m. rewrite reset_member_eq. auto 10.
  - intros a m. unfold add_personal.
    destruct m as [? ? ? ? ? ? ? ? ? ? [|] ?]; auto 10.
  - intros s m. destruct m; unfold add_share; cbn; auto 10.
  - intros m. destruct (finalize_member_shape m) as [r [b ->]].
    destruct m as [? ? ? ? ? ? ? ? ? ? ? [|]]; cbn; auto 10.
Qed.

(** A member keeps name, flags and identifier through the call. *)
Lemma recalculated_keeps_nth fresh b ms es i m :
  nth_error ms i = Some m ->
  exists m', nth_error (recalculated fresh b ms es) i = Some m' /\
             same_member_at fresh i m m'.
Proof.
  intros Hm. unfold recalculated.
  set (E := expected_share b (List.length ms)).
  pose proof (nth_error_init_members E fresh 0 _ i m Hm) as H1. cbn [Nat.add] in H1.
  destruct (Forall2_nth_error i (keeps_identity_after_init _ es) H1)
    as [m' [Hm' [N [CE [CP [CB I]]]]]].
  exists m'. split; [exact Hm'|].
  unfold same_member_at. rewrite N, CE, CP, CB, I, init_member_eq. cbn. auto 10.
Qed.

(** X7.  [recalculateState] writes the member list only: the budget, the
    expenses and the pending queues are returned as they were, and the member
    list keeps its length and order, every member keeping name and flags,
    and the identifier when there is one; a member without identifier
    receives the one generated for its position. *)
Theorem recalculateState_frame fresh d out :
  recalculateState fresh d = Ok out ->
  budget out = budget d /\ expenses out = expenses d /\
  pendingContributions out = pendingContributions d /\
  pendingDeletions out = pendingDeletions d /\
  List.length (members_of out) = List.length (members_of d) /\
  forall i m, nth_error (members_of d) i = Some m ->
    exists m', nth_error (members_of out) i = Some m' /\ same_member_at fresh i m m'.
Proof.
  intros Hrun. apply recalculateState_Ok in Hrun. destruct Hrun as [es [_ ->]].
  rewrite members_of_set_members.
  repeat split.
  - apply recalculated_length.
  - intros i m Hm. exact (recalculated_keeps_nth fresh (budget d) (members_of d) es i m Hm).
Qed.

Lemma recalculateState_frame_witness :
  List.length (members_of (returned no_fresh malformed_trip)) = 1%nat /\
  expenses (returned no_fresh malformed_trip) = expenses malformed_trip.
Proof.
  destruct (recalculateState_frame no_fresh malformed_trip
              (returned no_fresh malformed_trip)) as [_ [H2 [_ [_ [H5 _]]]]].
  - vm_compute. reflexivity.
  - split; [exact H5 | exact H2].
Defined.

Lemma numeric_slots_allocated es ms :
  Forall2 keeps_numeric_slots ms (fold_left allocate_expense es ms).
Proof.
  apply allocate_all_Forall2; unfold keeps_numeric_slots, numeric_slots.
  - auto.
  - auto.
  - intros a m. unfold add_personal.
    destruct m as [? ? ? ? ? ? ? ? ? ? [|] ?]; cbn; intuition.
  - intros s m. destruct m; unfold add_share; cbn; intuition.
Qed.

Lemma numeric_slots_prepared E fresh k ms :
  Forall numeric_slots (map reset_member (init_members E fresh k ms)).
Proof.
  revert k. induction ms as [|m ms IH]; intros k; cbn [init_members map];
    constructor; [|apply IH].
  fold (prepare E (fresh k) m). rewrite prepare_eq. unfold numeric_slots. cbn.
  split; [reflexivity|]. split; intros ->; reflexivity.
Qed.

Lemma max_zero_not_negative x : not_negative (VNum (max x (Num 0))).
Proof.
  unfold max. destruct x as [a|]; [|exact I].
  destruct (Qle_bool a 0) eqn:E; cbn.
  - apply Qle_refl.
  - apply Qlt_le_weak. apply Qnot_le_lt. intros H.
    apply Qle_bool_iff in H. congruence.
Qed.

(** X8.  In every member that [recalculateState] returns,
    [actualContribution], [reimbursed], [expenseShare] and
    [remainingContribution] hold numbers and [remainingContribution] is not
    negative; [personal], [expectedContribution] and [balance] hold numbers
    unless the corresponding override flag is set. *)
Theorem result_slots_numeric fresh d out m :
  recalculateState fresh d = Ok out ->
  In m (members_of out) ->
  is_number (actualContribution m) = true /\
  is_number (reimbursed m) = true /\
  is_number (expenseShare m) = true /\
  not_negative (remainingContribution m) /\
  (customPersonal m = false -> is_number (personal m) = true) /\
  (customExpected m = false -> is_number (expectedContribution m) = true) /\
  (customBalance m = false -> is_number (balance m) = true).
Proof.
  intros Hrun Hin. apply recalculateState_Ok in Hrun. destruct Hrun as [es [_ ->]].
  rewrite members_of_set_members in Hin.
  destruct (recalculated_In _ _ _ _ _ Hin) as [m0 [Hm [Ha Hr]]].
  assert (Hnum : numeric_slots m0).
  { unfold recalculated in Hin. apply in_map_iff in Hin.
    destruct Hin as [m1 [Hm1 Hin]].
    pose proof (numeric_slots_allocated es
                  (map reset_member
                     (init_members (expected_share (budget d)
                                      (List.length (members_of d))) fresh 0
                        (members_of d)))) as HF.
    eapply Forall2_Forall_r in HF;
      [| intros x y Hxy Hx; exact (Hxy Hx) | apply numeric_slots_prepared].
    rewrite Forall_forall in HF.
    assert (E : finalize_member m1 = finalize_member m0) by congruence.
    specialize (HF m1 Hin).
    destruct (finalize_member_keeps m1) as [K1 [_ [K3 [_ [K5 _]]]]].
    destruct (finalize_member_keeps m0) as [L1 [_ [L3 [_ [L5 _]]]]].
    destruct (finalize_member_shape m1) as [r1 [b1 S1]].
    destruct (finalize_member_shape m0) as [r0 [b0 S0]].
    assert (F1 : customPersonal (finalize_member m1) = customPersonal m1 /\
                 customExpected (finalize_member m1) = customExpected m1)
      by (rewrite S1; destruct m1 as [? ? ? ? ? ? ? ? ? ? ? [|]]; cbn; auto).
    assert (F0 : customPersonal (finalize_member m0) = customPersonal m0 /\
                 customExpected (finalize_member m0) = customExpected m0)
      by (rewrite S0; destruct m0 as [? ? ? ? ? ? ? ? ? ? ? [|]]; cbn; auto).
    destruct F1 as [F1p F1e], F0 as [F0p F0e].
    unfold numeric_slots in *.
    rewrite <- L5, <- L3, <- L1, <- F0p, <- F0e, <- E, K5, K3, K1, F1p, F1e.
    exact HF. }
  subst m.
  destruct (finalize_member_keeps m0) as [K1 [K2 [K3 [K4 [K5 K6]]]]].
  destruct (finalize_member_shape m0) as [r0 [b0 S0]].
  assert (F0 : customPersonal (finalize_member m0) = customPersonal m0 /\
               customExpected (finalize_member m0) = customExpected m0)
    by (rewrite S0; destruct m0 as [? ? ? ? ? ? ? ? ? ? ? [|]]; cbn; auto).
  destruct F0 as [F0p F0e]. destruct Hnum as [N1 [N2 N3]].
  rewrite K2, K4, K5, K3, K1, K6, F0p, F0e, finalize_member_remaining.
  repeat split; auto.
  - apply max_zero_not_negative.
  - intros Hcb. rewrite (finalize_member_balance _ Hcb). reflexivity.
Qed.

Lemma result_slots_numeric_witness :
  is_number (actualContribution
               (nth 0 (members_of (returned no_fresh malformed_trip)) pinned_member)) = true /\
  is_number (reimbursed
               (nth 0 (members_of (returned no_fresh malformed_trip)) pinned_member)) = true.
Proof.
  destruct (result_slots_numeric no_fresh malformed_trip
              (returned no_fresh malformed_trip)
              (nth 0 (members_of (returned no_fresh malformed_trip)) pinned_member))
    as [H1 [H2 _]].
  - vm_compute. reflexivity.
  - vm_compute. left. reflexivity.
  - split; assumption.
Defined.

(** * Further properties of the request handlers *)

Lemma recalculate_and_write_Ok fresh d ms es :
  expenses d = Some es ->
  recalculate_and_write fresh (set_members (Some ms) d) =
  Outcome OK_200 (Some (set_members (Some (recalculated fresh (budget d) ms es)) d)).
Proof.
  intros Hes. unfold recalculate_and_write, recalculateState.
  cbn [set_members expenses members budget]. rewrite Hes. reflexivity.
Qed.

Lemma find_None_findIndex {A : Type} (p : A -> bool) (l : list A) (i : nat) :
  findIndex p l = Some i -> find p l <> None.
Proof.
  intros Hi H. apply findIndex_None in H. congruence.
Qed.

(** X9.  [POST /api/members/contribute], on a snapshot with both arrays
    present, checks in this order: an unknown member is answered 404, then an
    amount that is not a number 400, then a caller who is not the
    administrator 403, nothing being written in these cases; otherwise the
    amount, whatever its sign, is added to the member's
    [actualContribution]. *)
Theorem contribute_checks fresh id amt isAdmin d ms es :
  members d = Some ms -> expenses d = Some es ->
  (find (has_id id) ms = None ->
   contribute fresh id amt isAdmin d = Outcome NotFound_404 None) /\
  (find (has_id id) ms <> None -> isNaN (parseFloat amt) = true ->
   contribute fresh id amt isAdmin d = Outcome BadRequest_400 None) /\
  (find (has_id id) ms <> None -> isNaN (parseFloat amt) = false -> isAdmin = false ->
   contribute fresh id amt isAdmin d = Outcome Forbidden_403 None) /\
  (forall i m,
     findIndex (has_id id) ms = Some i -> nth_error ms i = Some m ->
     isNaN (parseFloat amt) = false -> isAdmin = true ->
     exists out m',
       contribute fresh id amt isAdmin d = Outcome OK_200 (Some out) /\
       nth_error (members_of out) i = Some m' /\
       actualContribution m' =
       plus (or_zero_value (actualContribution m)) (parseFloat amt)).
Proof.
  intros Hms Hes. unfold contribute. rewrite Hms.
  split; [|split; [|split]].
  - intros ->. reflexivity.
  - intros Hf ->. destruct (find (has_id id) ms); [reflexivity | congruence].
  - intros Hf -> ->. destruct (find (has_id id) ms); [reflexivity | congruence].
  - intros i m Hi Hm Hnan ->.
    pose proof (find_None_findIndex _ _ _ Hi) as Hf.
    destruct (find (has_id id) ms); [|congruence].
    rewrite Hnan. cbn [negb].
    rewrite (recalculate_and_write_Ok fresh d _ es Hes).
    pose proof (findIndex_update_first _ (credit (parseFloat amt)) _ Hi Hm) as Hupd.
    destruct (Forall2_nth_error i
                (keeps_paid_recalculated fresh (budget d)
                   (update_first (has_id id) (credit (parseFloat amt)) ms) es) Hupd)
      as [m' [Hm' Hkeep]].
    eexists. exists m'. split; [reflexivity|].
    rewrite members_of_set_members. split; [exact Hm'|].
    rewrite Hkeep by (unfold credit; destruct m; reflexivity).
    unfold credit. destruct m; reflexivity.
Qed.

Lemma contribute_checks_witness :
  exists out m',
    contribute no_fresh (Some "a") (VNum (Num (-30))) true settled_trip
      = Outcome OK_200 (Some out) /\
    nth_error (members_of out) 0 = Some m' /\
    actualContribution m' = VNum (Num 70).
Proof.
  destruct (contribute_checks no_fresh (Some "a") (VNum (Num (-30))) true settled_trip
              [new_member "a" 100] [] eq_refl eq_refl) as [_ [_ [_ H]]].
  destruct (H 0%nat (new_member "a" 100) eq_refl eq_refl eq_refl eq_refl)
    as [out [m' [H1 [H2 H3]]]].
  exists out, m'. split; [exact H1|]. split; [exact H2|].
  rewrite H3. vm_compute. reflexivity.
Defined.

Lemma splice1_length {A : Type} (i : nat) (l : list A) :
  (i < List.length l)%nat -> S (List.length (splice1 i l)) = List.length l.
Proof.
  revert i. induction l as [|x r IH]; intros i Hi; [simpl in Hi; lia|].
  destruct i as [|i]; cbn [splice1 List.length] in *; [reflexivity|].
  rewrite IH by lia. reflexivity.
Qed.

Lemma findIndex_lt {A : Type} (p : A -> bool) (l : list A) (i : nat) :
  findIndex p l = Some i -> (i < List.length l)%nat.
Proof.
  intros H. destruct (findIndex_find _ _ H) as [x [Hx _]].
  apply nth_error_Some. congruence.
Qed.

(** X10.  [POST /api/contributions/approve], once the request is found,
    always answers 200 and removes exactly that request from the queue.  Any
    action other than [approve] leaves the members as they are, and so does
    an approval whose member is not found: the request is dropped and nobody
    is credited.  An approval whose member is found adds the requested amount
    to that member's [actualContribution]. *)
Theorem approve_contribution_consumes fresh id action d ms es i request :
  members d = Some ms -> expenses d = Some es ->
  findIndex (fun r => String.eqb (cr_id r) id) (pendingContributions d) = Some i ->
  nth_error (pendingContributions d) i = Some request ->
  (exists out,
     approve_contribution fresh id action d = Outcome OK_200 (Some out) /\
     pendingContributions out = splice1 i (pendingContributions d) /\
     S (List.length (pendingContributions out)) = List.length (pendingContributions d)) /\
  (action <> "approve" \/ find (has_id (cr_memberId request)) ms = None ->
   approve_contribution fresh id action d =
   Outcome OK_200
     (Some (set_pendingContributions (splice1 i (pendingContributions d)) d))) /\
  (forall k m,
     action = "approve" ->
     findIndex (has_id (cr_memberId request)) ms = Some k -> nth_error ms k = Some m ->
     exists out m',
       approve_contribution fresh id action d = Outcome OK_200 (Some out) /\
       nth_error (members_of out) k = Some m' /\
       actualContribution m' =
       plus_value (or_zero_value (actualContribution m)) (cr_amount request)).
Proof.
  intros Hms Hes Hi Hr.
  pose proof (splice1_length i (pendingContributions d) (findIndex_lt _ _ _ Hi)) as Hlen.
  unfold approve_contribution. rewrite Hi, Hr, Hms.
  split; [|split].
  - destruct (String.eqb action "approve").
    + destruct (find (has_id (cr_memberId request)) ms).
      * unfold recalculateState. cbn [set_members expenses members budget].
        rewrite Hes. eexists. split; [reflexivity|].
        cbn [set_pendingContributions pendingContributions set_members]. auto.
      * eexists. split; [reflexivity|].
        cbn [set_pendingContributions pendingContributions]. auto.
    + eexists. split; [reflexivity|].
      cbn [set_pendingContributions pendingContributions]. auto.
  - intros [Ha | Hf].
    + apply String.eqb_neq in Ha. rewrite Ha. reflexivity.
    + rewrite Hf. destruct (String.eqb action "approve"); reflexivity.
  - intros k m -> Hk Hm. rewrite String.eqb_refl.
    pose proof (find_None_findIndex _ _ _ Hk) as Hf.
    destruct (find (has_id (cr_memberId request)) ms); [|congruence].
    set (upd := fun m0 => set_actualContribution
                  (plus_value (or_zero_value (actualContribution m0)) (cr_amount request)) m0).
    assert (Hrun : recalculateState fresh
                     (set_members
                        (Some (update_first (has_id (cr_memberId request)) upd ms)) d) =
                   Ok (set_members
                         (Some (recalculated fresh (budget d)
                                  (update_first (has_id (cr_memberId request)) upd ms) es)) d)).
    { unfold recalculateState. cbn [set_members expenses members budget].
      rewrite Hes. reflexivity. }
    rewrite Hrun.
    pose proof (findIndex_update_first _ upd _ Hk Hm) as Hupd.
    destruct (Forall2_nth_error k
                (keeps_paid_recalculated fresh (budget d)
                   (update_first (has_id (cr_memberId request)) upd ms) es) Hupd)
      as [m' [Hm' Hkeep]].
    eexists. exists m'. split; [reflexivity|].
    cbn [set_pendingContributions set_members members_of members]. split; [exact Hm'|].
    rewrite Hkeep by (unfold upd; destruct m; reflexivity).
    unfold upd. destruct m; reflexivity.
Qed.

Lemma approve_contribution_consumes_witness :
  approve_contribution no_fresh "r1" "aprove" one_member_trip =
  Outcome OK_200 (Some (set_pendingContributions [] one_member_trip)).
Proof.
  destruct (approve_contribution_consumes no_fresh "r1" "aprove" one_member_trip
              (members_of one_member_trip) [] 0%nat
              (ContributionRequest "r1" (Some "a") (VNum (Num 150)))
              eq_refl eq_refl eq_refl eq_refl) as [_ [H _]].
  apply H. left. discriminate.
Defined.

(** X11.  [DELETE /api/members/:id], when the identifier is found behind the
    first position, removes exactly that member: the written list is one
    shorter and holds the other members in their order; the expenses are
    written back untouched, those naming the removed member included; and
    every remaining member without [customExpected] is now expected to
    contribute the budget divided by the new number of members. *)
Theorem delete_member_removes fresh id d ms es k :
  members d = Some ms -> expenses d = Some es ->
  findIndex (has_id (Some id)) ms = Some (S k) ->
  exists out,
    delete_member fresh id d = Outcome OK_200 (Some out) /\
    expenses out = Some es /\
    S (List.length (members_of out)) = List.length ms /\
    Forall2 same_person (splice1 (S k) ms) (members_of out) /\
    forall j m, nth_error (splice1 (S k) ms) j = Some m -> customExpected m = false ->
      exists m', nth_error (members_of out) j = Some m' /\
        expectedContribution m' =
        VNum (div (ToNumber (budget d)) (of_nat (List.length ms - 1))).
Proof.
  intros Hms Hes Hk. unfold delete_member. rewrite Hms, Hk.
  rewrite (recalculate_and_write_Ok fresh d _ es Hes).
  eexists. split; [reflexivity|]. rewrite members_of_set_members.
  pose proof (splice1_length (S k) ms (findIndex_lt _ _ _ Hk)) as Hlen.
  split; [exact Hes|]. split; [rewrite recalculated_length; exact Hlen|].
  split; [apply same_person_recalculated|].
  intros j m Hj Hce.
  destruct (expected_share_nth fresh (budget d) (splice1 (S k) ms) es j m Hj Hce)
    as [m' [Hm' He]].
  exists m'. split; [exact Hm'|]. rewrite He.
  replace (List.length (splice1 (S k) ms)) with (List.length ms - 1)%nat by lia.
  reflexivity.
Qed.

Lemma delete_member_removes_witness :
  exists out,
    delete_member no_fresh "b" two_member_trip = Outcome OK_200 (Some out) /\
    S (List.length (members_of out)) = 2%nat.
Proof.
  destruct (delete_member_removes no_fresh "b" two_member_trip
              (members_of two_member_trip) [] 0%nat eq_refl eq_refl eq_refl)
    as [out [H1 [_ [H3 _]]]].
  exists out. split; [exact H1 | exact H3].
Defined.

(** X12.  [POST /api/reset-data] on a non-empty member list writes a
    document whose only member is the former first member, with the same
    name, flags and identifier, nothing paid, reimbursed, owed or owing and a
    zero balance, and whose expenses and pending queues are empty.  The
    override flags survive the reset: with [customExpected] set the member is
    expected to contribute 0, otherwise the whole budget. *)
Theorem reset_data_keeps_admin fresh d admin rest :
  members d = Some (admin :: rest) ->
  exists out admin',
    reset_data fresh d = Outcome OK_200 (Some out) /\
    members out = Some [admin'] /\
    expenses out = Some [] /\
    pendingContributions out = [] /\ pendingDeletions out = [] /\
    budget out = budget d /\
    same_member_at fresh 0 admin admin' /\
    actualContribution admin' = VNum (Num 0) /\
    reimbursed admin' = VNum (Num 0) /\
    personal admin' = VNum (Num 0) /\
    expenseShare admin' = VNum (Num 0) /\
    balance admin' = VNum (Num 0) /\
    expectedContribution admin' =
      (if customExpected admin then VNum (Num 0)
       else VNum (div (ToNumber (budget d)) (of_nat 1))).
Proof.
  intros Hms. unfold reset_data. rewrite Hms.
  set (E := expected_share (budget d) 1).
  assert (Hrun : recalculateState fresh
                   (Data (budget d) (Some [reset_admin admin]) (Some []) [] []) =
                 Ok (Data (budget d)
                       (Some [finalize_member (prepare E (fresh 0%nat) (reset_admin admin))])
                       (Some []) [] [])).
  { apply recalculateState_Ok. exists []. split; reflexivity. }
  unfold recalculate_and_write. rewrite Hrun.
  eexists. eexists. split; [reflexivity|]. split; [reflexivity|].
  do 4 (split; [reflexivity|]).
  destruct (finalize_member_keeps (prepare E (fresh 0%nat) (reset_admin admin)))
    as [K1 [K2 [K3 [K4 [K5 K6]]]]].
  assert (Hb : balance (finalize_member (prepare E (fresh 0%nat) (reset_admin admin)))
               = VNum (Num 0)).
  { destruct (customBalance admin) eqn:Hcb.
    - destruct (finalize_member_shape (prepare E (fresh 0%nat) (reset_admin admin)))
        as [r [b ->]].
      rewrite prepare_eq. destruct admin; cbn in *. rewrite Hcb. reflexivity.
    - rewrite finalize_member_balance
        by (rewrite prepare_eq; destruct admin; cbn in *; exact Hcb).
      unfold netPersonal. rewrite prepare_eq.
      destruct admin as [? ? ? ? ? ? ? ? ? ? [|] ?]; vm_compute; reflexivity. }
  split.
  - unfold same_member_at.
    destruct (finalize_member_shape (prepare E (fresh 0%nat) (reset_admin admin)))
      as [r [b ->]].
    rewrite prepare_eq.
    destruct admin as [? ? ? ? ? ? ? ? ? ? ? [|]]; cbn; auto 10.
  - rewrite K2, K4, K3, K5, K1, Hb, prepare_eq.
    destruct admin as [? ? ? ? ? ? ? ? ? [|] [|] ?]; cbn; auto 10.
Qed.

Lemma reset_data_keeps_admin_witness :
  exists out admin',
    reset_data no_fresh pinned_second_trip = Outcome OK_200 (Some out) /\
    members out = Some [admin'] /\
    expectedContribution admin' = VNum (Num 0).
Proof.
  destruct (reset_data_keeps_admin no_fresh pinned_second_trip pinned_member
              [new_member "a" 100] eq_refl)
    as [out [admin' [H1 [H2 [_ [_ [_ [_ [_ [_ [_ [_ [_ [_ H]]]]]]]]]]]]]].
  exists out, admin'. split; [exact H1|]. split; [exact H2 | exact H].
Defined.

(** X13.  [POST /api/members] appends the new member, whether or not its
    identifier is already in use: the written list is one longer, the former
    members keep their positions, names, flags and identifiers, the new
    member comes last under the identifier of the request or, failing that,
    the generated one, and every former member without [customExpected] is
    now expected to contribute the budget divided by the new number of
    members. *)
Theorem add_member_appends fresh now newMember d ms es :
  members d = Some ms -> expenses d = Some es ->
  truthy_string now = true ->
  exists out,
    add_member fresh now newMember d = Outcome OK_200 (Some out) /\
    List.length (members_of out) = S (List.length ms) /\
    (forall i m, nth_error ms i = Some m ->
       exists m', nth_error (members_of out) i = Some m' /\
         same_member_at fresh i m m' /\
         (customExpected m = false ->
          expectedContribution m' =
          VNum (div (ToNumber (budget d)) (of_nat (S (List.length ms)))))) /\
    (exists new',
       nth_error (members_of out) (List.length ms) = Some new' /\
       name new' = name newMember /\
       member_id new' =
         if truthy_id (member_id newMember) then member_id newMember else Some now).
Proof.
  intros Hms Hes Hnow. unfold add_member. rewrite Hms.
  set (new0 := if truthy_id (member_id newMember) then newMember
               else set_id (Some now) newMember).
  rewrite (recalculate_and_write_Ok fresh d _ es Hes).
  eexists. split; [reflexivity|].
  rewrite members_of_set_members.
  assert (Hlen' : List.length (ms ++ [new0])%list = S (List.length ms))
    by (rewrite length_app; simpl; lia).
  split; [rewrite recalculated_length; exact Hlen'|]. split.
  - intros i m Hm.
    assert (Hi : nth_error (ms ++ [new0])%list i = Some m).
    { rewrite nth_error_app1; [exact Hm|]. apply nth_error_Some. congruence. }
    destruct (recalculated_keeps_nth fresh (budget d) _ es i m Hi) as [m' [Hm' Hsame]].
    exists m'. split; [exact Hm'|]. split; [exact Hsame|].
    intros Hce.
    destruct (expected_share_nth fresh (budget d) _ es i m Hi Hce) as [m2 [Hm2 He]].
    rewrite Hm2 in Hm'. inversion Hm'; subst m2.
    rewrite He, Hlen'. reflexivity.
  - assert (Hi : nth_error (ms ++ [new0])%list (List.length ms) = Some new0).
    { rewrite nth_error_app2 by lia. rewrite Nat.sub_diag. reflexivity. }
    destruct (recalculated_keeps_nth fresh (budget d) _ es _ _ Hi)
      as [m' [Hm' [Hn [_ [_ [_ Hid]]]]]].
    exists m'. split; [exact Hm'|]. rewrite Hn, Hid. unfold new0.
    destruct (truthy_id (member_id newMember)) eqn:Ht.
    + rewrite Ht. auto.
    + destruct newMember; cbn. rewrite Hnow. auto.
Qed.

Lemma add_member_appends_witness :
  exists out,
    add_member no_fresh "1700000000000" (new_member "a" 0) settled_trip
      = Outcome OK_200 (Some out) /\
    List.length (members_of out) = 2%nat.
Proof.
  destruct (add_member_appends no_fresh "1700000000000" (new_member "a" 0) settled_trip
              [new_member "a" 100] [] eq_refl eq_refl eq_refl) as [out [H1 [H2 _]]].
  exists out. split; [exact H1 | exact H2].
Defined.

Lemma find_dr_None memberId l :
  find (fun r => id_eqb (dr_memberId r) memberId) l = None <->
  ~ In memberId (map dr_memberId l).
Proof.
  induction l as [|r l IH]; cbn [find map In]; [tauto|].
  destruct (id_eqb (dr_memberId r) memberId) eqn:E.
  - apply id_eqb_eq in E. split; [discriminate | intros H; exfalso; apply H; auto].
  - rewrite IH. split.
    + intros H [H1 | H1]; [|exact (H H1)].
      apply id_eqb_eq in H1. congruence.
    + intros H H1. apply H. auto.
Qed.

(** X14.  [POST /api/members/delete-request] keeps at most one pending
    deletion per member: a request for a member who already has one is
    answered 400 and nothing is written, any other request is queued last,
    and a queue without two requests for the same member stays so.  The
    handler does not look at the member list, which is written back
    untouched. *)
Theorem request_deletion_once now memberId d :
  (In memberId (map dr_memberId (pendingDeletions d)) ->
   request_deletion now memberId d = Outcome BadRequest_400 None) /\
  (~ In memberId (map dr_memberId (pendingDeletions d)) ->
   request_deletion now memberId d =
   Outcome OK_200
     (Some (set_pendingDeletions
              (pendingDeletions d ++ [DeletionRequest now memberId])%list d))) /\
  (NoDup (map dr_memberId (pendingDeletions d)) ->
   forall out, written (request_deletion now memberId d) = Some out ->
     NoDup (map dr_memberId (pendingDeletions out)) /\ members out = members d).
Proof.
  unfold request_deletion.
  destruct (find (fun r => id_eqb (dr_memberId r) memberId) (pendingDeletions d))
    as [r|] eqn:Hf.
  - assert (Hin : In memberId (map dr_memberId (pendingDeletions d))).
    { apply find_some in Hf. destruct Hf as [Hin Heq]. apply id_eqb_eq in Heq.
      rewrite <- Heq. apply in_map. exact Hin. }
    split; [reflexivity|]. split; [contradiction|]. discriminate.
  - apply find_dr_None in Hf.
    split; [contradiction|]. split; [reflexivity|].
    intros Hnd out H. cbn [written] in H. inversion H; subst out.
    cbn [set_pendingDeletions pendingDeletions members]. split; [|reflexivity].
    rewrite map_app. cbn [map dr_memberId].
    apply NoDup_app; [exact Hnd | repeat constructor; simpl; tauto |].
    intros x Hx [<- | []]. contradiction.
Qed.

Lemma request_deletion_once_witness :
  request_deletion "1700000000000" (Some "b") two_member_trip = Outcome BadRequest_400 None.
Proof.
  destruct (request_deletion_once "1700000000000" (Some "b") two_member_trip) as [H _].
  apply H. right. left. reflexivity.
Defined.

(** ** Reimbursements *)

Lemma no_greater_refl x : no_greater x x.
Proof. destruct x; simpl; [apply Qle_refl | exact I]. Qed.

Lemma lift2_mono (f : Q -> Q -> Q) x x' y y' :
  (forall a a' b b', a <= a' -> b <= b' -> f a b <= f a' b') ->
  no_greater x x' -> no_greater y y' -> no_greater (lift2 f x y) (lift2 f x' y').
Proof.
  intros Hf Hx Hy. destruct x, x', y, y'; cbn [lift2 no_greater] in *; try tauto.
  rewrite !Qred_correct. auto.
Qed.

Lemma add_mono x x' y y' :
  no_greater x x' -> no_greater y y' -> no_greater (add x y) (add x' y').
Proof. apply lift2_mono. intros. apply Qplus_le_compat; assumption. Qed.

Lemma sub_mono x x' y y' :
  no_greater x x' -> no_greater y' y -> no_greater (sub x y) (sub x' y').
Proof.
  intros Hx Hy. unfold sub. destruct x, x', y, y'; cbn [lift2 no_greater] in *; try tauto.
  rewrite !Qred_correct. unfold Qminus. apply Qplus_le_compat; [assumption|].
  apply Qopp_le_compat. assumption.
Qed.

Lemma max_zero_mono x x' :
  no_greater x x' -> no_greater (max x (Num 0)) (max x' (Num 0)).
Proof.
  unfold max. destruct x as [a|], x' as [b|]; cbn [no_greater]; try tauto. intros H.
  destruct (Qle_bool a 0) eqn:Ea, (Qle_bool b 0) eqn:Eb; cbn [no_greater].
  - apply Qle_refl.
  - apply Qlt_le_weak. apply Qnot_le_lt. intros Hb.
    apply Qle_bool_iff in Hb. congruence.
  - apply Qle_bool_iff in Eb. eapply Qle_trans; eassumption.
  - exact H.
Qed.

Lemma round2_mono x x' : no_greater x x' -> no_greater (round2 x) (round2 x').
Proof.
  unfold round2, mul, lift2, round, div.
  destruct x as [a|], x' as [b|]; cbn [no_greater]; try tauto.
  rewrite Qeq_bool_100. cbn [no_greater].
  intros H. rewrite !Qred_correct.
  apply Qmult_le_compat_r; [|discriminate].
  rewrite <- Zle_Qle. apply Qfloor_resp_le.
  apply Qplus_le_compat; [|apply Qle_refl].
  apply Qmult_le_compat_r; [exact H | discriminate].
Qed.

Lemma iter_commute {A : Type} (f g : A -> A) (n : nat) (x : A) :
  (forall y, f (g y) = g (f y)) -> Nat.iter n f (g x) = g (Nat.iter n f x).
Proof.
  intros H. induction n as [|n IH]; [reflexivity|].
  rewrite !Nat.iter_succ, IH. apply H.
Qed.

Lemma charge_set_reimbursed e ms r m :
  charge e ms (set_reimbursed r m) = set_reimbursed r (charge e ms m).
Proof.
  unfold charge.
  replace (times_owed e ms (set_reimbursed r m)) with (times_owed e ms m)
    by (destruct m; reflexivity).
  replace (pays e (set_reimbursed r m)) with (pays e m) by (destruct m; reflexivity).
  rewrite <- iter_commute by (intros y; destruct y; reflexivity).
  f_equal. destruct (pays e m); [|reflexivity].
  unfold add_personal. destruct m as [? ? ? ? ? ? ? ? ? ? [|] ?]; reflexivity.
Qed.

Lemma charges_set_reimbursed es ms r m :
  fold_left (fun acc e => charge e ms acc) es (set_reimbursed r m) =
  set_reimbursed r (fold_left (fun acc e => charge e ms acc) es m).
Proof.
  revert m. induction es as [|e es IH]; intros m; cbn [fold_left]; [reflexivity|].
  rewrite charge_set_reimbursed. apply IH.
Qed.

Lemma prepare_repay E s a m :
  prepare E s (repay a m) = set_reimbursed (reimbursed (repay a m)) (prepare E s m).
Proof.
  rewrite !prepare_eq. unfold repay, plus. destruct m; reflexivity.
Qed.

(** [v || 0] read as a number. *)
Lemma or_zero_value_Num x :
  ToNumber (or_zero_value (VNum (Num x))) = Num x \/
  (x == 0 /\ ToNumber (or_zero_value (VNum (Num x))) = Num 0).
Proof.
  unfold or_zero_value, truthy, falsy. destruct (Qeq_bool x 0) eqn:E; cbn.
  - right. split; [apply Qeq_bool_iff; exact E | reflexivity].
  - left. reflexivity.
Qed.

(** What is counted as reimbursed grows with a reimbursement. *)
Lemma repay_grows q m :
  0 < q ->
  no_greater
    (ToNumber (or_zero_value
                 (if is_number (reimbursed m) then reimbursed m else VNum (Num 0))))
    (ToNumber (or_zero_value (reimbursed (repay (Num q) m)))).
Proof.
  intros Hq.
  assert (Hnum : forall x y, y <= x ->
            no_greater (Num y) (ToNumber (or_zero_value (VNum (Num (Qred (x + q))))))).
  { intros x y Hx.
    destruct (or_zero_value_Num (Qred (x + q))) as [-> | [E ->]]; cbn [no_greater].
    - rewrite Qred_correct. lra.
    - rewrite Qred_correct in E. lra. }
  unfold repay, plus, add, lift2.
  destruct m as [? ? ? ? ? re ? ? ? ? ? ?]. cbn [reimbursed set_reimbursed].
  destruct re as [| |[|]|[x|]]; cbn [is_number].
  - apply (Hnum 0 0). lra.
  - apply (Hnum 0 0). lra.
  - apply (Hnum 1 0). lra.
  - apply (Hnum 0 0). lra.
  - destruct (or_zero_value_Num x) as [E | [E0 E]]; rewrite E.
    + apply Hnum. lra.
    + apply Hnum. lra.
  - apply (Hnum 0 0). lra.
Qed.

Lemma charges_keep {B : Type} (g : member -> B) es ms m :
  (forall s y, g (add_share s y) = g y) ->
  (forall a y, g (add_personal a y) = g y) ->
  g (fold_left (fun acc e => charge e ms acc) es m) = g m.
Proof.
  intros Hs Hp. revert m. induction es as [|e es IH]; intros m; cbn [fold_left];
    [reflexivity|].
  rewrite IH. unfold charge. rewrite iter_keeps by (intros y; apply Hs).
  destruct (pays e m); [apply Hp | reflexivity].
Qed.

Lemma reimbursed_add_personal a y : reimbursed (add_personal a y) = reimbursed y.
Proof. unfold add_personal. destruct y as [? ? ? ? ? ? ? ? ? ? [|] ?]; reflexivity. Qed.

Lemma customBalance_add_personal a y : customBalance (add_personal a y) = customBalance y.
Proof. unfold add_personal. destruct y as [? ? ? ? ? ? ? ? ? ? [|] ?]; reflexivity. Qed.

Lemma fold_charge_ids es ms ms' m :
  map member_id ms' = map member_id ms ->
  fold_left (fun acc e => charge e ms' acc) es m =
  fold_left (fun acc e => charge e ms acc) es m.
Proof.
  intros H. revert m. induction es as [|e es IH]; intros m; cbn [fold_left];
    [reflexivity|].
  rewrite IH, (charge_ids e ms ms' m H). reflexivity.
Qed.

Lemma recalculate_member_ids b ms ms' es m :
  map member_id ms' = map member_id ms ->
  recalculate_member b ms' es m = recalculate_member b ms es m.
Proof.
  intros H. unfold recalculate_member. rewrite (fold_charge_ids es ms ms' _ H).
  replace (List.length ms') with (List.length ms); [reflexivity|].
  rewrite <- (length_map member_id ms), <- (length_map member_id ms'), H. reflexivity.
Qed.

Lemma distinct_ids_same_ids ms ms' :
  map member_id ms' = map member_id ms -> distinct_ids ms -> distinct_ids ms'.
Proof.
  intros H [Hid Hnd]. split; [|rewrite H; exact Hnd].
  assert (G : Forall (fun i => truthy_id i = true) (map member_id ms'))
    by (rewrite H; apply Forall_map; exact Hid).
  apply Forall_map in G. exact G.
Qed.

(** The third loop after a reimbursement: everything as before, except a
    balance that can only be lower. *)
Lemma finalize_after_repay q m x :
  0 < q ->
  reimbursed x = (if is_number (reimbursed m) then reimbursed m else VNum (Num 0)) ->
  let x' := set_reimbursed (reimbursed (repay (Num q) m)) x in
  actualContribution (finalize_member x') = actualContribution (finalize_member x) /\
  personal (finalize_member x') = personal (finalize_member x) /\
  expenseShare (finalize_member x') = expenseShare (finalize_member x) /\
  remainingContribution (finalize_member x') = remainingContribution (finalize_member x) /\
  (customBalance x = false ->
   slot_no_greater (balance (finalize_member x')) (balance (finalize_member x))).
Proof.
  intros Hq Hx x'.
  destruct (finalize_member_keeps x') as [K1 [K2 [K3 [_ [K5 _]]]]].
  destruct (finalize_member_keeps x) as [L1 [L2 [L3 [_ [L5 _]]]]].
  rewrite K2, K3, K5, L2, L3, L5, !finalize_member_remaining.
  assert (Hsame : actualContribution x' = actualContribution x /\
                  personal x' = personal x /\ expenseShare x' = expenseShare x /\
                  expectedContribution x' = expectedContribution x /\
                  customBalance x' = customBalance x /\
                  reimbursed x' = reimbursed (repay (Num q) m))
    by (unfold x'; destruct x; cbn; auto 10).
  destruct Hsame as [S1 [S2 [S3 [S4 [S5 S6]]]]].
  rewrite S1, S2, S3, S4. repeat split; try reflexivity.
  intros Hcb.
  rewrite (finalize_member_balance x' (eq_trans S5 Hcb)), (finalize_member_balance x Hcb).
  unfold netPersonal. rewrite S1, S2, S3, S6, Hx. cbn [slot_no_greater].
  apply round2_mono. apply sub_mono; [|apply no_greater_refl].
  apply add_mono; [apply no_greater_refl|].
  apply max_zero_mono. apply sub_mono; [apply no_greater_refl|].
  apply repay_grows. exact Hq.
Qed.

(** X15.  [POST /api/members/reimburse] with a positive amount, on a
    snapshot whose members carry distinct identifiers: compared with what
    [recalculateState] gives before the reimbursement, the member's
    [actualContribution], [personal], [expenseShare] and
    [remainingContribution] are the same afterwards, and the member's
    [balance], unless overridden, is never higher. *)
Theorem reimburse_never_raises_balance fresh id amt q d ms es i m out0 m0 :
  members d = Some ms -> expenses d = Some es ->
  distinct_ids ms ->
  findIndex (has_id id) ms = Some i -> nth_error ms i = Some m ->
  parseFloat amt = Num q -> 0 < q ->
  recalculateState fresh d = Ok out0 ->
  nth_error (members_of out0) i = Some m0 ->
  exists out m1,
    reimburse fresh id amt d = Outcome OK_200 (Some out) /\
    nth_error (members_of out) i = Some m1 /\
    actualContribution m1 = actualContribution m0 /\
    personal m1 = personal m0 /\
    expenseShare m1 = expenseShare m0 /\
    remainingContribution m1 = remainingContribution m0 /\
    (customBalance m = false -> slot_no_greater (balance m1) (balance m0)).
Proof.
  intros Hms Hes Hd Hi Hm Hamt Hq Hrun0 Hm0.
  assert (Hmem : members_of d = ms) by (unfold members_of; rewrite Hms; reflexivity).
  rewrite (recalculateState_by_member fresh d es Hes) in Hrun0
    by (rewrite Hmem; exact Hd).
  inversion Hrun0; subst out0. rewrite members_of_set_members, Hmem in Hm0.
  rewrite nth_error_map, Hm in Hm0. cbn [option_map] in Hm0.
  inversion Hm0; subst m0. clear Hm0 Hrun0.
  set (ms1 := update_first (has_id id) (repay (Num q)) ms).
  assert (Hids : map member_id ms1 = map member_id ms).
  { unfold ms1. apply update_first_map. intros x. unfold repay. destruct x; reflexivity. }
  pose proof (distinct_ids_same_ids ms ms1 Hids Hd) as Hd1.
  unfold reimburse. rewrite Hms.
  pose proof (find_None_findIndex _ _ _ Hi) as Hf.
  destruct (find (has_id id) ms); [|congruence].
  rewrite Hamt. cbn [isNaN orb leb].
  replace (Qle_bool q 0) with false
    by (symmetry; apply not_true_iff_false; intros H; apply Qle_bool_iff in H; lra).
  fold ms1. rewrite (recalculate_and_write_Ok fresh d ms1 es Hes).
  eexists. eexists. split; [reflexivity|]. rewrite members_of_set_members.
  rewrite (recalculated_memberwise fresh (budget d) ms1 es Hd1).
  rewrite nth_error_map.
  unfold ms1 at 2. rewrite (findIndex_update_first _ (repay (Num q)) _ Hi Hm).
  cbn [option_map]. split; [reflexivity|].
  rewrite (recalculate_member_ids (budget d) ms ms1 es _ Hids).
  unfold recalculate_member.
  rewrite prepare_repay, charges_set_reimbursed.
  set (x := fold_left (fun acc e => charge e ms acc) es
              (prepare (expected_share (budget d) (List.length ms)) "" m)).
  assert (Hx : reimbursed x =
               if is_number (reimbursed m) then reimbursed m else VNum (Num 0)).
  { unfold x. rewrite (charges_keep reimbursed)
      by (intros; try apply reimbursed_add_personal; destruct y; reflexivity).
    rewrite prepare_eq. reflexivity. }
  assert (Hcb : customBalance x = customBalance m).
  { unfold x. rewrite (charges_keep customBalance)
      by (intros; try apply customBalance_add_personal; destruct y; reflexivity).
    rewrite prepare_eq. reflexivity. }
  destruct (finalize_after_repay q m x Hq Hx) as [F1 [F2 [F3 [F4 F5]]]].
  repeat split; auto. intros Hc. apply F5. congruence.
Qed.

Lemma reimburse_never_raises_balance_witness :
  exists out m1,
    reimburse no_fresh (Some "a") (VNum (Num 40)) ledger_trip = Outcome OK_200 (Some out) /\
    nth_error (members_of out) 0 = Some m1 /\
    slot_no_greater (balance m1) (VNum (Num 15)).
Proof.
  destruct (reimburse_never_raises_balance no_fresh (Some "a") (VNum (Num 40)) 40
              ledger_trip (members_of ledger_trip)
              [dinner; pool_taxi; Expense (VNum (Num (-15))) (Some "a") None]
              0%nat (new_member "a" 0) (returned no_fresh ledger_trip)
              (nth 0 (members_of (returned no_fresh ledger_trip)) pinned_member))
    as [out [m1 [H1 [H2 [_ [_ [_ [_ H]]]]]]]].
  - reflexivity.
  - reflexivity.
  - split; repeat constructor; simpl; intuition discriminate.
  - reflexivity.
  - reflexivity.
  - reflexivity.
  - reflexivity.
  - vm_compute. reflexivity.
  - vm_compute. reflexivity.
  - exists out, m1. split; [exact H1|]. split; [exact H2|].
    assert (E : balance (nth 0 (members_of (returned no_fresh ledger_trip)) pinned_member)
                = VNum (Num 15)) by (vm_compute; reflexivity).
    rewrite <- E. apply H. reflexivity.
Defined.

(** ** What the handlers write *)

Lemma recalculate_and_write_settled fresh d ms es out :
  expenses d = Some es -> all_identified ms ->
  written (recalculate_and_write fresh (set_members (Some ms) d)) = Some out ->
  settled out.
Proof.
  intros Hes Hid H. rewrite (recalculate_and_write_Ok fresh d ms es Hes) in H.
  cbn [written] in H. inversion H; subst out. intros fresh'.
  apply recalculateState_Ok. exists es. split; [exact Hes|].
  rewrite members_of_set_members. cbn [set_members budget].
  rewrite (recalculated_idempotent fresh fresh' (budget d) es Hid). reflexivity.
Qed.

Lemma all_identified_update_first p f ms :
  (forall x, member_id (f x) = member_id x) ->
  all_identified ms -> all_identified (update_first p f ms).
Proof.
  intros Hf H. unfold all_identified in *.
  assert (G : Forall (fun i => truthy_id i = true) (map member_id (update_first p f ms))).
  { rewrite (update_first_map p f member_id ms Hf). apply Forall_map. exact H. }
  apply Forall_map in G. exact G.
Qed.

Lemma all_identified_splice1 k (ms : list member) :
  all_identified ms -> all_identified (splice1 k ms).
Proof.
  unfold all_identified. intros H. revert k.
  induction H as [|m ms Hm Hms IH]; intros k; [destruct k; constructor|].
  destruct k as [|k]; cbn [splice1]; [exact Hms|]. constructor; [exact Hm | apply IH].
Qed.

(** X16.  On a snapshot with both arrays present whose members all carry an
    identifier, whatever the contribution, refund, reimbursement, deletion
    and member-creation handlers write is a document that
    [recalculateState] leaves unchanged: the derived slots that are stored
    are always up to date. *)
Theorem handlers_write_settled fresh d ms es :
  members d = Some ms -> expenses d = Some es -> all_identified ms ->
  (forall id amt isAdmin out,
     written (contribute fresh id amt isAdmin d) = Some out -> settled out) /\
  (forall id amt out,
     written (refund fresh id amt d) = Some out -> settled out) /\
  (forall id amt out,
     written (reimburse fresh id amt d) = Some out -> settled out) /\
  (forall id out,
     written (delete_member fresh id d) = Some out -> settled out) /\
  (forall now newMember out,
     truthy_string now = true ->
     written (add_member fresh now newMember d) = Some out -> settled out).
Proof.
  intros Hms Hes Hid.
  split; [|split; [|split; [|split]]].
  - intros id amt isAdmin out. unfold contribute. rewrite Hms.
    destruct (find (has_id id) ms); [|discriminate].
    destruct (isNaN (parseFloat amt)); [discriminate|].
    destruct (negb isAdmin); [discriminate|].
    apply (recalculate_and_write_settled fresh d _ es out Hes).
    apply all_identified_update_first; [|exact Hid].
    intros x. unfold credit. destruct x; reflexivity.
  - intros id amt out. unfold refund. rewrite Hms.
    destruct (find (has_id id) ms); [|discriminate].
    destruct (isNaN (parseFloat amt) || leb (parseFloat amt) (Num 0)); [discriminate|].
    apply (recalculate_and_write_settled fresh d _ es out Hes).
    apply all_identified_update_first; [|exact Hid].
    intros x. unfold debit. destruct x; reflexivity.
  - intros id amt out. unfold reimburse. rewrite Hms.
    destruct (find (has_id id) ms); [|discriminate].
    destruct (isNaN (parseFloat amt) || leb (parseFloat amt) (Num 0)); [discriminate|].
    apply (recalculate_and_write_settled fresh d _ es out Hes).
    apply all_identified_update_first; [|exact Hid].
    intros x. unfold repay. destruct x; reflexivity.
  - intros id out. unfold delete_member. rewrite Hms.
    destruct (findIndex (has_id (Some id)) ms) as [[|k]|]; try discriminate.
    apply (recalculate_and_write_settled fresh d _ es out Hes).
    apply all_identified_splice1. exact Hid.
  - intros now newMember out Hnow. unfold add_member. rewrite Hms.
    apply (recalculate_and_write_settled fresh d _ es out Hes).
    unfold all_identified. apply Forall_app. split; [exact Hid|].
    constructor; [|constructor].
    destruct (truthy_id (member_id newMember)) eqn:E; [exact E|].
    destruct newMember; cbn. exact Hnow.
Qed.

Lemma handlers_write_settled_witness :
  exists out,
    written (refund no_fresh (Some "a") (VNum (Num 150)) settled_trip) = Some out /\
    settled out.
Proof.
  destruct (handlers_write_settled no_fresh settled_trip [new_member "a" 100] []
              eq_refl eq_refl) as [_ [H _]].
  - repeat constructor.
  - destruct (written (refund no_fresh (Some "a") (VNum (Num 150)) settled_trip))
      as [out|] eqn:E; [|vm_compute in E; discriminate E].
    exists out. split; [reflexivity|].
    apply (H (Some "a") (VNum (Num 150)) out E).
Defined.


(** ** Adding an expense *)

Lemma member_id_finalize m : member_id (finalize_member m) = member_id m.
Proof. unfold finalize_member. member_cases m; reflexivity. Qed.

Lemma member_id_recalculate_member b ms es m :
  truthy_id (member_id m) = true ->
  member_id (recalculate_member b ms es m) = member_id m.
Proof.
  intros Hid. unfold recalculate_member.
  rewrite member_id_finalize,
    (charges_keep member_id es ms _ member_id_add_share member_id_add_personal).
  apply member_id_prepare. exact Hid.
Qed.

(** The share owed after one more expense, from the share owed before. *)
Lemma expenseShare_push b ms es e m :
  truthy_id (member_id m) = true ->
  expenseShare (recalculate_member b ms (es ++ [e]) m) =
  Nat.iter (times_owed e ms m) (fun w => plus w (sharePerMember e ms))
    (expenseShare (recalculate_member b ms es m)).
Proof.
  intros Hid. unfold recalculate_member. rewrite fold_left_app. cbn [fold_left].
  set (x := fold_left (fun acc e0 => charge e0 ms acc) es
              (prepare (expected_share b (List.length ms)) "" m)).
  destruct (finalize_member_keeps (charge e ms x)) as [_ [_ [_ [_ [-> _]]]]].
  destruct (finalize_member_keeps x) as [_ [_ [_ [_ [-> _]]]]].
  rewrite expenseShare_charge.
  rewrite (times_owed_ids e ms ms m x eq_refl); [reflexivity|].
  unfold x.
  rewrite (charges_keep member_id es ms _ member_id_add_share member_id_add_personal).
  apply member_id_prepare. exact Hid.
Qed.

(** A list without repetition holds a key once or not at all. *)
Lemma count_once keys k :
  NoDup keys ->
  List.length (filter (id_eqb k) keys) =
  if existsb (id_eqb k) keys then 1%nat else 0%nat.
Proof.
  intros H. induction H as [|x l Hx _ IH]; [reflexivity|].
  cbn [filter existsb]. destruct (id_eqb k x) eqn:E; cbn [orb List.length].
  - apply id_eqb_eq in E. subst x. rewrite IH.
    destruct (existsb (id_eqb k) l) eqn:E2; [|reflexivity].
    exfalso. apply Hx. apply existsb_exists in E2. destruct E2 as [y [Hy Hky]].
    apply id_eqb_eq in Hky. subst y. exact Hy.
  - exact IH.
Qed.

(** Both calls return, and the member at an index of the second result is
    the one of the first result charged for the pushed expense. *)
Lemma push_expense_returns fresh d es e :
  expenses d = Some es -> distinct_ids (members_of d) ->
  exists out0 out1,
    recalculateState fresh d = Ok out0 /\
    recalculateState fresh (push_expense e d) = Ok out1 /\
    List.length (members_of out1) = List.length (members_of out0).
Proof.
  intros Hes Hd.
  exists (set_members
            (Some (map (recalculate_member (budget d) (members_of d) es) (members_of d))) d),
         (set_members
            (Some (map (recalculate_member (budget d) (members_of d) (es ++ [e]))
                     (members_of d))) (push_expense e d)).
  split; [apply recalculateState_by_member; assumption|]. split.
  - apply (recalculateState_by_member fresh (push_expense e d) (es ++ [e])); [|exact Hd].
    unfold push_expense. cbn [expenses]. rewrite Hes. reflexivity.
  - rewrite !members_of_set_members, !length_map. reflexivity.
Qed.

Lemma push_expense_share fresh d es e out0 out1 i m0 m1 :
  expenses d = Some es -> distinct_ids (members_of d) ->
  recalculateState fresh d = Ok out0 ->
  recalculateState fresh (push_expense e d) = Ok out1 ->
  nth_error (members_of out0) i = Some m0 ->
  nth_error (members_of out1) i = Some m1 ->
  exists m, In m (members_of d) /\ member_id m0 = member_id m /\
    expenseShare m1 =
    Nat.iter (times_owed e (members_of d) m)
      (fun w => plus w (sharePerMember e (members_of d))) (expenseShare m0).
Proof.
  intros Hes Hd H0 H1 Hm0 Hm1.
  rewrite (recalculateState_by_member fresh d es Hes Hd) in H0.
  assert (Hes' : expenses (push_expense e d) = Some (es ++ [e])%list)
    by (unfold push_expense; cbn [expenses]; rewrite Hes; reflexivity).
  rewrite (recalculateState_by_member fresh (push_expense e d) (es ++ [e]) Hes' Hd) in H1.
  inversion H0; subst out0. inversion H1; subst out1.
  rewrite members_of_set_members in Hm0, Hm1.
  change (members_of (push_expense e d)) with (members_of d) in Hm1.
  change (budget (push_expense e d)) with (budget d) in Hm1.
  rewrite nth_error_map in Hm0, Hm1.
  destruct (nth_error (members_of d) i) as [m|] eqn:Hm; [|discriminate].
  cbn [option_map] in Hm0, Hm1. inversion Hm0; subst m0. inversion Hm1; subst m1.
  assert (Hin : In m (members_of d)) by (eapply nth_error_In; exact Hm).
  assert (Hid : truthy_id (member_id m) = true).
  { destruct Hd as [Hid _]. rewrite Forall_forall in Hid. auto. }
  exists m. split; [exact Hin|]. split.
  - apply member_id_recalculate_member. exact Hid.
  - apply expenseShare_push. exact Hid.
Qed.

(** C3 (amended).  On a document whose members carry distinct identifiers,
    for a pushed expense whose [splitBetween] is a non-empty list [S] without
    repetition: both calls of [recalculateState] return, the one with the
    expense adds [amount / |S|], the amount being [parseFloat(e.amount) || 0],
    to the [expenseShare] of each member named in [S], and the [expenseShare]
    of the other members is what it is without the expense. *)
Theorem split_between_shares fresh d es e S :
  expenses d = Some es ->
  distinct_ids (members_of d) ->
  splitBetween e = Some S -> NoDup S ->
  (exists out0 out1,
     recalculateState fresh d = Ok out0 /\
     recalculateState fresh (push_expense e d) = Ok out1 /\
     List.length (members_of out1) = List.length (members_of out0)) /\
  split_between_rule fresh d e.
Proof.
  intros Hes Hd HS Hnd. split; [apply (push_expense_returns fresh d es e Hes Hd)|].
  intros S' out0 out1 i m0 m1 HS' Hne H0 H1 Hm0 Hm1.
  rewrite HS in HS'. inversion HS'; subst S'.
  destruct (push_expense_share fresh d es e out0 out1 i m0 m1 Hes Hd H0 H1 Hm0 Hm1)
    as [m [_ [Hid Hsh]]].
  assert (Hsplit : splitMembers e (members_of d) = map Some S).
  { unfold splitMembers. rewrite HS. destruct S; [congruence|reflexivity]. }
  unfold times_owed, sharePerMember, expense_amount in Hsh.
  rewrite Hsplit, length_map, (count_once (map Some S) (member_id m)) in Hsh
    by (apply NoDup_map_Some; exact Hnd).
  fold (owes (map Some S) m) in Hsh.
  assert (Hnamed : owes (map Some S) m = true <-> named S m0).
  { unfold named. rewrite Hid. apply owes_named. }
  split.
  - intros Hn. apply Hnamed in Hn. rewrite Hn in Hsh. exact Hsh.
  - intros Hn. destruct (owes (map Some S) m) eqn:Ho; [|exact Hsh].
    exfalso. apply Hn, Hnamed. reflexivity.
Qed.

Lemma split_between_shares_witness :
  (exists out0 out1,
     recalculateState no_fresh dinner_trip = Ok out0 /\
     recalculateState no_fresh
       (push_expense (Expense (VNum (Num 90)) (Some "a") (Some ["b"; "c"])) dinner_trip)
     = Ok out1 /\
     List.length (members_of out1) = List.length (members_of out0)) /\
  split_between_rule no_fresh dinner_trip
    (Expense (VNum (Num 90)) (Some "a") (Some ["b"; "c"])).
Proof.
  apply (split_between_shares no_fresh dinner_trip [dinner]
           (Expense (VNum (Num 90)) (Some "a") (Some ["b"; "c"])) ["b"; "c"]).
  - reflexivity.
  - split; repeat constructor; simpl; intuition discriminate.
  - reflexivity.
  - repeat constructor; simpl; intuition discriminate.
Defined.

(** The claim as the specification states it fails on a split list that
    names a member twice, who is then charged twice, and on two members who
    carry the same identifier, the second of whom is never charged. *)
Lemma split_between_not_per_member :
  ~ split_between_rule no_fresh dinner_trip shared_room /\
  ~ split_between_rule no_fresh twins (Expense (VNum (Num 40)) (Some "a") (Some ["a"])).
Proof.
  split; intros H.
  - destruct (H ["b"; "b"; "c"]
                (returned no_fresh dinner_trip)
                (returned no_fresh (push_expense shared_room dinner_trip)) 1%nat
                (nth 1 (members_of (returned no_fresh dinner_trip)) pinned_member)
                (nth 1 (members_of (returned no_fresh (push_expense shared_room dinner_trip)))
                   pinned_member)) as [Hn _].
    + reflexivity.
    + discriminate.
    + vm_compute. reflexivity.
    + vm_compute. reflexivity.
    + vm_compute. reflexivity.
    + vm_compute. reflexivity.
    + assert (Hb : named ["b"; "b"; "c"]
                     (nth 1 (members_of (returned no_fresh dinner_trip)) pinned_member)).
      { exists "b". split; [vm_compute; reflexivity | left; reflexivity]. }
      specialize (Hn Hb). vm_compute in Hn. discriminate Hn.
  - destruct (H ["a"]
                (returned no_fresh twins)
                (returned no_fresh
                   (push_expense (Expense (VNum (Num 40)) (Some "a") (Some ["a"])) twins))
                1%nat
                (nth 1 (members_of (returned no_fresh twins)) pinned_member)
                (nth 1 (members_of
                          (returned no_fresh
                             (push_expense (Expense (VNum (Num 40)) (Some "a") (Some ["a"]))
                                twins))) pinned_member)) as [Hn _].
    + reflexivity.
    + discriminate.
    + vm_compute. reflexivity.
    + vm_compute. reflexivity.
    + vm_compute. reflexivity.
    + vm_compute. reflexivity.
    + assert (Ha : named ["a"] (nth 1 (members_of (returned no_fresh twins)) pinned_member)).
      { exists "a". split; [vm_compute; reflexivity | left; reflexivity]. }
      specialize (Hn Ha). vm_compute in Hn. discriminate Hn.
Qed.

(** Dividing by a split list of length one gives the amount back. *)
Lemma plus_whole_amount v e :
  plus v (div (expense_amount e) (of_nat 1)) = plus v (expense_amount e).
Proof.
  unfold plus. f_equal. apply add_same; [apply same_refl|].
  destruct (expense_amount_Num e) as [a ->]. apply div_one.
Qed.

(** C4 (amended).  On a document whose members carry distinct identifiers,
    for a pushed expense without a non-empty [splitBetween]: both calls of
    [recalculateState] return and, the amount being
    [parseFloat(e.amount) || 0], an expense paid by [pool] or [all_members]
    adds [amount / number of members] to every member's [expenseShare]; an
    expense paid by a member adds the whole amount to that member's
    [expenseShare] and nothing to the others'; an expense without payer
    leaves every [expenseShare] as it is without the expense. *)
Theorem legacy_split fresh d es e :
  expenses d = Some es ->
  distinct_ids (members_of d) ->
  (exists out0 out1,
     recalculateState fresh d = Ok out0 /\
     recalculateState fresh (push_expense e d) = Ok out1 /\
     List.length (members_of out1) = List.length (members_of out0)) /\
  legacy_split_rule fresh d e.
Proof.
  intros Hes Hd. split; [apply (push_expense_returns fresh d es e Hes Hd)|].
  intros out0 out1 i m0 m1 Hsb H0 H1 Hm0 Hm1.
  destruct (push_expense_share fresh d es e out0 out1 i m0 m1 Hes Hd H0 H1 Hm0 Hm1)
    as [m [Hin [Hid Hsh]]].
  set (ms := members_of d) in *.
  assert (Hsplit : splitMembers e ms =
            match paidBy e with
            | Some p =>
                if truthy_string p
                then if String.eqb p "all_members" || String.eqb p "pool"
                     then map member_id ms else [Some p]
                else []
            | None => []
            end)
    by (unfold splitMembers; destruct Hsb as [-> | ->]; reflexivity).
  unfold times_owed, sharePerMember in Hsh.
  change (expense_amount e) with (or_zero (parseFloat (amount e))) in Hsh.
  split; [|split].
  - intros Hp.
    assert (Hall : splitMembers e ms = map member_id ms)
      by (rewrite Hsplit; destruct Hp as [-> | ->]; reflexivity).
    rewrite Hall, length_map, (count_once (map member_id ms) (member_id m)) in Hsh
      by (destruct Hd as [_ Hnd]; exact Hnd).
    replace (existsb (id_eqb (member_id m)) (map member_id ms)) with true in Hsh;
      [exact Hsh|].
    symmetry. apply existsb_exists. exists (member_id m).
    split; [apply in_map; exact Hin | apply id_eqb_eq; reflexivity].
  - intros p Hp Hp0 Hp1 Hp2.
    assert (Hone : splitMembers e ms = [Some p]).
    { rewrite Hsplit, Hp. unfold truthy_string.
      apply String.eqb_neq in Hp0, Hp1, Hp2. rewrite Hp0, Hp1, Hp2. reflexivity. }
    rewrite Hone in Hsh. cbn [filter List.length] in Hsh. split.
    + intros Hm. rewrite Hid in Hm.
      rewrite (proj2 (id_eqb_eq (member_id m) (Some p)) Hm) in Hsh.
      cbn [List.length Nat.iter nat_rect] in Hsh. rewrite Hsh.
      apply (plus_whole_amount (expenseShare m0) e).
    + intros Hm. rewrite Hid in Hm.
      destruct (id_eqb (member_id m) (Some p)) eqn:E; [|exact Hsh].
      apply id_eqb_eq in E. contradiction.
  - intros Hp.
    assert (Hnone : splitMembers e ms = [])
      by (rewrite Hsplit; destruct Hp as [-> | ->]; reflexivity).
    rewrite Hnone in Hsh. exact Hsh.
Qed.

Lemma legacy_split_witness :
  (exists out0 out1,
     recalculateState no_fresh dinner_trip = Ok out0 /\
     recalculateState no_fresh (push_expense pool_taxi dinner_trip) = Ok out1 /\
     List.length (members_of out1) = List.length (members_of out0)) /\
  legacy_split_rule no_fresh dinner_trip pool_taxi.
Proof.
  apply (legacy_split no_fresh dinner_trip [dinner] pool_taxi).
  - reflexivity.
  - split; repeat constructor; simpl; intuition discriminate.
Defined.

(** The claim as the specification states it fails on two members who carry
    the same identifier: an expense paid from the pool is charged twice to
    the first of them and not at all to the second. *)
Lemma legacy_split_not_even :
  ~ legacy_split_rule no_fresh twins pool_taxi.
Proof.
  intros H.
  destruct (H (returned no_fresh twins)
              (returned no_fresh (push_expense pool_taxi twins)) 1%nat
              (nth 1 (members_of (returned no_fresh twins)) pinned_member)
              (nth 1 (members_of (returned no_fresh (push_expense pool_taxi twins)))
                 pinned_member)) as [Hpool _].
  - left. reflexivity.
  - vm_compute. reflexivity.
  - vm_compute. reflexivity.
  - vm_compute. reflexivity.
  - vm_compute. reflexivity.
  - specialize (Hpool (or_introl eq_refl)). vm_compute in Hpool. discriminate Hpool.
Qed.

(** * The engine over binary64 numbers *)

Section Binary64Properties.
Import Binary64.


(** ** The slot that only the first loop assigns *)















(** ** Rounding to cents *)

(** The stored balance is [Math.round] of a binary64 product, not the
    decimal rounding of the balance on paper.  A member who owes a fifth of
    3 and an eighth of 5, 1.225 in all, is left with -1.23: the share is
    the binary64 sum of 0.6 and 0.625, its product by 100 lies below -122.5
    and is no tie.  Likewise 1.005 is taken to 1, its product by 100 being
    100.49999999999999. *)
Lemma binary64_round2_not_decimal :
  option_map (fun ms => map balance (firstn 1 ms))
    (match recalculateState no_fresh two_splits_trip with
     | Ok out => members out
     | TypeError => None
     end)
  = Some [VNum (div (of_Z (-123)) (of_Z 100))] /\
  round2 (div (of_Z 1005) (of_Z 1000)) = of_Z 1.
Proof. split; vm_compute; reflexivity. Qed.

End Binary64Properties.
